(** * Behavioural analytics engine: a shallow embedding and its properties

    The engine turns a trader's logged trades and declared trading plan into
    a psychological state, a confidence value, forecasts, insights and a
    suite of composite scores.  JavaScript numbers are modelled as exact
    rationals ([Q]), nullable number fields as [option Q], timestamps as
    integer milliseconds since the epoch ([Z]), arrays as lists and the
    per-day objects of the day grouping as finite maps keyed by the day
    number.  Every division of the engine is guarded ([Math.max(1, n)],
    [x || 1], an emptiness test), so no [NaN] or infinity arises from
    numeric inputs.  [Math.sqrt] is a parameter of the scorers that take a
    standard deviation; where only its rounding is observed (state history)
    it is computed exactly on the integers.  The clock and the timezone
    offset are parameters of the functions that read them, and so is the
    ISO date string of a day, by which the consistency trend sorts its
    days. *)

From Stdlib Require Import ZArith QArith Qround Qabs Qminmax List Bool Lia Lqa String.
From stdpp Require Import gmap.

Import ListNotations.
Local Open Scope Z_scope.

(** ** JavaScript numbers *)

Module Js.

Definition Qltb (a b : Q) : bool := negb (Qle_bool b a).
Definition Qgtb (a b : Q) : bool := Qltb b a.
Definition Qgeb (a b : Q) : bool := Qle_bool b a.

(** [Math.round]: the nearest integer, halves rounded towards +infinity. *)
Definition round (x : Q) : Z := Qfloor (x + (1 # 2)).

(** Truthiness of a nullable number, as in [t.riskPercentUsed && ...]:
    [null] and [0] are both falsy. *)
Definition truthy (x : option Q) : bool :=
  match x with
  | Some q => negb (Qeq_bool q 0)
  | None => false
  end.

(** [x != null] *)
Definition notNull {A} (x : option A) : bool :=
  match x with Some _ => true | None => false end.

Definition ofNat (n : nat) : Q := inject_Z (Z.of_nat n).

(** [xs.reduce((a, b) => a + b, 0)] *)
Definition sum (xs : list Q) : Q := fold_left Qplus xs 0%Q.

(** [q || d] on a number *)
Definition orQ (q d : Q) : Q := if Qeq_bool q 0 then d else q.

End Js.

Import Js.

(** ** Data model (models/enums.js, models/trade.model.js, models/tradingPlan.model.js) *)

Inductive TradingSessions := LONDON | NY | ASIA.
Inductive StopLossDisciplines := ALWAYS | FLEXIBLE.
Inductive PsychologicalState := STABLE | OVEREXTENDED | HESITANT | AGGRESSIVE.
Inductive RiskLevel := LOW | MEDIUM | HIGH.
Inductive PerformanceInsightType := POSITIVE | CONSTRUCTIVE.

Definition session_eqb (a b : TradingSessions) : bool :=
  match a, b with
  | LONDON, LONDON | NY, NY | ASIA, ASIA => true
  | _, _ => false
  end.

Definition state_eqb (a b : PsychologicalState) : bool :=
  match a, b with
  | STABLE, STABLE | OVEREXTENDED, OVEREXTENDED
  | HESITANT, HESITANT | AGGRESSIVE, AGGRESSIVE => true
  | _, _ => false
  end.

Record Trade := {
  tradeId : Z;
  entryTime : Z;
  exitTime : Z;
  riskPercentUsed : option Q;
  profitLoss : Q;
  riskRewardAchieved : option Q;
  session : TradingSessions;
  stopLossHit : bool;
  exitedEarly : bool;
  targetPercentAchieved : option Q;
  notes : option string
}.

Record TradingPlan := {
  maxTradesPerDay : Z;
  riskPercentPerTrade : Q;
  targetRiskRewardRatio : Q;
  preferredSessions : list TradingSessions;
  stopLossDiscipline : StopLossDisciplines
}.

(** [sessions.includes(s)] *)
Definition includes (sessions : list TradingSessions) (s : TradingSessions) : bool :=
  existsb (session_eqb s) sessions.

(** [xs.filter(p).length] *)
Definition count {A} (p : A -> bool) (xs : list A) : nat :=
  length (List.filter p xs).

(** [xs.slice(0, n)] *)
Definition take {A} (n : nat) (xs : list A) : list A := firstn n xs.

(** The non-null values of a nullable field, in list order. *)
Definition present {A} (f : Trade -> option A) (trades : list Trade) : list A :=
  omap f trades.

(** [(a, b) => new Date(a.entryTime) - new Date(b.entryTime)] with the
    stable [Array.prototype.sort]: an insertion sort that keeps equal
    entry times in their original order ([t] comes before every element
    of [sorted] in the array being sorted). *)
Fixpoint insertByEntry (t : Trade) (sorted : list Trade) : list Trade :=
  match sorted with
  | [] => [t]
  | u :: rest =>
      if entryTime t <=? entryTime u then t :: sorted
      else u :: insertByEntry t rest
  end.

Definition sortByEntryTime (trades : list Trade) : list Trade :=
  fold_right insertByEntry [] trades.

(** [(a, b) => a - b] on numbers. *)
Fixpoint insertQ (x : Q) (sorted : list Q) : list Q :=
  match sorted with
  | [] => [x]
  | y :: rest => if Qle_bool x y then x :: sorted else y :: insertQ x rest
  end.

Definition sortQ (xs : list Q) : list Q := fold_right insertQ [] xs.

(** ** utils/computeMedian.js *)

Definition computeMedian (sortedNumbers : list Q) : Q :=
  match sortedNumbers with
  | [] => 0%Q
  | _ =>
      let midIdx := Nat.div (length sortedNumbers) 2 in
      if Nat.eqb (Nat.modulo (length sortedNumbers) 2) 1
      then nth midIdx sortedNumbers 0%Q
      else ((nth (midIdx - 1) sortedNumbers 0 + nth midIdx sortedNumbers 0) / 2)%Q
  end.

(** ** services/analysis/metrics.js *)

Module Metrics.

Record BasicMetrics := {
  winRate : Q;
  avgRiskUsed : Q;
  avgRR : Q;
  medianTargetPct : Q;
  nearTargetHits : nat;
  earlyExits : nat
}.

Definition isWin (t : Trade) : bool := Qgtb (profitLoss t) 0.

Definition tradesWithRisk (trades : list Trade) : list Trade :=
  List.filter (fun t => notNull (riskPercentUsed t)) trades.

Definition tradesWithRR (trades : list Trade) : list Trade :=
  List.filter (fun t => notNull (riskRewardAchieved t)) trades.

(** [ts.reduce((sum, t) => sum + t.f, 0)] on a list already filtered to
    non-null [f]; a null that slipped through would add as [0], which the
    filter rules out. *)
Definition sumField (f : Trade -> option Q) (ts : list Trade) : Q :=
  fold_left (fun s t => (s + default 0 (f t))%Q) ts 0%Q.

Definition fieldAverageOr (dflt : Q) (f : Trade -> option Q) (withField : list Trade) : Q :=
  if (0 <? length withField)%nat
  then (sumField f withField / ofNat (length withField))%Q
  else dflt.

Definition isEarlyExit (t : Trade) : bool :=
  let profitableEarly :=
    isWin t &&
    match targetPercentAchieved t with
    | Some pct => Qgeb pct 30 && Qle_bool pct 80
    | None => false
    end in
  exitedEarly t || profitableEarly.

Definition isNearTargetHit (t : Trade) : bool :=
  match targetPercentAchieved t with
  | Some pct => Qgeb pct 80
  | None => false
  end.

Definition calculateBasicMetrics (trades : list Trade) : BasicMetrics :=
  let totalTrades := length trades in
  if Nat.eqb totalTrades 0 then
    {| winRate := 0; avgRiskUsed := 0; avgRR := 0; medianTargetPct := 0;
       nearTargetHits := 0; earlyExits := 0 |}
  else
    let winCount := count isWin trades in
    let targetPercents := present targetPercentAchieved trades in
    let sortedTargetPercents := sortQ targetPercents in
    {| winRate := (ofNat winCount / ofNat totalTrades)%Q;
       avgRiskUsed := fieldAverageOr 0 riskPercentUsed (tradesWithRisk trades);
       avgRR := fieldAverageOr 0 riskRewardAchieved (tradesWithRR trades);
       medianTargetPct := computeMedian sortedTargetPercents;
       nearTargetHits := count isNearTargetHit trades;
       earlyExits := count isEarlyExit trades |}.

Record DayMetrics := {
  daysWithTrades : nat;
  exceededDays : nat;
  outsideSessionDays : nat
}.

(** [new Date(t.entryTime).toISOString().split('T')[0]]: the UTC calendar
    day, represented by its day number. *)
Definition dayKey (t : Trade) : Z := entryTime t / 86400000.

Definition isOutsideSession (plan : TradingPlan) (t : Trade) : bool :=
  negb (includes (preferredSessions plan) (session t)).

(** One iteration of the [forEach] that fills [tradesByDay] and
    [outsideSessionByDay]. *)
Definition groupStep (plan : TradingPlan)
    (acc : gmap Z nat * gmap Z bool) (t : Trade) : gmap Z nat * gmap Z bool :=
  let tradesByDay := fst acc in
  let outsideSessionByDay := snd acc in
  let k := dayKey t in
  (<[k := (default 0 (tradesByDay !! k) + 1)%nat]> tradesByDay,
   if isOutsideSession plan t then <[k := true]> outsideSessionByDay
   else outsideSessionByDay).

Definition groupByDay (plan : TradingPlan) (trades : list Trade)
  : gmap Z nat * gmap Z bool :=
  fold_left (groupStep plan) trades (∅, ∅).

(** [cnt > (plan.maxTradesPerDay || Infinity)] *)
Definition exceedsCap (plan : TradingPlan) (cnt : nat) : bool :=
  if maxTradesPerDay plan =? 0 then false
  else maxTradesPerDay plan <? Z.of_nat cnt.

Definition calculateDayMetrics (trades : list Trade) (plan : TradingPlan) : DayMetrics :=
  let grouped := groupByDay plan trades in
  let tradesByDay := fst grouped in
  let outsideSessionByDay := snd grouped in
  {| daysWithTrades := if Nat.eqb (size tradesByDay) 0 then 1 else size tradesByDay;
     exceededDays := count (exceedsCap plan) (map snd (map_to_list tradesByDay));
     outsideSessionDays := size outsideSessionByDay |}.

Record RiskSpike := {
  riskSpike : bool;
  last3Breaches : nat
}.

Definition exceedsRisk (threshold : Q) (t : Trade) : bool :=
  match riskPercentUsed t with
  | Some r => Qgtb r threshold
  | None => false
  end.

Definition calculateRiskSpike (trades : list Trade) (planRisk : Q) : RiskSpike :=
  if Nat.eqb (length trades) 0 then {| riskSpike := false; last3Breaches := 0 |}
  else
    let recentAvgRisk := fieldAverageOr planRisk riskPercentUsed (tradesWithRisk trades) in
    let last3 := take 3 trades in
    let riskSpikeThreshold := Qmax (planRisk * (13 # 10)) (recentAvgRisk * (13 # 10)) in
    let breaches := count (exceedsRisk riskSpikeThreshold) last3 in
    {| riskSpike := (2 <=? breaches)%nat; last3Breaches := breaches |}.

Definition calculateRiskBreaches (trades : list Trade) (planRisk : Q) : nat :=
  count (exceedsRisk (planRisk * (15 # 10))) trades.

End Metrics.

(** ** services/analysis/planAdherence.js *)

Module PlanAdherence.
Import Metrics.

Definition WEIGHTS : list Q := [4 # 10; 25 # 100; 25 # 100; 1 # 10]%Q.

(** [Math.max(1, n)] on a count *)
Definition atLeast1 (n : nat) : Q := ofNat (Nat.max 1 n).

Definition weightedSum (components weights : list Q) : Q :=
  fold_left (fun s vw => (s + fst vw * snd vw)%Q) (combine components weights) 0%Q.

(** No component can be [NaN] here (every divisor is at least 1), so each
    of the four [!Number.isNaN] guards passes and all four are pushed. *)
Definition calculatePlanAdherence
    (riskBreaches nearTargetHits : nat) (dayMetrics : DayMetrics) (totalTrades : nat) : Z :=
  let riskDiscipline := (1 - ofNat riskBreaches / atLeast1 totalTrades)%Q in
  let sessionAdherence :=
    (1 - ofNat (outsideSessionDays dayMetrics) / atLeast1 (daysWithTrades dayMetrics))%Q in
  let tradeCountDiscipline :=
    (1 - ofNat (exceededDays dayMetrics) / atLeast1 (daysWithTrades dayMetrics))%Q in
  let targetProgress := Qmin 1 (ofNat nearTargetHits / atLeast1 totalTrades) in
  let components := [riskDiscipline; sessionAdherence; tradeCountDiscipline; targetProgress] in
  let weights := WEIGHTS in
  let weightSum := orQ (sum weights) 1 in
  let adherenceWeighted := (weightedSum components weights / weightSum)%Q in
  round (adherenceWeighted * 100).

End PlanAdherence.

(** ** services/analysis/confidence.js *)

Module Confidence.
Import Metrics.

Definition signalStrength (metrics : BasicMetrics) (planRisk : Q) : Q :=
  Qmax
    (Qmax
       (Qabs ((if Qeq_bool planRisk 0 then 1 else avgRiskUsed metrics / planRisk) - 1))
       (Qabs (winRate metrics - (1 # 2)) * 2))
    (Qabs (orQ (medianTargetPct metrics) 0 / 100 - (6 # 10))).

Definition calculateConfidence
    (metrics : BasicMetrics) (planAdherence : Z) (planRisk : Q) (totalTrades : nat) : Z :=
  let sampleFactor := (ofNat (Nat.min totalTrades 10) / 10)%Q in
  let discipline := (inject_Z planAdherence / 100)%Q in
  let confidence :=
    round (100 * ((1 # 2) * discipline + (3 # 10) * sampleFactor
                  + (2 # 10) * signalStrength metrics planRisk)) in
  let confidence := Z.max 10 (Z.min 95 confidence) in
  if (totalTrades <? 5)%nat then Z.min confidence 40 else confidence.

End Confidence.

(** ** services/analysis/stateDetermination.js *)

Module StateDetermination.
Import Metrics.

Record Indicator := {
  category : string;
  message : string;
  severity : string;
  value : option Q
}.

Record RiskMetrics := {
  spike : RiskSpike;
  riskBreaches : nat;
  riskAvgRiskUsed : Q
}.

Record Determination := {
  state : PsychologicalState;
  indicators : list Indicator;
  recommendations : list string
}.

Definition ratio (n d : nat) : Q := (ofNat n / ofNat d)%Q.

Definition overextended (dayMetrics : DayMetrics) : bool :=
  (0 <? daysWithTrades dayMetrics)%nat &&
  (Qgeb (ratio (exceededDays dayMetrics) (daysWithTrades dayMetrics)) (33 # 100)
   || Qgeb (ratio (outsideSessionDays dayMetrics) (daysWithTrades dayMetrics)) (33 # 100)).

Definition aggressive (riskMetrics : RiskMetrics) (planRisk : Q) (totalTrades : nat) : bool :=
  riskSpike (spike riskMetrics)
  || Qgeb (ratio (riskBreaches riskMetrics) (Nat.max 1 totalTrades)) (25 # 100)
  || Qgtb (riskAvgRiskUsed riskMetrics) (planRisk * (125 # 100)).

Definition hesitant (metrics : BasicMetrics) (totalTrades : nat) : bool :=
  Qgeb (ratio (earlyExits metrics) (Nat.max 1 totalTrades)) (4 # 10)
  || (Qltb (medianTargetPct metrics) 60 && Qle_bool (winRate metrics) (6 # 10)).

Definition when {A} (b : bool) (xs : list A) : list A := if b then xs else [].

Local Open Scope string_scope.
Local Open Scope list_scope.

Definition determineState
    (metrics : BasicMetrics) (dayMetrics : DayMetrics) (riskMetrics : RiskMetrics)
    (planRisk : Q) (totalTrades : nat) : Determination :=
  if overextended dayMetrics then
    {| state := OVEREXTENDED;
       indicators :=
         [ {| category := "discipline"; message := "Trading beyond plan boundaries";
              severity := "warning"; value := None |} ]
         ++ when (0 <? exceededDays dayMetrics)%nat
              [ {| category := "frequency"; message := "Exceeded max trades/day";
                   severity := "warning";
                   value := Some (ofNat (exceededDays dayMetrics)) |} ]
         ++ when (0 <? outsideSessionDays dayMetrics)%nat
              [ {| category := "session"; message := "Outside preferred sessions (days)";
                   severity := "warning";
                   value := Some (ofNat (outsideSessionDays dayMetrics)) |} ];
       recommendations := ["Respect daily trade cap and stick to planned sessions"] |}
  else if aggressive riskMetrics planRisk totalTrades then
    {| state := AGGRESSIVE;
       indicators :=
         when (riskSpike (spike riskMetrics))
           [ {| category := "risk"; message := "Sustained risk elevation (2 of last 3)";
                severity := "critical";
                value := Some (ofNat (last3Breaches (spike riskMetrics))) |} ]
         ++ when (0 <? riskBreaches riskMetrics)%nat
              [ {| category := "risk"; message := "Risk > 1.5x plan detected";
                   severity := "critical";
                   value := Some (ofNat (riskBreaches riskMetrics)) |} ]
         ++ when (Qgtb (riskAvgRiskUsed riskMetrics) (planRisk * (125 # 100)))
              [ {| category := "risk"; message := "Average risk above plan by 25%+";
                   severity := "warning";
                   value := Some (inject_Z (round (riskAvgRiskUsed riskMetrics * 100)) / 100)%Q |} ];
       recommendations := ["Reduce position size to plan level and enforce stop discipline"] |}
  else if hesitant metrics totalTrades then
    {| state := HESITANT;
       indicators :=
         when (0 <? earlyExits metrics)%nat
           [ {| category := "execution"; message := "Frequent early exits";
                severity := "warning"; value := Some (ofNat (earlyExits metrics)) |} ]
         ++ when (Qltb (medianTargetPct metrics) 60)
              [ {| category := "targets"; message := "Median target % below 60";
                   severity := "neutral";
                   value := Some (inject_Z (round (medianTargetPct metrics))) |} ];
       recommendations := ["Define target rules; practice holding winners and scaling out"] |}
  else
    {| state := STABLE;
       indicators :=
         [ {| category := "plan"; message := "Trading within plan parameters";
              severity := "positive"; value := None |} ]
         ++ when (Qgeb (ratio (nearTargetHits metrics) (Nat.max 1 totalTrades)) (6 # 10))
              [ {| category := "targets"; message := "Exits near targets";
                   severity := "positive";
                   value := Some (ofNat (nearTargetHits metrics)) |} ];
       recommendations := ["Maintain discipline; continue tracking adherence"] |}.

End StateDetermination.

(** ** services/analysis/stateAnalysis.js *)

Module StateAnalysis.
Import Metrics StateDetermination.

Record Analysis := {
  state : PsychologicalState;
  confidence : Z;
  planAdherence : Z;
  analyzedTradeCount : nat;
  indicators : list Indicator;
  recommendations : list string
}.

Local Open Scope string_scope.
Local Open Scope list_scope.

Definition noData : Analysis :=
  {| state := STABLE;
     confidence := 50;
     planAdherence := 50;
     analyzedTradeCount := 0;
     indicators :=
       [ {| category := "data"; message := "Insufficient data to analyze state";
            severity := "neutral"; value := None |} ];
     recommendations := ["Record trades and set a trading plan to enable analysis"] |}.

Definition analyzePsychologicalState (trades : list Trade) (plan : option TradingPlan)
  : Analysis :=
  match trades, plan with
  | [], _ | _, None => noData
  | _ :: _, Some plan =>
      let analyzedTrades := take 10 trades in
      let totalTrades := length analyzedTrades in
      let planRisk := orQ (riskPercentPerTrade plan) 0 in
      let basicMetrics := calculateBasicMetrics analyzedTrades in
      let dayMetrics := calculateDayMetrics analyzedTrades plan in
      let riskSpikeData := calculateRiskSpike analyzedTrades planRisk in
      let riskBreaches := calculateRiskBreaches analyzedTrades planRisk in
      let riskMetrics :=
        {| spike := riskSpikeData; StateDetermination.riskBreaches := riskBreaches;
           riskAvgRiskUsed := avgRiskUsed basicMetrics |} in
      let planAdherence :=
        PlanAdherence.calculatePlanAdherence
          riskBreaches (nearTargetHits basicMetrics) dayMetrics totalTrades in
      let d := determineState basicMetrics dayMetrics riskMetrics planRisk totalTrades in
      let confidence :=
        Confidence.calculateConfidence basicMetrics planAdherence planRisk totalTrades in
      {| state := StateDetermination.state d;
         confidence := confidence;
         planAdherence := planAdherence;
         analyzedTradeCount := totalTrades;
         indicators := StateDetermination.indicators d;
         recommendations := StateDetermination.recommendations d |}
  end.

End StateAnalysis.

(** ** utils/stateTrigger.js *)

Definition getStateTrigger (trade : Trade) : string :=
  if Qgtb (profitLoss trade) 0 then "Profitable trade"%string
  else if Qltb (profitLoss trade) 0 then "Losing trade"%string
  else if exitedEarly trade then "Early exit"%string
  else if stopLossHit trade then "Stop loss hit"%string
  else "Trade execution"%string.

(** ** services/analysis/stateHistory.js *)

Module StateHistory.
Import StateAnalysis.

Record Context := {
  ctxTradeId : Z;
  ctxProfitLoss : Q;
  ctxRiskPercentUsed : option Q
}.

Record HistoryPoint := {
  timestamp : Z;
  pointState : PsychologicalState;
  pointConfidence : Z;
  trigger : string;
  context : Context
}.

Record Summary := {
  totalChanges : nat;
  mostCommonState : PsychologicalState;
  averageConfidence : Z;
  volatility : Q
}.

Record History := {
  history : list HistoryPoint;
  summary : Summary
}.

(** What a call leaves behind: the returned value and the contents of the
    caller's [trades] array once the call has returned.  [Array.prototype.sort]
    sorts its receiver in place, and the receiver here is the argument
    itself. *)
Record Outcome := {
  returned : History;
  tradesAfter : list Trade
}.

(** Loop state of the [for] loop: the arrays [history], [states],
    [confidences] (all appended to together), [stateChangeCount] and
    [lastState]. *)
Record LoopState := {
  accHistory : list HistoryPoint;
  accStates : list PsychologicalState;
  accConfidences : list Z;
  stateChangeCount : nat;
  lastState : option Analysis
}.

(** [sortedTrades.slice(Math.max(0, i - 4), i + 1)] *)
Definition window (sortedTrades : list Trade) (i : nat) : list Trade :=
  let start := (i - 4)%nat in
  firstn (i + 1 - start) (skipn start sortedTrades).

Definition changed (lastState : option Analysis) (current : Analysis) : bool :=
  match lastState with
  | None => true
  | Some previous =>
      negb (state_eqb (state previous) (state current))
      || (15 <? Z.abs (confidence previous - confidence current))
  end.

Definition step (plan : TradingPlan) (sortedTrades : list Trade)
    (acc : LoopState) (i : nat) (trade : Trade) : LoopState :=
  let recentTrades := window sortedTrades i in
  let current := analyzePsychologicalState recentTrades (Some plan) in
  if changed (lastState acc) current then
    {| accHistory := accHistory acc ++
         [ {| timestamp := entryTime trade;
              pointState := state current;
              pointConfidence := confidence current;
              trigger := getStateTrigger trade;
              context := {| ctxTradeId := tradeId trade;
                            ctxProfitLoss := profitLoss trade;
                            ctxRiskPercentUsed := riskPercentUsed trade |} |} ];
       accStates := accStates acc ++ [state current];
       accConfidences := accConfidences acc ++ [confidence current];
       stateChangeCount := S (stateChangeCount acc);
       lastState := Some current |}
  else acc.

(** [for (i = from; i < sortedTrades.length && history.length < limit; i += 1)],
    with [remaining] the trades at indices [from], [from + 1], ... *)
Fixpoint loop (plan : TradingPlan) (limit : Z) (sortedTrades remaining : list Trade)
    (from : nat) (acc : LoopState) : LoopState :=
  match remaining with
  | [] => acc
  | trade :: rest =>
      if Z.of_nat (length (accHistory acc)) <? limit
      then loop plan limit sortedTrades rest (S from) (step plan sortedTrades acc from trade)
      else acc
  end.

(** [stateCounts[st] = (stateCounts[st] || 0) + 1] on an object whose keys
    keep their insertion order. *)
Fixpoint bump (st : PsychologicalState) (stateCounts : list (PsychologicalState * nat))
  : list (PsychologicalState * nat) :=
  match stateCounts with
  | [] => [(st, 1%nat)]
  | (k, n) :: rest =>
      if state_eqb k st then (k, S n) :: rest else (k, n) :: bump st rest
  end.

Definition countStates (states : list PsychologicalState) : list (PsychologicalState * nat) :=
  fold_left (fun counts st => bump st counts) states [].

(** [Object.keys(stateCounts).reduce((a, b) => stateCounts[a] > stateCounts[b] ? a : b)] *)
Definition pickMostCommon (stateCounts : list (PsychologicalState * nat)) : PsychologicalState :=
  match stateCounts with
  | [] => STABLE
  | first :: rest =>
      fst (fold_left (fun a b => if (snd b <? snd a)%nat then a else b) rest first)
  end.

(** [Math.round(Math.sqrt(v))], computed exactly on the integers: the
    nearest integer to the square root of a non-negative rational. *)
Definition roundSqrt (v : Q) : Z := (Z.sqrt (Qfloor (4 * v)) + 1) / 2.

Definition sumZ (xs : list Z) : Z := fold_left Z.add xs 0.

Definition meanConfidence (confidences : list Z) : Z :=
  if (0 <? length confidences)%nat
  then round (inject_Z (sumZ confidences) / ofNat (length confidences))
  else 50.

Definition varianceAround (centre : Z) (confidences : list Z) : Q :=
  if (0 <? length confidences)%nat
  then Qdiv (inject_Z (fold_left (fun s conf => s + (conf - centre) ^ 2) confidences 0))
            (ofNat (length confidences))
  else 0%Q.

(** [Math.round((Math.sqrt(variance) / 100) * 100) / 100] *)
Definition volatilityOf (variance : Q) : Q := (inject_Z (roundSqrt variance) / 100)%Q.

Definition summarize (acc : LoopState) : Summary :=
  let stateCounts := countStates (accStates acc) in
  let averageConfidence := meanConfidence (accConfidences acc) in
  let variance := varianceAround averageConfidence (accConfidences acc) in
  {| totalChanges := stateChangeCount acc;
     mostCommonState := pickMostCommon stateCounts;
     averageConfidence := averageConfidence;
     volatility := volatilityOf variance |}.

Definition emptyHistory : History :=
  {| history := [];
     summary := {| totalChanges := 0; mostCommonState := STABLE;
                   averageConfidence := 50; volatility := 0 |} |}.

Definition initial : LoopState :=
  {| accHistory := []; accStates := []; accConfidences := [];
     stateChangeCount := 0; lastState := None |}.

(** [history.slice(0, limit)]; a negative [limit] counts from the end. *)
Definition sliceTo (limit : Z) (points : list HistoryPoint) : list HistoryPoint :=
  if limit <? 0
  then firstn (Z.to_nat (Z.of_nat (length points) + limit)) points
  else firstn (Z.to_nat limit) points.

Definition analyzeStateHistory (trades : list Trade) (plan : option TradingPlan) (limit : Z)
  : Outcome :=
  match trades, plan with
  | [], _ | _, None => {| returned := emptyHistory; tradesAfter := trades |}
  | _ :: _, Some plan =>
      let sortedTrades := sortByEntryTime trades in
      let final := loop plan limit sortedTrades sortedTrades 0 initial in
      {| returned := {| history := sliceTo limit (accHistory final);
                        summary := summarize final |};
         tradesAfter := sortedTrades |}
  end.

End StateHistory.

(** ** services/analysis/sessionForecast.js *)

Module SessionForecast.
Import Metrics.

Inductive ForecastLabel := FORECAST_POSITIVE | FORECAST_NEUTRAL | FORECAST_NEGATIVE.

Record Forecast := {
  forecastSession : TradingSessions;
  predictedBias : string;
  riskLevel : RiskLevel;
  forecast : ForecastLabel;
  recommendations : list string;
  basedOnState : PsychologicalState
}.

Local Open Scope string_scope.
Local Open Scope list_scope.

Definition isHigh (r : RiskLevel) : bool :=
  match r with HIGH => true | _ => false end.

Definition isNeutral (bias : string) : bool := String.eqb bias "NEUTRAL".

(** [(currentState && currentState.state) || PsychologicalState.STABLE] *)
Definition stateOr (currentState : option PsychologicalState) : PsychologicalState :=
  match currentState with Some s => s | None => STABLE end.

(** The session argument is one of the enumerated (upper-case) session
    names or absent; [(session || LONDON).toUpperCase()]. *)
Definition upperSession (session : option TradingSessions) : TradingSessions :=
  match session with Some s => s | None => LONDON end.

Definition analyzeSessionForecast (trades : list Trade) (session : option TradingSessions)
    (plan : option TradingPlan) (currentState : option PsychologicalState) : Forecast :=
  match trades, plan with
  | [], _ | _, None =>
      {| forecastSession := upperSession session;
         predictedBias := "NEUTRAL";
         riskLevel := MEDIUM;
         forecast := FORECAST_NEUTRAL;
         recommendations := ["Log more trades in this session to improve forecast"];
         basedOnState := stateOr currentState |}
  | _ :: _, Some plan =>
      let totalTrades := length trades in
      let planRisk := orQ (riskPercentPerTrade plan) 0 in
      let avgRisk := fieldAverageOr planRisk riskPercentUsed (tradesWithRisk trades) in
      let outsideSessionTrades := count (isOutsideSession plan) trades in
      let predictedBias := "NEUTRAL" in
      let riskLevel := MEDIUM in
      let recommendations := @nil string in
      let recentLossStreak :=
        forallb (fun t => Qle_bool (profitLoss t) 0) (take 3 trades)
        && (3 <=? totalTrades)%nat in
      (* if (recentLossStreak) *)
      let '(predictedBias, riskLevel, recommendations) :=
        if recentLossStreak
        then ("Revenge trading risk", HIGH,
              recommendations ++ ["Consider pausing before new entries; reset after losses"])
        else (predictedBias, riskLevel, recommendations) in
      (* if (avgRisk > planRisk * 1.25) *)
      let '(predictedBias, riskLevel, recommendations) :=
        if Qgtb avgRisk (planRisk * (125 # 100))
        then ((if isNeutral predictedBias then "Risk escalation tendency" else predictedBias),
              HIGH,
              recommendations ++ ["Reduce risk per trade to plan level"])
        else (predictedBias, riskLevel, recommendations) in
      (* if (outsideSessionTrades / totalTrades >= 0.2) *)
      let '(predictedBias, riskLevel, recommendations) :=
        if Qgeb (ofNat outsideSessionTrades / ofNat totalTrades) (2 # 10)
        then ((if isNeutral predictedBias then "Session drift" else predictedBias),
              (if negb (isHigh riskLevel) then MEDIUM else riskLevel),
              recommendations ++ ["Trade only in preferred sessions for this period"])
        else (predictedBias, riskLevel, recommendations) in
      let recommendations :=
        if isNeutral predictedBias
        then recommendations ++ ["Proceed per plan; monitor emotions after first outcome"]
        else recommendations in
      let forecast :=
        match riskLevel with
        | HIGH => FORECAST_NEGATIVE
        | LOW => FORECAST_POSITIVE
        | MEDIUM => FORECAST_NEUTRAL
        end in
      {| forecastSession := upperSession session;
         predictedBias := predictedBias;
         riskLevel := riskLevel;
         forecast := forecast;
         recommendations := recommendations;
         basedOnState := stateOr currentState |}
  end.

End SessionForecast.

(** ** services/analysis/performanceInsights.js *)

Module PerformanceInsights.
Import Metrics.

Inductive MetricValue :=
| Percent (n : Z)
| Number (q : Q).

Record Insight := {
  type : PerformanceInsightType;
  title : string;
  description : string;
  metricLabel : string;
  metricValue : MetricValue
}.

Record Stats := {
  statsWinRate : Z;
  avgRiskReward : Q;
  planAdherence : Z;
  tradesThisWeek : nat
}.

Record Insights := {
  period : string;
  insights : list Insight;
  stats : Stats;
  recommendations : list string
}.

Definition isPositive (i : Insight) : bool :=
  match type i with POSITIVE => true | CONSTRUCTIVE => false end.

Definition isConstructive (i : Insight) : bool :=
  match type i with CONSTRUCTIVE => true | POSITIVE => false end.

Definition isEarlyExit (t : Trade) : bool :=
  exitedEarly t ||
  match targetPercentAchieved t with
  | Some pct => Qltb pct 50
  | None => false
  end.

Local Open Scope string_scope.
Local Open Scope list_scope.

Definition strongAdherence (planAdherence : Z) : Insight :=
  {| type := POSITIVE; title := "Strong plan adherence";
     description := "You are trading within your rules. Keep it up.";
     metricLabel := "Plan adherence"; metricValue := Percent planAdherence |}.

Definition solidWinRate (winRate : Z) : Insight :=
  {| type := POSITIVE; title := "Solid win rate";
     description := "Your recent outcomes are favorable without overtrading.";
     metricLabel := "Win rate"; metricValue := Percent winRate |}.

Definition exitingTooEarly (earlyExits totalTrades : nat) : Insight :=
  {| type := CONSTRUCTIVE; title := "Exiting too early";
     description := "Consider scaling out or letting winners reach planned targets.";
     metricLabel := "Early exits";
     metricValue := Percent (round (ofNat earlyExits / ofNat totalTrades * 100)) |}.

Definition improveAdherence (planAdherence : Z) : Insight :=
  {| type := CONSTRUCTIVE; title := "Improve plan adherence";
     description := "Stick to sessions and daily trade limits before optimizing entries.";
     metricLabel := "Plan adherence"; metricValue := Percent planAdherence |}.

Definition consistentPractice (totalTrades : nat) : Insight :=
  {| type := POSITIVE; title := "Consistent practice";
     description := "Consistency builds edge. Keep logging trades and reviewing.";
     metricLabel := "Trades analyzed"; metricValue := Number (ofNat totalTrades) |}.

Definition refineExits (avgRR : Q) : Insight :=
  {| type := CONSTRUCTIVE; title := "Refine exits";
     description := "Define rules for taking profits to reduce second-guessing.";
     metricLabel := "Avg R:R"; metricValue := Number avgRR |}.

Definition addData : Insight :=
  {| type := CONSTRUCTIVE; title := "Add data to unlock insights";
     description := "Record trades and set a plan to generate meaningful feedback";
     metricLabel := "Trades analyzed"; metricValue := Number 0 |}.

(** [now] is the clock reading ([new Date()]) in milliseconds; the week
    starts seven calendar days before it. *)
Definition analyzePerformanceInsights (now : Z)
    (trades : list Trade) (plan : option TradingPlan) (period : string) : Insights :=
  match trades, plan with
  | [], _ | _, None =>
      {| period := period;
         insights := [addData];
         stats := {| statsWinRate := 0; avgRiskReward := 0; planAdherence := 0;
                     tradesThisWeek := 0 |};
         recommendations := ["Start with a small set of trades (5-10) to calibrate"] |}
  | _ :: _, Some plan =>
      let totalTrades := length trades in
      let wins := count isWin trades in
      let winRate :=
        if (0 <? totalTrades)%nat then round (ofNat wins / ofNat totalTrades * 100) else 0%Z in
      let withRR := tradesWithRR trades in
      let avgRR :=
        if (0 <? length withRR)%nat
        then (inject_Z (round (sumField riskRewardAchieved withRR / ofNat (length withRR) * 100))
              / 100)%Q
        else 0%Q in
      let riskBreachesRatio :=
        (ofNat (count (exceedsRisk (orQ (riskPercentPerTrade plan) 0 * (15 # 10))) trades)
         / ofNat totalTrades)%Q in
      let outsideSessionRatio :=
        (ofNat (count (isOutsideSession plan) trades) / ofNat totalTrades)%Q in
      let planAdherence :=
        round ((1 - riskBreachesRatio + (1 - outsideSessionRatio)) / 2 * 100) in
      let startOfWeek := now - 7 * 86400000 in
      let tradesThisWeek := count (fun t => (startOfWeek <=? entryTime t)%Z) trades in
      let insights := @nil Insight in
      let insights :=
        if (70 <=? planAdherence)%Z then insights ++ [strongAdherence planAdherence]
        else if (60 <=? winRate)%Z then insights ++ [solidWinRate winRate]
        else insights in
      let earlyExits := count isEarlyExit trades in
      let insights :=
        if Qgeb (ofNat earlyExits / ofNat totalTrades) (3 # 10)
        then insights ++ [exitingTooEarly earlyExits totalTrades]
        else if (planAdherence <? 60)%Z then insights ++ [improveAdherence planAdherence]
        else insights in
      let insights :=
        if negb (existsb isPositive insights)
        then insights ++ [consistentPractice totalTrades] else insights in
      let insights :=
        if negb (existsb isConstructive insights)
        then insights ++ [refineExits avgRR] else insights in
      {| period := period;
         insights := insights;
         stats := {| statsWinRate := winRate; avgRiskReward := avgRR;
                     planAdherence := planAdherence; tradesThisWeek := tradesThisWeek |};
         recommendations := map description (List.filter isConstructive insights) |}
  end.

End PerformanceInsights.

(** ** Shared helpers of the scoring suite (services/zentra) *)

(** [plan?.riskPercentPerTrade || 1] *)
Definition planRiskOr1 (plan : option TradingPlan) : Q :=
  match plan with
  | Some p => orQ (riskPercentPerTrade p) 1
  | None => 1%Q
  end.

(** [plan?.preferredSessions || []] *)
Definition preferredOf (plan : option TradingPlan) : list TradingSessions :=
  match plan with
  | Some p => preferredSessions p
  | None => []
  end.

(** [(new Date(trade.entryTime) - new Date(previous.exitTime)) / (1000 * 60)] *)
Definition diffMinutes (previous trade : Trade) : Q :=
  (inject_Z (entryTime trade - exitTime previous) / 60000)%Q.

(** [(currEntry - prevExit) / (1000 * 60 * 60)] *)
Definition diffHours (previous trade : Trade) : Q :=
  (inject_Z (entryTime trade - exitTime previous) / 3600000)%Q.

(** [diffMinutes < 30 && diffMinutes >= 0] *)
Definition impulsiveGap (previous trade : Trade) : bool :=
  Qltb (diffMinutes previous trade) 30 && Qgeb (diffMinutes previous trade) 0.

(** The consecutive pairs [(sorted[i - 1], sorted[i])] visited by the
    loops [for (let i = 1; i < sorted.length; i++)]. *)
Fixpoint pairs (sorted : list Trade) : list (Trade * Trade) :=
  match sorted with
  | previous :: ((trade :: _) as rest) => (previous, trade) :: pairs rest
  | _ => []
  end.

Definition countPairs (p : Trade -> Trade -> bool) (sorted : list Trade) : nat :=
  count (fun pt => p (fst pt) (snd pt)) (pairs sorted).

Definition somePair (p : Trade -> Trade -> bool) (sorted : list Trade) : bool :=
  existsb (fun pt => p (fst pt) (snd pt)) (pairs sorted).

(** [t.riskPercentUsed && t.riskPercentUsed > bound] *)
Definition riskAbove (bound : Q) (t : Trade) : bool :=
  truthy (riskPercentUsed t) &&
  match riskPercentUsed t with Some r => Qgtb r bound | None => false end.

(** [t.riskPercentUsed && t.riskPercentUsed < bound] *)
Definition riskBelow (bound : Q) (t : Trade) : bool :=
  truthy (riskPercentUsed t) &&
  match riskPercentUsed t with Some r => Qltb r bound | None => false end.

(** [trades.filter((t) => t.riskPercentUsed).map((t) => t.riskPercentUsed)] *)
Definition risksUsed (trades : list Trade) : list Q :=
  present riskPercentUsed (List.filter (fun t => truthy (riskPercentUsed t)) trades).

(** ** services/zentra/planControl.js *)

Module PlanControl.

Definition isInAllowedSession (trade : Trade) (preferred : list TradingSessions) : bool :=
  match preferred with
  | [] => true
  | _ => includes preferred (session trade)
  end.

(** In [trade.targetPercentAchieved >= 80] a [null] compares as [0]. *)
Definition hasProperSlTp (trade : Trade) (targetRR : Q) : bool :=
  if negb (stopLossHit trade) && Qgeb (default 0%Q (targetPercentAchieved trade)) 80
  then true
  else if truthy (riskRewardAchieved trade)
          && match riskRewardAchieved trade with
             | Some rr => Qgeb rr targetRR
             | None => false
             end
  then true
  else false.

Definition hasCorrectPositionSize (trade : Trade) (planRisk : Q) : bool :=
  if negb (truthy (riskPercentUsed trade)) || Qeq_bool planRisk 0 then false
  else
    let minRisk := (planRisk * (9 # 10))%Q in
    let maxRisk := (planRisk * (11 # 10))%Q in
    match riskPercentUsed trade with
    | Some r => Qgeb r minRisk && Qle_bool r maxRisk
    | None => false
    end.

Definition isWhitespace (c : Ascii.ascii) : bool :=
  let n := Ascii.nat_of_ascii c in
  ((9 <=? n) && (n <=? 13))%nat || Nat.eqb n 32.

(** [trade.notes && trade.notes.trim().length > 0]: some character of the
    note is not white space. *)
Definition hasNotes (trade : Trade) : bool :=
  match notes trade with
  | Some s => existsb (fun c => negb (isWhitespace c)) (list_ascii_of_string s)
  | None => false
  end.

Definition hasTimingDiscipline (trade : Trade) (previousTrade : option Trade) : bool :=
  match previousTrade with
  | None => true
  | Some previous => Qgeb (diffMinutes previous trade) 30
  end.

Inductive Criterion :=
  allowedSession | properSlTp | correctPositionSize | notesCriterion | timing.

Record BreakdownEntry := {
  criterion : Criterion;
  points : Z;
  passed : bool
}.

Record TradeScore := {
  score : Z;
  breakdown : list BreakdownEntry
}.

Definition award (c : Criterion) (pts : Z) (ok : bool) (acc : TradeScore) : TradeScore :=
  if ok
  then {| score := score acc + pts;
          breakdown := breakdown acc ++ [ {| criterion := c; points := pts; passed := true |} ] |}
  else {| score := score acc;
          breakdown := breakdown acc ++ [ {| criterion := c; points := 0; passed := false |} ] |}.

Definition calculateTradeScore (trade : Trade) (plan : option TradingPlan)
    (previousTrade : option Trade) : TradeScore :=
  let planRisk := planRiskOr1 plan in
  let targetRR :=
    match plan with Some p => orQ (targetRiskRewardRatio p) 1 | None => 1%Q end in
  let preferred := preferredOf plan in
  let acc := {| score := 0; breakdown := [] |} in
  let acc := award allowedSession 20 (isInAllowedSession trade preferred) acc in
  let acc := award properSlTp 30 (hasProperSlTp trade targetRR) acc in
  let acc := award correctPositionSize 25 (hasCorrectPositionSize trade planRisk) acc in
  let acc := award notesCriterion 10 (hasNotes trade) acc in
  award timing 15 (hasTimingDiscipline trade previousTrade) acc.

Record ScoredTrade := {
  scoredTradeId : Z;
  scoredEntryTime : Z;
  tradeScore : TradeScore
}.

(** The [forEach] over the sorted trades, each scored against the trade
    before it. *)
Fixpoint scoreAll (plan : option TradingPlan) (previous : option Trade)
    (sortedTrades : list Trade) : list ScoredTrade :=
  match sortedTrades with
  | [] => []
  | trade :: rest =>
      {| scoredTradeId := tradeId trade; scoredEntryTime := entryTime trade;
         tradeScore := calculateTradeScore trade plan previous |}
      :: scoreAll plan (Some trade) rest
  end.

Definition totalScore (scores : list ScoredTrade) : Z :=
  fold_left (fun s ts => s + score (tradeScore ts)) scores 0.

Inductive ControlBand := StrongAlignment | MostlyFollowed | Unstable | Overridden.

Definition getPlanControlMessage (percentage : Z) : ControlBand :=
  if 80 <=? percentage then StrongAlignment
  else if 60 <=? percentage then MostlyFollowed
  else if 40 <=? percentage then Unstable
  else Overridden.

Record PlanControlResult := {
  percentage : Z;
  tradesAnalyzed : nat;
  band : option ControlBand;
  tradeScores : list ScoredTrade
}.

Definition calculatePlanControl (trades : list Trade) (plan : option TradingPlan)
  : PlanControlResult :=
  match trades with
  | [] => {| percentage := 0; tradesAnalyzed := 0; band := None; tradeScores := [] |}
  | _ :: _ =>
      let recentTrades := take 5 trades in
      let sortedTrades := sortByEntryTime recentTrades in
      let scores := scoreAll plan None sortedTrades in
      let percentage :=
        round (inject_Z (totalScore scores) / ofNat (length sortedTrades)) in
      {| percentage := percentage;
         tradesAnalyzed := length sortedTrades;
         band := Some (getPlanControlMessage percentage);
         tradeScores := scores |}
  end.

End PlanControl.

(** ** services/zentra/mentalBattery.js *)

Module MentalBattery.

Definition isImpulsiveReentry (trade : Trade) (previousTrade : option Trade) : bool :=
  match previousTrade with
  | None => false
  | Some previous => impulsiveGap previous trade
  end.

Definition isOversizedTrade (trade : Trade) (planRisk : Q) : bool :=
  if negb (truthy (riskPercentUsed trade)) || Qeq_bool planRisk 0 then false
  else match riskPercentUsed trade with
       | Some r => Qgtb r (planRisk * (13 # 10))
       | None => false
       end.

Definition isLargeLoss (trade : Trade) (planRisk : Q) : bool :=
  if Qeq_bool planRisk 0 then false
  else Qltb (profitLoss trade) (-2 * planRisk).

Definition twoHoursMs : Z := 2 * 60 * 60 * 1000.

(** The inner [for (j = i + 1; ...)] loop: counts the trades that follow
    within two hours of [windowStart] and stops at the first that does not. *)
Fixpoint inWindow (windowStart : Z) (following : list Trade) : nat :=
  match following with
  | [] => 0
  | t :: rest =>
      if entryTime t - windowStart <=? twoHoursMs
      then S (inWindow windowStart rest)
      else 0
  end.

(** The outer loop [for (i = 0; i < sorted.length - 2; i++)]; [clusters]
    is the count so far. *)
Fixpoint clusterLoop (from : list Trade) (clusters : nat) : nat :=
  match from with
  | first :: ((_ :: _ :: _) as rest) =>
      let tradesInWindow := S (inWindow (entryTime first) rest) in
      if (3 <=? tradesInWindow)%nat
      then if (2 <=? S clusters)%nat then S clusters else clusterLoop rest (S clusters)
      else clusterLoop rest clusters
  | _ => clusters
  end.

Definition detectClusters (trades : list Trade) : nat :=
  if (length trades <? 3)%nat then 0%nat
  else clusterLoop (sortByEntryTime trades) 0.

Fixpoint pauseLoop (gaps : list (Trade * Trade)) (pauses : nat) : nat :=
  match gaps with
  | [] => pauses
  | (previous, trade) :: rest =>
      if twoHoursMs <=? entryTime trade - exitTime previous
      then if (3 <=? S pauses)%nat then S pauses else pauseLoop rest (S pauses)
      else pauseLoop rest pauses
  end.

Definition detectDisciplinedPauses (trades : list Trade) : nat :=
  if (length trades <? 2)%nat then 0%nat
  else pauseLoop (pairs (sortByEntryTime trades)) 0.

Definition withinTenPercent (planRisk : Q) (trade : Trade) : bool :=
  if negb (truthy (riskPercentUsed trade)) then false
  else match riskPercentUsed trade with
       | Some r => Qgeb r (planRisk * (9 # 10)) && Qle_bool r (planRisk * (11 # 10))
       | None => false
       end.

Definition hasStableRiskUsage (trades : list Trade) (planRisk : Q) : bool :=
  match trades with
  | [] => false
  | _ => if Qeq_bool planRisk 0 then false else forallb (withinTenPercent planRisk) trades
  end.

Definition hesitationFlag (t : Trade) : bool :=
  exitedEarly t ||
  (truthy (targetPercentAchieved t) &&
   match targetPercentAchieved t with Some p => Qltb p 60 | None => false end).

Definition hasEmotionalVolatility (trades : list Trade) : bool :=
  if (length trades <? 2)%nat then false
  else
    let sortedTrades := sortByEntryTime trades in
    let hasHesitation := existsb hesitationFlag sortedTrades in
    let hasImpulsive := somePair impulsiveGap sortedTrades in
    hasImpulsive && hasHesitation.

Inductive FactorType :=
| impulsive_reentry | oversized_trade | clustered_trades | large_loss | emotional_volatility
| disciplined_pauses | high_plan_compliance | stable_risk.

Record Factor := {
  factorType : FactorType;
  impact : Z
}.

Inductive Status := optimal | strained | high_risk.

Record Battery := {
  battery : Z;
  status : Status;
  drainFactors : list Factor;
  rechargeFactors : list Factor;
  batteryTradesAnalyzed : nat
}.

Definition statusOf (battery : Z) : Status :=
  if 80 <=? battery then optimal
  else if 50 <=? battery then strained
  else high_risk.

Definition repeatFactor (ty : FactorType) (amount : Z) (n : nat) : list Factor :=
  repeat {| factorType := ty; impact := amount |} n.

(** [planControlPercent] defaults to [0] at the call site. *)
Definition calculateMentalBattery (todayTrades : list Trade) (plan : option TradingPlan)
    (planControlPercent : Z) : Battery :=
  let planRisk := planRiskOr1 plan in
  match todayTrades with
  | [] => {| battery := 100; status := optimal; drainFactors := [];
             rechargeFactors := []; batteryTradesAnalyzed := 0 |}
  | _ :: _ =>
      let sortedTrades := sortByEntryTime todayTrades in
      let battery := 100 in
      (* impulsive re-entries: -15 each *)
      let impulsiveCount := countPairs impulsiveGap sortedTrades in
      let battery := battery - 15 * Z.of_nat impulsiveCount in
      (* oversized trades: -10 each *)
      let oversizedCount := count (fun t => isOversizedTrade t planRisk) sortedTrades in
      let battery := battery - 10 * Z.of_nat oversizedCount in
      (* clusters: -8 per cluster *)
      let clusterCount := detectClusters sortedTrades in
      let clusterDrain := Z.of_nat clusterCount * 8 in
      let battery := if (0 <? clusterCount)%nat then battery - clusterDrain else battery in
      (* large losses: -20 each *)
      let largeLossCount := count (fun t => isLargeLoss t planRisk) sortedTrades in
      let battery := battery - 20 * Z.of_nat largeLossCount in
      (* emotional volatility: -12 once *)
      let volatile := hasEmotionalVolatility sortedTrades in
      let battery := if volatile then battery - 12 else battery in
      (* disciplined pauses: +5 each, at most +15 *)
      let pauseCount := detectDisciplinedPauses sortedTrades in
      let pauseRecharge := Z.min (Z.of_nat pauseCount * 5) 15 in
      let battery := if (0 <? pauseCount)%nat then battery + pauseRecharge else battery in
      (* high plan compliance: +8 once *)
      let compliant := 80 <=? planControlPercent in
      let battery := if compliant then battery + 8 else battery in
      (* stable risk usage: +5 once *)
      let stable := hasStableRiskUsage sortedTrades planRisk in
      let battery := if stable then battery + 5 else battery in
      let battery := Z.max 0 (Z.min 100 battery) in
      {| battery := battery;
         status := statusOf battery;
         drainFactors :=
           repeatFactor impulsive_reentry (-15) impulsiveCount
           ++ repeatFactor oversized_trade (-10) oversizedCount
           ++ (if (0 <? clusterCount)%nat
               then [ {| factorType := clustered_trades; impact := - clusterDrain |} ] else [])
           ++ repeatFactor large_loss (-20) largeLossCount
           ++ (if volatile
               then [ {| factorType := emotional_volatility; impact := -12 |} ] else []);
         rechargeFactors :=
           (if (0 <? pauseCount)%nat
            then [ {| factorType := disciplined_pauses; impact := pauseRecharge |} ] else [])
           ++ (if compliant
               then [ {| factorType := high_plan_compliance; impact := 8 |} ] else [])
           ++ (if stable then [ {| factorType := stable_risk; impact := 5 |} ] else []);
         batteryTradesAnalyzed := length sortedTrades |}
  end.

End MentalBattery.

(** ** services/zentra/psychologicalRadar.js *)

Module Radar.

Section WithSqrt.

(** [Math.sqrt], whose values are irrational in general, is a parameter of
    the scorers that use a standard deviation. *)
Variable sqrt : Q -> Q.

(** [risks.reduce((a, b) => a + b, 0) / risks.length] *)
Definition mean (values : list Q) : Q := (sum values / ofNat (length values))%Q.

(** [values.reduce((s, v) => s + Math.pow(v - m, 2), 0) / values.length] *)
Definition variance (values : list Q) (m : Q) : Q :=
  (fold_left (fun s v => s + (v - m) * (v - m)) values 0 / ofNat (length values))%Q.

Definition stdDev (values : list Q) : Q := sqrt (variance values (mean values)).

Definition calculateDiscipline (trades : list Trade) (plan : option TradingPlan)
    (planControlPercent : Q) : Z :=
  let score := planControlPercent in
  let planRisk := planRiskOr1 plan in
  let preferred := preferredOf plan in
  let hasRiskBreach := existsb (riskAbove (planRisk * (13 # 10))) trades in
  let score := if negb hasRiskBreach then (score + 10)%Q else score in
  let hasSessionViolation :=
    (0 <? length preferred)%nat
    && existsb (fun t => negb (includes preferred (session t))) trades in
  let score := if negb hasSessionViolation then (score + 5)%Q else score in
  Z.min 100 (round score).

Definition calculateImpulseControl (trades : list Trade) : Z :=
  if (length trades <? 2)%nat then 100
  else
    let sortedTrades := sortByEntryTime trades in
    let impulsiveCount := countPairs impulsiveGap sortedTrades in
    let raw := (ofNat impulsiveCount / 5 * 100)%Q in
    Z.max 0 (round (100 - raw)).

Definition isRevenge (planRisk : Q) (prevTrade currTrade : Trade) : bool :=
  Qltb (profitLoss prevTrade) 0 && riskAbove (planRisk * (13 # 10)) currTrade.

(** The base of the aggression score before the two bonuses. *)
Definition aggressionBase (trades : list Trade) (planRisk : Q) : Q :=
  let risks := risksUsed trades in
  if (0 <? length risks)%nat then (mean risks / planRisk * 50)%Q else 0%Q.

Definition calculateAggression (trades : list Trade) (plan : option TradingPlan) : Z :=
  match trades with
  | [] => 0
  | _ :: _ =>
      let planRisk := planRiskOr1 plan in
      let base := aggressionBase trades planRisk in
      let hasHighRisk := existsb (riskAbove (planRisk * (15 # 10))) trades in
      let base := if hasHighRisk then (base + 20)%Q else base in
      let sortedTrades := sortByEntryTime trades in
      let hasRevengeTrade := somePair (isRevenge planRisk) sortedTrades in
      let base := if hasRevengeTrade then (base + 15)%Q else base in
      Z.min 100 (round base)
  end.

Definition lowTargetWin (t : Trade) : bool :=
  Qgtb (profitLoss t) 0 && truthy (targetPercentAchieved t)
  && match targetPercentAchieved t with Some p => Qltb p 60 | None => false end.

Definition calculateHesitation (trades : list Trade) : Z :=
  match trades with
  | [] => 0
  | _ :: _ =>
      let hesitationCount := count exitedEarly trades in
      let base := (ofNat hesitationCount / 5 * 100)%Q in
      let hasLowTargetWins := existsb lowTargetWin trades in
      let base := if hasLowTargetWins then (base + 20)%Q else base in
      let sortedTrades := sortByEntryTime trades in
      let hasLongGap := somePair (fun p c => Qgtb (diffHours p c) 4) sortedTrades in
      let base := if hasLongGap then (base + 15)%Q else base in
      Z.min 100 (round base)
  end.

(** [(stdDev / avgRisk) * 100] over the risks used, [0] with fewer than
    two of them or a non-positive average. *)
Definition riskVariability (trades : list Trade) : Q :=
  let risks := risksUsed trades in
  if (1 <? length risks)%nat
  then
    let avgRisk := mean risks in
    if Qgtb avgRisk 0 then (stdDev risks / avgRisk * 100)%Q else 0%Q
  else 0%Q.

Definition calculateConsistency (trades : list Trade) (plan : option TradingPlan) : Z :=
  match trades with
  | [] => 100
  | _ :: _ =>
      let preferred := preferredOf plan in
      let variability := riskVariability trades in
      let score := (100 - variability)%Q in
      let allInPreferred :=
        Nat.eqb (length preferred) 0
        || forallb (fun t => includes preferred (session t)) trades in
      let score := if allInPreferred then (score + 10)%Q else score in
      let sortedTrades := sortByEntryTime trades in
      let stableTiming :=
        negb (somePair (fun p c => Qltb (diffHours p c) (1 # 2) || Qgtb (diffHours p c) 6)
                sortedTrades) in
      let score :=
        if stableTiming && (1 <? length trades)%nat then (score + 5)%Q else score in
      Z.max 0 (Z.min 100 (round score))
  end.

Definition calculateEmotionalVolatility (aggressionScore hesitationScore : Z) : Z :=
  let volatility := (Qabs (inject_Z aggressionScore - inject_Z hesitationScore) / 2)%Q in
  let volatility :=
    if (60 <? aggressionScore) && (60 <? hesitationScore)
    then (volatility + 20)%Q else volatility in
  Z.min 100 (round volatility).

Record Traits := {
  discipline : Z;
  impulseControl : Z;
  aggression : Z;
  hesitation : Z;
  consistency : Z;
  emotionalVolatility : Z
}.

Inductive RadarMessage :=
| NoTrades | StrongProfile | HighAggression | LowImpulseControl | VolatilityDetected | Balanced.

Definition getRadarMessage (discipline impulseControl aggression volatility : Z)
  : RadarMessage :=
  if (70 <=? discipline) && (70 <=? impulseControl) && (volatility <? 30) then StrongProfile
  else if 70 <? aggression then HighAggression
  else if impulseControl <? 50 then LowImpulseControl
  else if 60 <? volatility then VolatilityDetected
  else Balanced.

Record RadarResult := {
  traits : Traits;
  radarTradesAnalyzed : nat;
  radarMessage : RadarMessage
}.

Definition calculatePsychologicalRadar (trades : list Trade) (plan : option TradingPlan)
  : RadarResult :=
  match trades with
  | [] =>
      {| traits := {| discipline := 0; impulseControl := 100; aggression := 0;
                      hesitation := 0; consistency := 100; emotionalVolatility := 0 |};
         radarTradesAnalyzed := 0;
         radarMessage := NoTrades |}
  | _ :: _ =>
      let recentTrades := take 5 trades in
      let planControlPercent :=
        PlanControl.percentage (PlanControl.calculatePlanControl recentTrades plan) in
      let discipline := calculateDiscipline recentTrades plan (inject_Z planControlPercent) in
      let impulseControl := calculateImpulseControl recentTrades in
      let aggression := calculateAggression recentTrades plan in
      let hesitation := calculateHesitation recentTrades in
      let consistency := calculateConsistency recentTrades plan in
      let emotionalVolatility := calculateEmotionalVolatility aggression hesitation in
      {| traits := {| discipline := discipline; impulseControl := impulseControl;
                      aggression := aggression; hesitation := hesitation;
                      consistency := consistency;
                      emotionalVolatility := emotionalVolatility |};
         radarTradesAnalyzed := length recentTrades;
         radarMessage := getRadarMessage discipline impulseControl aggression emotionalVolatility |}
  end.

End WithSqrt.

End Radar.

(** ** services/zentra/behaviorHeatmap.js *)

Module Heatmap.

Section WithSqrt.

Variable sqrt : Q -> Q.

(** The offset of local time from UTC in milliseconds, fixed over the
    trades looked at; [getHours] reads the local hour. *)
Variable tzOffset : Z.

Record TimeWindow := {
  startHour : Z;
  endHour : Z
}.

Definition TIME_WINDOWS : list TimeWindow :=
  [ {| startHour := 0; endHour := 3 |};   {| startHour := 3; endHour := 6 |};
    {| startHour := 6; endHour := 9 |};   {| startHour := 9; endHour := 12 |};
    {| startHour := 12; endHour := 15 |}; {| startHour := 15; endHour := 18 |};
    {| startHour := 18; endHour := 21 |}; {| startHour := 21; endHour := 24 |} ].

Definition entryHour (trade : Trade) : Z := ((entryTime trade + tzOffset) / 3600000) mod 24.

Definition getTimeWindow (trade : Trade) : option TimeWindow :=
  find (fun w => (startHour w <=? entryHour trade) && (entryHour trade <? endHour w))
       TIME_WINDOWS.

Definition calculateWinLossExpectancy (trades : list Trade) : Q :=
  match trades with
  | [] => 50%Q
  | _ :: _ =>
      let wins := count (fun t => Qgtb (profitLoss t) 0) trades in
      let losses := count (fun t => Qltb (profitLoss t) 0) trades in
      let expectancy :=
        ((ofNat wins - ofNat losses) / ofNat (length trades) * 50 + 50)%Q in
      Qmax 0 (Qmin 100 expectancy)
  end.

Definition calculateWindowPlanCompliance (trades : list Trade) (plan : option TradingPlan) : Z :=
  match trades with
  | [] => 50
  | _ :: _ =>
      let sortedTrades := sortByEntryTime trades in
      let total := PlanControl.totalScore (PlanControl.scoreAll plan None sortedTrades) in
      round (inject_Z total / ofNat (length trades))
  end.

Definition calculateImpulsivenessPenalty (trades : list Trade) : Z :=
  if (length trades <? 2)%nat then 0
  else
    let impulsiveCount := countPairs impulsiveGap (sortByEntryTime trades) in
    Z.min (Z.of_nat impulsiveCount * 15) 100.

Definition isHesitation (trade : Trade) : bool :=
  if exitedEarly trade then true
  else truthy (targetPercentAchieved trade)
       && match targetPercentAchieved trade with Some p => Qltb p 60 | None => false end
       && Qgtb (profitLoss trade) 0.

Definition calculateHesitationPenalty (trades : list Trade) : Z :=
  match trades with
  | [] => 0
  | _ :: _ => Z.min (Z.of_nat (count isHesitation trades) * 10) 100
  end.

(** [planRisk] is never falsy at the call site ([plan?.riskPercentPerTrade || 1]). *)
Definition calculateRiskDeviationPenalty (trades : list Trade) (planRisk : Q) : Z :=
  match trades with
  | [] => 0
  | _ :: _ =>
      if Qeq_bool planRisk 0 then 0
      else
        let risks := risksUsed trades in
        if Nat.eqb (length risks) 0 then 0
        else
          let penalty := Qmin (Radar.stdDev sqrt risks / planRisk * 50) 100 in
          round penalty
  end.

Definition calculateVolatilityPenalty (trades : list Trade) (planRisk : Q) : Z :=
  if (length trades <? 2)%nat || Qeq_bool planRisk 0 then 0
  else
    let hasOversized := existsb (riskAbove (planRisk * (13 # 10))) trades in
    let hasUndersized := existsb (riskBelow (planRisk * (7 # 10))) trades in
    if hasOversized && hasUndersized then 20 else 0.

Definition calculateFrequencyPenalty (trades : list Trade) : Z :=
  if (length trades <=? 3)%nat then 0
  else Z.min ((Z.of_nat (length trades) - 3) * 5) 25.

Record WindowMetrics := {
  winLoss : Z;
  planCompliance : Z;
  impulsiveness : Z;
  hesitationPenalty : Z;
  riskDeviation : Z;
  volatilityPenalty : Z;
  frequency : Z
}.

Record WindowScore := {
  score : Z;
  metrics : WindowMetrics
}.

Definition calculateWindowScore (trades : list Trade) (plan : option TradingPlan)
  : WindowScore :=
  let planRisk := planRiskOr1 plan in
  let winLoss := calculateWinLossExpectancy trades in
  let planCompliance := calculateWindowPlanCompliance trades plan in
  let impulsiveness := calculateImpulsivenessPenalty trades in
  let hesitation := calculateHesitationPenalty trades in
  let riskDev := calculateRiskDeviationPenalty trades planRisk in
  let volatility := calculateVolatilityPenalty trades planRisk in
  let frequency := calculateFrequencyPenalty trades in
  let score :=
    (winLoss * (2 # 10)
     + inject_Z planCompliance * (3 # 10)
     + (100 - inject_Z impulsiveness) * (15 # 100)
     + (100 - inject_Z hesitation) * (15 # 100)
     + (100 - inject_Z riskDev) * (1 # 10)
     + (100 - inject_Z volatility) * (5 # 100)
     + (100 - inject_Z frequency) * (5 # 100))%Q in
  {| score := round (Qmax 0 (Qmin 100 score));
     metrics := {| winLoss := round winLoss;
                   planCompliance := planCompliance;
                   impulsiveness := impulsiveness;
                   hesitationPenalty := hesitation;
                   riskDeviation := riskDev;
                   volatilityPenalty := volatility;
                   frequency := frequency |} |}.

Inductive Color := green | yellow | red | grey.

Definition getColorStatus (score : Z) : Color :=
  if 70 <=? score then green
  else if 40 <=? score then yellow
  else red.

Record WindowCell := {
  window : TimeWindow;
  cellScore : option Z;
  color : Color;
  tradeCount : nat;
  cellMetrics : option WindowMetrics
}.

Definition sameWindow (a b : TimeWindow) : bool :=
  (startHour a =? startHour b) && (endHour a =? endHour b).

Definition inWindow (w : TimeWindow) (trade : Trade) : bool :=
  match getTimeWindow trade with
  | Some tw => sameWindow tw w
  | None => false
  end.

Definition windowCell (trades : list Trade) (plan : option TradingPlan) (w : TimeWindow)
  : WindowCell :=
  let windowTrades := List.filter (inWindow w) trades in
  match windowTrades with
  | [] => {| window := w; cellScore := None; color := grey; tradeCount := 0;
             cellMetrics := None |}
  | _ :: _ =>
      let ws := calculateWindowScore windowTrades plan in
      {| window := w; cellScore := Some (score ws); color := getColorStatus (score ws);
         tradeCount := length windowTrades; cellMetrics := Some (metrics ws) |}
  end.

Record HeatmapResult := {
  windows : list WindowCell;
  totalTrades : nat
}.

Definition calculateBehaviorHeatmap (trades : list Trade) (plan : option TradingPlan)
  : HeatmapResult :=
  {| windows := map (windowCell trades plan) TIME_WINDOWS;
     totalTrades := length trades |}.

End WithSqrt.

End Heatmap.

(** ** services/zentra/consistencyTrend.js (risk consistency) *)

Module ConsistencyTrend.

Section WithSqrt.

Variable sqrt : Q -> Q.

Definition calculateRiskConsistency (trades : list Trade) (planRisk : Q) : Q :=
  match trades with
  | [] => 100%Q
  | _ :: _ =>
      if Qeq_bool planRisk 0 then 100%Q
      else
        let risks := risksUsed trades in
        if Nat.eqb (length risks) 0 then 100%Q
        else
          let avgRisk := Radar.mean risks in
          let variability :=
            if Qgtb avgRisk 0 then (Radar.stdDev sqrt risks / avgRisk * 100)%Q else 0%Q in
          Qmax 0 (Qmin 100 (100 - variability))
  end.

End WithSqrt.

End ConsistencyTrend.

(** ** services/zentra/breathwork.js *)

Module Breathwork.

Inductive TriggerType := high_volatility | low_battery | impulsive_trades | battery_drop.

Record Trigger := {
  triggerType : TriggerType;
  triggerValue : Q;
  threshold : Q
}.

Inductive Level := none | low | medium | high.

Record Urgency := {
  level : Level;
  urgencyScore : Z;
  factors : list TriggerType
}.

Inductive Exercise := BoxBreathing | EnergizingBreath | CalmingBreath.

Record Suggestion := {
  shouldSuggest : bool;
  urgency : Urgency;
  triggers : list Trigger;
  breathworkType : option Exercise
}.

(** [now] is the clock reading [Date.now()]. *)
Definition countImpulsiveTradesLastHour (now : Z) (trades : list Trade) : nat :=
  if (length trades <? 2)%nat then 0%nat
  else
    let oneHourAgo := now - 60 * 60 * 1000 in
    let sortedTrades :=
      sortByEntryTime (List.filter (fun t => oneHourAgo <=? entryTime t) trades) in
    if (length sortedTrades <? 2)%nat then 0%nat
    else countPairs impulsiveGap sortedTrades.

Definition calculateBatteryDrop (startBattery currentBattery : Q) : Q :=
  Qmax 0 (startBattery - currentBattery).

Definition isSevere (ty : TriggerType) : bool :=
  match ty with
  | low_battery | high_volatility | battery_drop => true
  | impulsive_trades => false
  end.

Definition calculateUrgency (triggers : list Trigger) (mentalBattery emotionalVolatility : Q)
  : Urgency :=
  match triggers with
  | [] => {| level := none; urgencyScore := 0; factors := [] |}
  | _ :: _ =>
      let urgencyScore := Z.of_nat (length triggers) * 20 in
      let urgencyScore :=
        if Qltb mentalBattery 30 then urgencyScore + 30
        else if Qltb mentalBattery 40 then urgencyScore + 15
        else urgencyScore in
      let urgencyScore :=
        if Qgtb emotionalVolatility 80 then urgencyScore + 25
        else if Qgtb emotionalVolatility 70 then urgencyScore + 10
        else urgencyScore in
      let hasMultipleSevere :=
        (2 <=? count (fun t => isSevere (triggerType t)) triggers)%nat in
      let urgencyScore := if hasMultipleSevere then urgencyScore + 20 else urgencyScore in
      let level :=
        if 70 <=? urgencyScore then high
        else if 40 <=? urgencyScore then medium
        else low in
      {| level := level;
         urgencyScore := Z.min 100 urgencyScore;
         factors := map triggerType triggers |}
  end.

Definition hasTrigger (ty : TriggerType) (triggers : list Trigger) : bool :=
  existsb (fun t => match triggerType t, ty with
                    | high_volatility, high_volatility
                    | low_battery, low_battery
                    | impulsive_trades, impulsive_trades
                    | battery_drop, battery_drop => true
                    | _, _ => false
                    end) triggers.

Definition getRecommendedBreathwork (triggers : list Trigger) : Exercise :=
  let hasVolatility := hasTrigger high_volatility triggers in
  let hasLowBattery := hasTrigger low_battery triggers in
  let hasImpulsive := hasTrigger impulsive_trades triggers in
  if hasVolatility || hasImpulsive then BoxBreathing
  else if hasLowBattery then EnergizingBreath
  else CalmingBreath.

(** One [if (cond) { triggers.push(t); shouldSuggest = true; }] block. *)
Definition fire (cond : bool) (t : Trigger) (acc : list Trigger * bool)
  : list Trigger * bool :=
  if cond then (fst acc ++ [t], true) else acc.

(** [sessionStartBattery = 100] is the default of the destructured
    parameter: an absent value reads as [100]. *)
Definition shouldSuggestBreathwork (now : Z) (mentalBattery emotionalVolatility : Q)
    (todayTrades : list Trade) (sessionStartBattery : option Q) : Suggestion :=
  let sessionStartBattery := default 100%Q sessionStartBattery in
  let acc := (@nil Trigger, false) in
  let acc :=
    fire (Qgtb emotionalVolatility 70)
         {| triggerType := high_volatility;
            triggerValue := emotionalVolatility; threshold := 70 |} acc in
  let acc :=
    fire (Qltb mentalBattery 40)
         {| triggerType := low_battery;
            triggerValue := mentalBattery; threshold := 40 |} acc in
  let impulsiveCount := countImpulsiveTradesLastHour now todayTrades in
  let acc :=
    fire (3 <=? impulsiveCount)%nat
         {| triggerType := impulsive_trades;
            triggerValue := ofNat impulsiveCount; threshold := 3 |} acc in
  let batteryDrop := calculateBatteryDrop sessionStartBattery mentalBattery in
  let acc :=
    fire (Qgtb batteryDrop 30)
         {| triggerType := battery_drop;
            triggerValue := batteryDrop; threshold := 30 |} acc in
  let triggers := fst acc in
  let shouldSuggest := snd acc in
  {| shouldSuggest := shouldSuggest;
     urgency := calculateUrgency triggers mentalBattery emotionalVolatility;
     triggers := triggers;
     breathworkType := if shouldSuggest then Some (getRecommendedBreathwork triggers) else None |}.

End Breathwork.

(** ** services/zentra/performanceWindow.js *)

Module PerformanceWindow.

Inductive ImprovementId :=
| avoided_revenge | stable_risk | no_impulsive
| improved_plan_control | no_hesitation | consistent_timing.

(** An entry of the table; its canned message and description are keyed
    by [id]. *)
Record Improvement := {
  id : ImprovementId;
  priority : Z
}.

Definition IMPROVEMENTS : list Improvement :=
  [ {| id := avoided_revenge; priority := 1 |};
    {| id := stable_risk; priority := 2 |};
    {| id := no_impulsive; priority := 3 |};
    {| id := improved_plan_control; priority := 4 |};
    {| id := no_hesitation; priority := 5 |};
    {| id := consistent_timing; priority := 6 |} ].

Definition id_eqb (a b : ImprovementId) : bool :=
  match a, b with
  | avoided_revenge, avoided_revenge | stable_risk, stable_risk
  | no_impulsive, no_impulsive | improved_plan_control, improved_plan_control
  | no_hesitation, no_hesitation | consistent_timing, consistent_timing => true
  | _, _ => false
  end.

Definition checkAvoidedRevenge (trades : list Trade) (planRisk : Q) : bool :=
  if (length trades <? 2)%nat then true
  else negb (somePair (fun prevTrade currTrade =>
                         Qltb (profitLoss prevTrade) 0
                         && riskAbove (planRisk * (13 # 10)) currTrade)
               (sortByEntryTime trades)).

Definition checkStableRisk (trades : list Trade) (planRisk : Q) : bool :=
  match trades with
  | [] => false
  | _ =>
      if Qeq_bool planRisk 0 then false
      else forallb (fun trade =>
                      if negb (truthy (riskPercentUsed trade)) then false
                      else match riskPercentUsed trade with
                           | Some r => Qgeb r (planRisk * (9 # 10))
                                       && Qle_bool r (planRisk * (11 # 10))
                           | None => false
                           end) trades
  end.

Definition checkNoImpulsive (trades : list Trade) : bool :=
  if (length trades <? 2)%nat then true
  else negb (somePair impulsiveGap (sortByEntryTime trades)).

(** [previousPlanControl] is [null] or [undefined] when there is no
    previous window. *)
Definition checkImprovedPlanControl (currentPlanControl : Z) (previousPlanControl : option Z)
  : bool :=
  match previousPlanControl with
  | None => false
  | Some previous => previous <? currentPlanControl
  end.

Definition checkNoHesitation (trades : list Trade) : bool :=
  forallb (fun trade => negb (exitedEarly trade)) trades.

Definition checkConsistentTiming (trades : list Trade) : bool :=
  if (length trades <? 2)%nat then true
  else negb (somePair (fun p c => Qltb (diffHours p c) 1 || Qgtb (diffHours p c) 4)
               (sortByEntryTime trades)).

(** [detected.push(IMPROVEMENTS.find((i) => i.id === x))] under [if (cond)] *)
Definition pushIf (cond : bool) (x : ImprovementId) (detected : list Improvement)
  : list Improvement :=
  if cond
  then detected ++ match find (fun i => id_eqb (id i) x) IMPROVEMENTS with
                   | Some i => [i]
                   | None => []
                   end
  else detected.

(** [(a, b) => a.priority - b.priority] with the stable sort. *)
Fixpoint insertByPriority (x : Improvement) (sorted : list Improvement) : list Improvement :=
  match sorted with
  | [] => [x]
  | y :: rest =>
      if priority x <=? priority y then x :: sorted else y :: insertByPriority x rest
  end.

Definition sortByPriority (xs : list Improvement) : list Improvement :=
  fold_right insertByPriority [] xs.

Record Window := {
  hasImprovement : bool;
  topImprovement : option ImprovementId;
  tradesAnalyzed : nat;
  improvements : list ImprovementId
}.

Definition getPerformanceWindow (trades : list Trade) (plan : option TradingPlan)
    (currentPlanControl : Z) (previousPlanControl : option Z) : Window :=
  match trades with
  | [] => {| hasImprovement := false; topImprovement := None; tradesAnalyzed := 0;
             improvements := [] |}
  | _ :: _ =>
      let planRisk := planRiskOr1 plan in
      let detected := @nil Improvement in
      let detected := pushIf (checkAvoidedRevenge trades planRisk) avoided_revenge detected in
      let detected := pushIf (checkStableRisk trades planRisk) stable_risk detected in
      let detected := pushIf (checkNoImpulsive trades) no_impulsive detected in
      let detected :=
        pushIf (checkImprovedPlanControl currentPlanControl previousPlanControl)
               improved_plan_control detected in
      let detected := pushIf (checkNoHesitation trades) no_hesitation detected in
      let detected := pushIf (checkConsistentTiming trades) consistent_timing detected in
      let detected := sortByPriority detected in
      {| hasImprovement := (0 <? length detected)%nat;
         topImprovement := option_map id (head detected);
         tradesAnalyzed := length trades;
         improvements := map id detected |}
  end.

End PerformanceWindow.

(** ** services/zentra/consistencyTrend.js (daily score and trend) *)

Module Trend.

(** [grouped[dayKey].push(trade)], the array created on first use. *)
Definition groupTradesByDay (trades : list Trade) : gmap Z (list Trade) :=
  fold_left (fun grouped trade =>
               <[Metrics.dayKey trade :=
                   default [] (grouped !! Metrics.dayKey trade) ++ [trade]]> grouped)
            trades ∅.

(** Per pair of consecutive trades: an impulsive re-entry, or else an
    oversized trade right after a loss. *)
Definition isEmotional (planRisk : Q) (previous trade : Trade) : bool :=
  if impulsiveGap previous trade then true
  else Qltb (profitLoss previous) 0 && riskAbove (planRisk * (13 # 10)) trade.

Definition calculateEmotionalTradeFrequency (trades : list Trade) (planRisk : Q) : Q :=
  match trades with
  | [] => 0%Q
  | _ :: _ =>
      let emotionalCount := countPairs (isEmotional planRisk) (sortByEntryTime trades) in
      (ofNat emotionalCount / ofNat (length trades) * 100)%Q
  end.

Definition calculateBatteryStability (trades : list Trade) (planRisk : Q) : Q :=
  match trades with
  | [] => 100%Q
  | _ :: _ =>
      let sortedTrades := sortByEntryTime trades in
      let drainEvents :=
        (countPairs impulsiveGap sortedTrades
         + count (riskAbove (planRisk * (13 # 10))) sortedTrades
         + count (fun t => Qltb (profitLoss t) (-2 * planRisk)) sortedTrades)%nat in
      let maxDrainEvents := (length trades * 2)%nat in
      let stability := (100 - ofNat drainEvents / ofNat maxDrainEvents * 100)%Q in
      Qmax 0 (Qmin 100 stability)
  end.

Record DailyMetrics := {
  avgPlanCompliance : Z;
  behavioralVolatility : Z;
  riskConsistency : Z;
  emotionalTradeFrequency : Z;
  batteryStability : Z
}.

Record DailyScore := {
  score : Z;
  metrics : DailyMetrics;
  tradeCount : nat
}.

Inductive Direction := stable | improving | deteriorating.

(** [date] is the day of the point; the engine reports its key, the ISO
    date string of that day. *)
Record TrendPoint := {
  date : Z;
  pointScore : Z;
  pointMetrics : DailyMetrics;
  pointTradeCount : nat
}.

Record TrendSummary := {
  averageScore : Z;
  trendDirection : Direction;
  daysWithData : nat;
  totalDays : Z
}.

Record TrendResult := {
  trend : list TrendPoint;
  summary : TrendSummary
}.

(** ['all'] or the number read by [parseInt(daysOption, 10)]. *)
Inductive DaysOption := AllDays | LastDays (days : Z).

Definition meanZ (xs : list Z) : Q :=
  Qdiv (inject_Z (fold_left Z.add xs 0)) (ofNat (length xs)).

Definition directionOf (scores : list Z) : Direction :=
  if (3 <=? length scores)%nat then
    let half := Nat.div (length scores) 2 in
    let firstAvg := meanZ (firstn half scores) in
    let secondAvg := meanZ (skipn half scores) in
    if Qgtb (secondAvg - firstAvg) 5 then improving
    else if Qgtb (firstAvg - secondAvg) 5 then deteriorating
    else stable
  else stable.

Section WithSqrt.

Variable sqrt : Q -> Q.

(** [isoDate d] is the key of day [d] in [grouped], the string
    [date.toISOString().split('T')[0]]: YYYY-MM-DD for the years 0000 to
    9999, and the year with a sign and six digits outside of them. *)
Variable isoDate : Z -> string.

(** [Object.keys(grouped).sort()]: without a comparator the keys are
    compared as strings, code unit by code unit, and equal keys keep their
    order. *)
Fixpoint insertByDate (day : Z) (sorted : list Z) : list Z :=
  match sorted with
  | [] => [day]
  | other :: rest =>
      if String.leb (isoDate day) (isoDate other) then day :: sorted
      else other :: insertByDate day rest
  end.

Definition sortDates (days : list Z) : list Z := fold_right insertByDate [] days.

Definition calculateDailyScore (trades : list Trade) (plan : option TradingPlan)
  : option DailyScore :=
  match trades with
  | [] => None
  | _ :: _ =>
      let planRisk := planRiskOr1 plan in
      let avgPlanCompliance :=
        PlanControl.percentage (PlanControl.calculatePlanControl trades plan) in
      let behavioralVolatility :=
        Radar.emotionalVolatility
          (Radar.traits (Radar.calculatePsychologicalRadar sqrt trades plan)) in
      let riskConsistency := ConsistencyTrend.calculateRiskConsistency sqrt trades planRisk in
      let emotionalTradeFrequency := calculateEmotionalTradeFrequency trades planRisk in
      let batteryStability := calculateBatteryStability trades planRisk in
      let score :=
        (inject_Z avgPlanCompliance * (35 # 100)
         + (100 - inject_Z behavioralVolatility) * (25 # 100)
         + riskConsistency * (2 # 10)
         + (100 - emotionalTradeFrequency) * (15 # 100)
         + batteryStability * (5 # 100))%Q in
      Some {| score := round (Qmax 0 (Qmin 100 score));
              metrics := {| avgPlanCompliance := avgPlanCompliance;
                            behavioralVolatility := behavioralVolatility;
                            riskConsistency := round riskConsistency;
                            emotionalTradeFrequency := round emotionalTradeFrequency;
                            batteryStability := round batteryStability |};
              tradeCount := length trades |}
  end.

(** [now] is the clock reading; the range starts [days] days before it,
    or at the earliest entry (the clock itself if no trade is earlier). *)
Definition startDate (now : Z) (trades : list Trade) (daysOption : DaysOption) : Z :=
  match daysOption with
  | AllDays => fold_left (fun least t => if entryTime t <? least then entryTime t else least)
                         trades now
  | LastDays days => now - days * 86400000
  end.

Definition trendPoints (plan : option TradingPlan) (grouped : gmap Z (list Trade))
    (sortedDays : list Z) : list TrendPoint :=
  omap (fun day =>
          match calculateDailyScore (default [] (grouped !! day)) plan with
          | Some dailyData =>
              Some {| date := day; pointScore := score dailyData;
                      pointMetrics := metrics dailyData;
                      pointTradeCount := tradeCount dailyData |}
          | None => None
          end) sortedDays.

Definition calculateConsistencyTrend (now : Z) (trades : list Trade)
    (plan : option TradingPlan) (daysOption : DaysOption) : TrendResult :=
  match trades with
  | [] => {| trend := [];
             summary := {| averageScore := 0; trendDirection := stable;
                           daysWithData := 0; totalDays := 0 |} |}
  | _ :: _ =>
      let start := startDate now trades daysOption in
      let filteredTrades := List.filter (fun t => start <=? entryTime t) trades in
      let groupedTrades := groupTradesByDay filteredTrades in
      let sortedDays := sortDates (map fst (map_to_list groupedTrades)) in
      let trend := trendPoints plan groupedTrades sortedDays in
      let scores := map pointScore trend in
      let averageScore :=
        if (0 <? length scores)%nat then round (meanZ scores) else 0 in
      {| trend := trend;
         summary := {| averageScore := averageScore;
                       trendDirection := directionOf scores;
                       daysWithData := length trend;
                       totalDays := match daysOption with
                                    | AllDays => Z.of_nat (length trend)
                                    | LastDays days => days
                                    end |} |}
  end.

End WithSqrt.

End Trend.

(** ** services/zentra/behaviorHeatmap.js (derived insight) *)

Module HeatmapInsight.
Import Heatmap.

Inductive InsightType := neutral | warning | positive.

(** Which pattern the insight reports; its message and recommendation are
    canned texts per pattern. *)
Inductive Pattern :=
| InsufficientData
| HighActivityLowDiscipline
| FewerTradesBestDiscipline
| MultipleRedWindows
| MostlyDisciplined
| LargeBehaviorGap
| MixedPatterns.

Record Insight := {
  insightType : InsightType;
  pattern : Pattern
}.

(** [w.score], read as a number where the window is known to have one. *)
Definition scoreOf (w : WindowCell) : Z := default 0 (cellScore w).

Definition isActive (w : WindowCell) : bool :=
  notNull (cellScore w) && (0 <? tradeCount w)%nat.

(** [(a, b) => b.score - a.score] with the stable sort. *)
Fixpoint insertByScore (x : WindowCell) (sorted : list WindowCell) : list WindowCell :=
  match sorted with
  | [] => [x]
  | y :: rest =>
      if scoreOf y <=? scoreOf x then x :: sorted else y :: insertByScore x rest
  end.

(** [(a, b) => b.tradeCount - a.tradeCount] with the stable sort. *)
Fixpoint insertByActivity (x : WindowCell) (sorted : list WindowCell) : list WindowCell :=
  match sorted with
  | [] => [x]
  | y :: rest =>
      if (tradeCount y <=? tradeCount x)%nat then x :: sorted
      else y :: insertByActivity x rest
  end.

Definition isRed (w : WindowCell) : bool :=
  match color w with red => true | _ => false end.

Definition isGreen (w : WindowCell) : bool :=
  match color w with green => true | _ => false end.

Definition deriveHeatmapInsight (windows : list WindowCell) : Insight :=
  let activeWindows := List.filter isActive windows in
  match activeWindows with
  | [] => {| insightType := neutral; pattern := InsufficientData |}
  | first :: _ =>
      let sortedByScore := fold_right insertByScore [] activeWindows in
      let bestWindow := List.hd first sortedByScore in
      let worstWindow := List.last sortedByScore first in
      let sortedByActivity := fold_right insertByActivity [] activeWindows in
      let highestActivityWindow := List.hd first sortedByActivity in
      let highActivityBadBehavior :=
        count (fun w => (3 <=? tradeCount w)%nat && (scoreOf w <? 50)) activeWindows in
      let lowActivityGoodBehavior :=
        count (fun w => (tradeCount w <=? 2)%nat && (70 <=? scoreOf w)) activeWindows in
      let redWindows := List.filter isRed activeWindows in
      let greenWindows := List.filter isGreen activeWindows in
      if (0 <? highActivityBadBehavior)%nat && (scoreOf highestActivityWindow <? 50)
      then {| insightType := warning; pattern := HighActivityLowDiscipline |}
      else if (0 <? lowActivityGoodBehavior)%nat && (tradeCount bestWindow <=? 2)%nat
      then {| insightType := positive; pattern := FewerTradesBestDiscipline |}
      else if (2 <=? length redWindows)%nat
      then {| insightType := warning; pattern := MultipleRedWindows |}
      else if Qgeb (ofNat (length greenWindows)) (ofNat (length activeWindows) / 2)
      then {| insightType := positive; pattern := MostlyDisciplined |}
      else if (scoreOf worstWindow <? 40) && (70 <? scoreOf bestWindow)
      then {| insightType := warning; pattern := LargeBehaviorGap |}
      else {| insightType := neutral; pattern := MixedPatterns |}
  end.

Section WithSqrt.

Variable sqrt : Q -> Q.
Variable tzOffset : Z.

Definition calculateBehaviorHeatmapWithInsight (trades : list Trade)
    (plan : option TradingPlan) : HeatmapResult * Insight :=
  let baseResult := calculateBehaviorHeatmap sqrt tzOffset trades plan in
  (baseResult, deriveHeatmapInsight (windows baseResult)).

End WithSqrt.

End HeatmapInsight.

(** ** services/zentra/quotes.js *)

Module Quotes.

(** [x | 0]: the signed 32-bit integer congruent to [x]. *)
Definition toInt32 (x : Z) : Z := (x + 2 ^ 31) mod 2 ^ 32 - 2 ^ 31.

(** One round of the loop over the UTF-16 code units of the string:
    [hash = (hash << 5) - hash + char; hash |= 0]. *)
Definition hashStep (hash char : Z) : Z :=
  toInt32 (toInt32 (hash * 32) - hash + char).

Definition simpleHash (codeUnits : list Z) : Z :=
  Z.abs (fold_left hashStep codeUnits 0).

(** The index into the quote table chosen for the seed
    [`${userId}-${today}`]; [quoteCount] is the length of the table, which
    is loaded from a data file. *)
Definition dailyQuoteIndex (quoteCount : nat) (seed : list Z) : Z :=
  simpleHash seed mod Z.of_nat quoteCount.

End Quotes.

(** ** services/zentra/planControl.js (deviation attribution) *)

Module Attribution.
Import PlanControl.

Inductive CauseType :=
| low_battery | high_frequency | impulsive_timing | position_sizing
| session_violation | after_wins | after_losses.

Record Cause := {
  causeType : CauseType;
  weight : Q
}.

Inductive AttributionMessage :=
| NoSignificantDeviations
| NoTradesToAnalyze
| CauseMessage (c : CauseType)
| DeviationsDetected (n : nat).

Record DeviationAttribution := {
  primaryCause : option CauseType;
  attributionMessage : AttributionMessage;
  patterns : list CauseType
}.

(** How many failed entries of criterion [c] the deviating trades have. *)
Definition failed (c : Criterion -> bool) (deviationTrades : list ScoredTrade) : nat :=
  fold_left (fun n ts =>
               (n + count (fun b => negb (passed b) && c (criterion b))
                          (breakdown (tradeScore ts)))%nat)
            deviationTrades 0%nat.

Definition isTiming (c : Criterion) := match c with timing => true | _ => false end.
Definition isPositionSize (c : Criterion) :=
  match c with correctPositionSize => true | _ => false end.
Definition isSession (c : Criterion) := match c with allowedSession => true | _ => false end.

(** [trades.find((t) => t._id?.toString() === dt.tradeId?.toString())],
    deviations without a trade filtered out. *)
Definition withTrades (deviationTrades : list ScoredTrade) (trades : list Trade)
  : list Trade :=
  omap (fun dt => find (fun t => tradeId t =? scoredTradeId dt) trades) deviationTrades.

Fixpoint tradePairs (ts : list Trade) : list (Trade * Trade) :=
  match ts with
  | prev :: ((curr :: _) as rest) => (prev, curr) :: tradePairs rest
  | _ => []
  end.

(** For every deviation but the first: the first trade of [trades] that
    closed before the deviating trade was entered, if any. *)
Definition precedingTrades (sortedDeviations trades : list Trade) : list Trade :=
  omap (fun d => find (fun t => exitTime t <? entryTime d) trades) (tl sortedDeviations).

(** [(a, b) => b.weight - a.weight] with the stable sort. *)
Fixpoint insertByWeight (x : Cause) (sorted : list Cause) : list Cause :=
  match sorted with
  | [] => [x]
  | y :: rest =>
      if Qle_bool (weight y) (weight x) then x :: sorted else y :: insertByWeight x rest
  end.

Definition sortByWeight (causes : list Cause) : list Cause :=
  fold_right insertByWeight [] causes.

Definition causeIf (cond : bool) (c : CauseType) (w : Q) (causes : list Cause) : list Cause :=
  if cond then causes ++ [ {| causeType := c; weight := w |} ] else causes.

Definition candidateCauses (tradeScores : list ScoredTrade) (trades : list Trade)
    (mentalBatteryLevel : option Z) : list Cause :=
  let deviationTrades := List.filter (fun ts => score (tradeScore ts) <? 70) tradeScores in
  let timingFails := failed isTiming deviationTrades in
  let positionSizeFails := failed isPositionSize deviationTrades in
  let sessionFails := failed isSession deviationTrades in
  let sortedDeviations := withTrades deviationTrades trades in
  let highFrequencyDeviations :=
    count (fun pc => Qltb (diffMinutes (fst pc) (snd pc)) 30) (tradePairs sortedDeviations) in
  let preceding := precedingTrades sortedDeviations trades in
  let afterWinDeviations := count (fun t => Qgtb (profitLoss t) 0) preceding in
  let afterLossDeviations := count (fun t => Qltb (profitLoss t) 0) preceding in
  let causes := @nil Cause in
  let causes :=
    causeIf (match mentalBatteryLevel with
             | Some level => (level <? 50) && (0 <? length deviationTrades)%nat
             | None => false
             end) low_battery 3 causes in
  let causes :=
    causeIf (0 <? highFrequencyDeviations)%nat high_frequency
            (ofNat highFrequencyDeviations * 2) causes in
  let causes := causeIf (2 <=? timingFails)%nat impulsive_timing (ofNat timingFails) causes in
  let causes :=
    causeIf (2 <=? positionSizeFails)%nat position_sizing (ofNat positionSizeFails) causes in
  let causes :=
    causeIf (2 <=? sessionFails)%nat session_violation (ofNat sessionFails) causes in
  let causes :=
    causeIf (2 <=? afterWinDeviations)%nat after_wins (ofNat afterWinDeviations) causes in
  causeIf (2 <=? afterLossDeviations)%nat after_losses
          (ofNat afterLossDeviations * (15 # 10)) causes.

Definition analyzeDeviationAttribution (tradeScores : list ScoredTrade)
    (trades : list Trade) (mentalBatteryLevel : option Z) : DeviationAttribution :=
  let deviationTrades := List.filter (fun ts => score (tradeScore ts) <? 70) tradeScores in
  match deviationTrades with
  | [] => {| primaryCause := None; attributionMessage := NoSignificantDeviations;
             patterns := [] |}
  | _ :: _ =>
      let causes := sortByWeight (candidateCauses tradeScores trades mentalBatteryLevel) in
      match causes with
      | top :: _ =>
          {| primaryCause := Some (causeType top);
             attributionMessage := CauseMessage (causeType top);
             patterns := map causeType (firstn 3 causes) |}
      | [] =>
          {| primaryCause := None;
             attributionMessage := DeviationsDetected (length deviationTrades);
             patterns := [] |}
      end
  end.

Definition calculatePlanControlWithAttribution (trades : list Trade)
    (plan : option TradingPlan) (mentalBatteryLevel : option Z)
  : PlanControlResult * DeviationAttribution :=
  let baseResult := calculatePlanControl trades plan in
  if Nat.eqb (tradesAnalyzed baseResult) 0
  then (baseResult,
        {| primaryCause := None; attributionMessage := NoTradesToAnalyze; patterns := [] |})
  else (baseResult,
        analyzeDeviationAttribution (tradeScores baseResult) (take 5 trades)
                                    mentalBatteryLevel).

End Attribution.

(** ** services/zentra.service.js: what each feature computes from the
    trades and plan it has fetched *)

Module ZentraService.

Section WithSqrt.

Variable sqrt : Q -> Q.

Definition getMentalBattery (plan : option TradingPlan)
    (todayTrades recentTrades : list Trade) : MentalBattery.Battery :=
  let planControlResult := PlanControl.calculatePlanControl recentTrades plan in
  MentalBattery.calculateMentalBattery todayTrades plan
    (PlanControl.percentage planControlResult).

Definition getPlanControl (plan : option TradingPlan)
    (todayTrades recentTrades : list Trade)
  : PlanControl.PlanControlResult * Attribution.DeviationAttribution :=
  let planControlBasic := PlanControl.calculatePlanControl recentTrades plan in
  let batteryResult :=
    MentalBattery.calculateMentalBattery todayTrades plan
      (PlanControl.percentage planControlBasic) in
  Attribution.calculatePlanControlWithAttribution recentTrades plan
    (Some (MentalBattery.battery batteryResult)).

Definition getPsychologicalRadar (plan : option TradingPlan) (recentTrades : list Trade)
  : Radar.RadarResult :=
  Radar.calculatePsychologicalRadar sqrt recentTrades plan.

Definition getBreathworkSuggestion (now : Z) (plan : option TradingPlan)
    (todayTrades recentTrades : list Trade) : Breathwork.Suggestion :=
  let planControlResult := PlanControl.calculatePlanControl recentTrades plan in
  let batteryResult :=
    MentalBattery.calculateMentalBattery todayTrades plan
      (PlanControl.percentage planControlResult) in
  let radarResult := Radar.calculatePsychologicalRadar sqrt recentTrades plan in
  Breathwork.shouldSuggestBreathwork now
    (inject_Z (MentalBattery.battery batteryResult))
    (inject_Z (Radar.emotionalVolatility (Radar.traits radarResult)))
    todayTrades (Some 100%Q).

(** [recentTrades] are the ten most recent trades at most. *)
Definition getPerformanceWindow (plan : option TradingPlan) (recentTrades : list Trade)
  : PerformanceWindow.Window :=
  let currentTrades := take 5 recentTrades in
  let previousTrades := firstn 5 (skipn 5 recentTrades) in
  let currentPlanControl := PlanControl.calculatePlanControl currentTrades plan in
  let previousPlanControl :=
    if (0 <? length previousTrades)%nat
    then Some (PlanControl.percentage (PlanControl.calculatePlanControl previousTrades plan))
    else None in
  PerformanceWindow.getPerformanceWindow currentTrades plan
    (PlanControl.percentage currentPlanControl) previousPlanControl.

End WithSqrt.

End ZentraService.

(** * Properties: vocabulary and example inputs *)

(** A score on the 0-100 scale. *)
Definition inRange (z : Z) : Prop := 0 <= z <= 100.

(** The data model's constraints on the inputs: a risk that is present is
    not negative (trade schema, [min: 0]) and neither is the plan's risk per
    trade (plan schema and validation, [min(0)]). *)
Definition wellFormedTrade (t : Trade) : Prop :=
  match riskPercentUsed t with
  | Some r => (0 <= r)%Q
  | None => True
  end.

Definition wellFormedPlan (plan : option TradingPlan) : Prop :=
  match plan with
  | Some p => (0 <= riskPercentPerTrade p)%Q
  | None => True
  end.

(** The mean of a list of numbers, [dflt] for the empty list. *)
Definition meanOr (dflt : Q) (values : list Q) : Q :=
  match values with
  | [] => dflt
  | _ => (sum values / ofNat (length values))%Q
  end.

Definition nonZero (q : Q) : bool := negb (Qeq_bool q 0).

(** The conditions of the state classifier, in the specification's words,
    over [N] analysed trades. *)
Definition OverextendedCondition (dm : Metrics.DayMetrics) : Prop :=
  ((33 # 100) <= ofNat (Metrics.exceededDays dm) / ofNat (Metrics.daysWithTrades dm)
   \/ (33 # 100) <= ofNat (Metrics.outsideSessionDays dm) / ofNat (Metrics.daysWithTrades dm))%Q.

Definition AggressiveCondition (riskSpike : bool) (riskBreaches N : nat)
    (avgRiskUsed planRisk : Q) : Prop :=
  riskSpike = true
  \/ ((25 # 100) <= ofNat riskBreaches / ofNat N)%Q
  \/ (planRisk * (125 # 100) < avgRiskUsed)%Q.

Definition HesitantCondition (earlyExits N : nat) (medianTargetPct winRate : Q) : Prop :=
  ((4 # 10) <= ofNat earlyExits / ofNat N)%Q
  \/ ((medianTargetPct < 60)%Q /\ (winRate <= 6 # 10)%Q).

(** The volatility of the state-history summary in the specification's
    words, round(stddev(confidences) / 100, 2): the population standard
    deviation is taken around the exact mean of the confidences. *)
Definition exactMean (confidences : list Z) : Q :=
  (inject_Z (StateHistory.sumZ confidences) / ofNat (length confidences))%Q.

Definition populationVariance (confidences : list Z) : Q :=
  match confidences with
  | [] => 0%Q
  | _ =>
      (fold_left (fun s conf => s + (inject_Z conf - exactMean confidences)
                                    * (inject_Z conf - exactMean confidences))
                 confidences 0
       / ofNat (length confidences))%Q
  end.

Definition stddevVolatility (confidences : list Z) : Q :=
  (inject_Z (StateHistory.roundSqrt (populationVariance confidences)) / 100)%Q.

Module InsightChoice.
Import PerformanceInsights.

(** The POSITIVE insight the generator settles on. *)
Definition positiveChoice (planAdherence winRate : Z) (totalTrades : nat) : Insight :=
  if 70 <=? planAdherence then strongAdherence planAdherence
  else if 60 <=? winRate then solidWinRate winRate
  else consistentPractice totalTrades.

(** The CONSTRUCTIVE insight the generator settles on. *)
Definition constructiveChoice (earlyExits totalTrades : nat) (planAdherence : Z) (avgRR : Q)
  : Insight :=
  if Qgeb (ofNat earlyExits / ofNat totalTrades) (3 # 10)
  then exitingTooEarly earlyExits totalTrades
  else if planAdherence <? 60 then improveAdherence planAdherence
  else refineExits avgRR.

End InsightChoice.

(** ** Worked examples *)

Module Examples.

Definition dayMs : Z := 86400000.

(** A one-hour trade opened at 10:00 UTC on day [d], all nullable fields
    present. *)
Definition trade (id d : Z) (risk pl : Q) (s : TradingSessions) (target : Q) : Trade :=
  {| tradeId := id;
     entryTime := d * dayMs + 36000000;
     exitTime := d * dayMs + 39600000;
     riskPercentUsed := Some risk;
     profitLoss := pl;
     riskRewardAchieved := Some (14 # 10)%Q;
     session := s;
     stopLossHit := false;
     exitedEarly := false;
     targetPercentAchieved := Some target;
     notes := None |}.

Definition plan : TradingPlan :=
  {| maxTradesPerDay := 5;
     riskPercentPerTrade := 15 # 10;
     targetRiskRewardRatio := 2;
     preferredSessions := [LONDON; NY];
     stopLossDiscipline := ALWAYS |}.

(** Ten trades, most recent first: 6 wins, average risk 1.8, average R:R
    1.4, two risks above 2.25, last risk 2.6, six days with trades of which
    two have a trade outside the preferred sessions, no day above five
    trades. *)
Definition tenTrades : list Trade :=
  [ trade 10 6 (26 # 10) 100 LONDON 80; trade 9 6 (24 # 10) 100 NY 80;
    trade 8 5 (16 # 10) 100 LONDON 80;  trade 7 5 (16 # 10) 100 NY 80;
    trade 6 4 (16 # 10) 100 ASIA 80;    trade 5 4 (16 # 10) 100 LONDON 80;
    trade 4 3 (16 # 10) (-50) ASIA 40;  trade 3 3 (16 # 10) (-50) LONDON 40;
    trade 2 2 (17 # 10) (-50) LONDON 40; trade 1 1 (17 # 10) (-50) NY 40 ]%Q.

(** Five trades in the plan's sessions at the plan's risk, one a day, all
    closed above target; the second to the fourth were exited early. *)
Definition historyTrade (d : Z) (pl : Q) (early : bool) : Trade :=
  {| tradeId := d;
     entryTime := d * dayMs + 36000000;
     exitTime := d * dayMs + 39600000;
     riskPercentUsed := Some (15 # 10)%Q;
     profitLoss := pl;
     riskRewardAchieved := Some 2%Q;
     session := LONDON;
     stopLossHit := false;
     exitedEarly := early;
     targetPercentAchieved := Some 110%Q;
     notes := None |}.

(** Most recent first, as the persistence layer hands them over. *)
Definition historyTrades : list Trade :=
  [ historyTrade 5 100 false; historyTrade 4 (-50) true; historyTrade 3 100 true;
    historyTrade 2 (-50) true; historyTrade 1 100 false ].

(** The clock, and two trades of the trailing hour: the second is entered
    twenty minutes after the first was closed. *)
Definition clock : Z := 20000 * dayMs + 43200000.

Definition lastHourTrade (id entryAgo exitAgo : Z) : Trade :=
  {| tradeId := id;
     entryTime := clock - entryAgo * 60000;
     exitTime := clock - exitAgo * 60000;
     riskPercentUsed := Some (15 # 10)%Q;
     profitLoss := 10;
     riskRewardAchieved := None;
     session := NY;
     stopLossHit := false;
     exitedEarly := false;
     targetPercentAchieved := None;
     notes := None |}.

Definition lastHourTrades : list Trade :=
  [ lastHourTrade 2 20 10; lastHourTrade 1 50 40 ].

(** Five trades whose risks are 2.0, null, 1.5, null, 2.5. *)
Definition riskOnly (id : Z) (risk : option Q) : Trade :=
  {| tradeId := id;
     entryTime := id * dayMs;
     exitTime := id * dayMs + 3600000;
     riskPercentUsed := risk;
     profitLoss := 10;
     riskRewardAchieved := None;
     session := LONDON;
     stopLossHit := false;
     exitedEarly := false;
     targetPercentAchieved := None;
     notes := None |}.

Definition fiveRisks : list Trade :=
  [ riskOnly 5 (Some 2%Q); riskOnly 4 None; riskOnly 3 (Some (15 # 10)%Q);
    riskOnly 2 None; riskOnly 1 (Some (25 # 10)%Q) ].

(** A rational stand-in for [Math.sqrt], exact to two decimals. *)
Definition sqrtApprox (q : Q) : Q :=
  (inject_Z (Z.sqrt (Qfloor (q * 10000))) / 100)%Q.

End Examples.

(** The analysis of the ten example trades. *)
Definition workedExample : StateAnalysis.Analysis :=
  StateAnalysis.analyzePsychologicalState Examples.tenTrades (Some Examples.plan).

(** ** Further example inputs *)

Module MoreExamples.

(** The example plan without preferred sessions. *)
Definition openPlan : TradingPlan :=
  {| maxTradesPerDay := 5;
     riskPercentPerTrade := 15 # 10;
     targetRiskRewardRatio := 2;
     preferredSessions := [];
     stopLossDiscipline := ALWAYS |}.

(** Four trades, most recent first, at the plan's risk but for the two
    latest, which carry 3%. *)
Definition spikeTrades : list Trade :=
  [ Examples.trade 4 4 3 100 LONDON 80; Examples.trade 3 3 3 100 LONDON 80;
    Examples.trade 2 2 (15 # 10) 100 LONDON 80; Examples.trade 1 1 (15 # 10) 100 LONDON 80 ]%Q.

(** A trade that records an outcome and nothing else: no risk, no reward
    ratio, no target percentage, no note. *)
Definition bare (id d : Z) (pl : Q) : Trade :=
  {| tradeId := id;
     entryTime := d * Examples.dayMs + 36000000;
     exitTime := d * Examples.dayMs + 39600000;
     riskPercentUsed := None;
     profitLoss := pl;
     riskRewardAchieved := None;
     session := LONDON;
     stopLossHit := false;
     exitedEarly := false;
     targetPercentAchieved := None;
     notes := None |}.

(** Two of them, one a day: a loss after a win. *)
Definition bareTrades : list Trade := [ bare 2 2 (-50); bare 1 1 100 ].

(** Three losing trades at the plan's risk, one a day, most recent first. *)
Definition losingStreak : list Trade :=
  [ Examples.trade 3 3 (15 # 10) (-50) LONDON 40;
    Examples.trade 2 2 (15 # 10) (-50) LONDON 40;
    Examples.trade 1 1 (15 # 10) (-50) NY 40 ]%Q.

(** Two trades of one day, four hours apart. *)
Definition spacedTrades : list Trade :=
  [ Examples.lastHourTrade 2 20 10; Examples.lastHourTrade 1 310 260 ].

End MoreExamples.

(** ** Vocabulary of the null handling *)

Module NullHandling.

(** The trades that record a target percentage. *)
Definition tradesWithTarget (trades : list Trade) : list Trade :=
  List.filter (fun t => notNull (targetPercentAchieved t)) trades.

(** The trades that record a target percentage or are flagged as exited
    early. *)
Definition targetOrFlag (trades : list Trade) : list Trade :=
  List.filter (fun t => notNull (targetPercentAchieved t) || exitedEarly t) trades.

(** The window without the trades that record no risk, its three most
    recent trades apart. *)
Definition olderWithRisk (trades : list Trade) : list Trade :=
  take 3 trades ++ Metrics.tradesWithRisk (skipn 3 trades).

(** The trade with a missing risk read as [v]. *)
Definition fillRisk (v : Q) (t : Trade) : Trade :=
  {| tradeId := tradeId t;
     entryTime := entryTime t;
     exitTime := exitTime t;
     riskPercentUsed := Some (default v (riskPercentUsed t));
     profitLoss := profitLoss t;
     riskRewardAchieved := riskRewardAchieved t;
     session := session t;
     stopLossHit := stopLossHit t;
     exitedEarly := exitedEarly t;
     targetPercentAchieved := targetPercentAchieved t;
     notes := notes t |}.

(** The trade with a missing target percentage read as [v]. *)
Definition fillTarget (v : Q) (t : Trade) : Trade :=
  {| tradeId := tradeId t;
     entryTime := entryTime t;
     exitTime := exitTime t;
     riskPercentUsed := riskPercentUsed t;
     profitLoss := profitLoss t;
     riskRewardAchieved := riskRewardAchieved t;
     session := session t;
     stopLossHit := stopLossHit t;
     exitedEarly := exitedEarly t;
     targetPercentAchieved := Some (default v (targetPercentAchieved t));
     notes := notes t |}.

(** A LONDON trade of one hour opened at 10:00 UTC on day [d]. *)
Definition sparse (d : Z) (risk : option Q) (pl : Q) (target : option Q) (early : bool)
  : Trade :=
  {| tradeId := d;
     entryTime := d * Examples.dayMs + 36000000;
     exitTime := d * Examples.dayMs + 39600000;
     riskPercentUsed := risk;
     profitLoss := pl;
     riskRewardAchieved := None;
     session := LONDON;
     stopLossHit := false;
     exitedEarly := early;
     targetPercentAchieved := target;
     notes := None |}.

(** Four trades, one a day, most recent first: risks 1, null, 3, null and
    targets 40, null, null, 90; the third was exited early, the fourth is
    a loss. *)
Definition sparseTrades : list Trade :=
  [ sparse 5 (Some 1%Q) 100 (Some 40%Q) false; sparse 4 None 100 None false;
    sparse 3 (Some 3%Q) 100 None true;         sparse 2 None (-50) (Some 90%Q) false ].

(** Five winning trades, one a day, most recent first: risks 3, 3, null,
    null, 2.4. *)
Definition threeOfFive : list Trade :=
  [ sparse 5 (Some 3%Q) 100 None false; sparse 4 (Some 3%Q) 100 None false;
    sparse 3 None 100 None false;       sparse 2 None 100 None false;
    sparse 1 (Some (24 # 10)%Q) 100 None false ].

(** Two winning trades at the plan's risk, the older one without a target
    percentage. *)
Definition halfTargets : list Trade :=
  [ sparse 2 (Some (15 # 10)%Q) 100 (Some 100%Q) false;
    sparse 1 (Some (15 # 10)%Q) 100 None false ].

End NullHandling.

(** ** Vocabulary of the state history *)

Module HistoryShape.
Import StateHistory.

(** Two history points that the loop would not merge: another state, or
    confidences more than 15 apart. *)
Definition distinctPoints (p q : HistoryPoint) : Prop :=
  pointState p <> pointState q \/ 15 < Z.abs (pointConfidence p - pointConfidence q).

Fixpoint eachStepChanges (points : list HistoryPoint) : Prop :=
  match points with
  | p :: ((q :: _) as rest) => distinctPoints p q /\ eachStepChanges rest
  | _ => True
  end.

Fixpoint nonDecreasing (xs : list Z) : Prop :=
  match xs with
  | x :: ((y :: _) as rest) => x <= y /\ nonDecreasing rest
  | _ => True
  end.

(** Trades in the order of their entry times. *)
Fixpoint chronological (trades : list Trade) : Prop :=
  match trades with
  | [] => True
  | t :: rest => Forall (fun u => entryTime t <= entryTime u) rest /\ chronological rest
  end.

(** What the loop keeps true of its arrays and counters: [states] and
    [confidences] mirror [history], the counter is its length, [lastState]
    is the analysis behind its last point, successive points differ, and
    every confidence is in the range of the analysis. *)
Definition loopInvariant (acc : LoopState) : Prop :=
  accStates acc = map pointState (accHistory acc)
  /\ accConfidences acc = map pointConfidence (accHistory acc)
  /\ stateChangeCount acc = length (accHistory acc)
  /\ match lastState acc with
     | None => accHistory acc = []
     | Some a =>
         exists front p,
           accHistory acc = front ++ [p]
           /\ pointState p = StateAnalysis.state a
           /\ pointConfidence p = StateAnalysis.confidence a
     end
  /\ eachStepChanges (accHistory acc)
  /\ Forall (fun p => 10 <= pointConfidence p <= 95) (accHistory acc).

(** How often state [s] occurs in a list of states. *)
Definition occurrences (s : PsychologicalState) (states : list PsychologicalState) : nat :=
  count (state_eqb s) states.

(** [stateCounts[s] || 0] *)
Definition countOf (s : PsychologicalState) (stateCounts : list (PsychologicalState * nat))
  : nat :=
  match find (fun kn => state_eqb (fst kn) s) stateCounts with
  | Some kn => snd kn
  | None => 0%nat
  end.

End HistoryShape.

(** ** Vocabulary of the scoring suite *)

Module ScoringShape.

(** The points a criterion of the trade score is worth. *)
Definition criterionPoints (c : PlanControl.Criterion) : Z :=
  match c with
  | PlanControl.allowedSession => 20
  | PlanControl.properSlTp => 30
  | PlanControl.correctPositionSize => 25
  | PlanControl.notesCriterion => 10
  | PlanControl.timing => 15
  end.

Definition totalPoints (breakdown : list PlanControl.BreakdownEntry) : Z :=
  fold_right (fun b s => PlanControl.points b + s) 0 breakdown.

Definition totalImpact (factors : list MentalBattery.Factor) : Z :=
  fold_right (fun f s => MentalBattery.impact f + s) 0 factors.

(** The improvements whose checks hold, in the order of the table. *)
Definition detectedIds (trades : list Trade) (plan : option TradingPlan)
    (currentPlanControl : Z) (previousPlanControl : option Z)
  : list PerformanceWindow.ImprovementId :=
  let planRisk := planRiskOr1 plan in
  (if PerformanceWindow.checkAvoidedRevenge trades planRisk
   then [PerformanceWindow.avoided_revenge] else [])
  ++ (if PerformanceWindow.checkStableRisk trades planRisk
      then [PerformanceWindow.stable_risk] else [])
  ++ (if PerformanceWindow.checkNoImpulsive trades
      then [PerformanceWindow.no_impulsive] else [])
  ++ (if PerformanceWindow.checkImprovedPlanControl currentPlanControl previousPlanControl
      then [PerformanceWindow.improved_plan_control] else [])
  ++ (if PerformanceWindow.checkNoHesitation trades
      then [PerformanceWindow.no_hesitation] else [])
  ++ (if PerformanceWindow.checkConsistentTiming trades
      then [PerformanceWindow.consistent_timing] else []).

End ScoringShape.

(** ** Vocabulary of the quote selection *)

(** The polynomial [c0 * 31^(n-1) + c1 * 31^(n-2) + ... + c(n-1)] of the
    code units, computed without any truncation. *)
Definition polynomialHash (codeUnits : list Z) : Z :=
  fold_left (fun h c => 31 * h + c) codeUnits 0.

(** ** Vocabulary of the consistency trend *)

(** Days in the order of their ISO date strings. *)
Fixpoint inDateOrder (isoDate : Z -> string) (days : list Z) : Prop :=
  match days with
  | day :: ((next :: _) as rest) =>
      String.leb (isoDate day) (isoDate next) = true /\ inDateOrder isoDate rest
  | _ => True
  end.

(** * Properties *)

(** ** Arithmetic of [Math.round] and of the comparisons *)

Section RoundFacts.

Lemma Qltb_lt (a b : Q) : Qltb a b = true <-> (a < b)%Q.
Proof.
  unfold Qltb. rewrite negb_true_iff, <- not_true_iff_false, Qle_bool_iff.
  split; [apply Qnot_le_lt | apply Qlt_not_le].
Qed.

Lemma Qltb_ge (a b : Q) : Qltb a b = false <-> (b <= a)%Q.
Proof.
  unfold Qltb. rewrite negb_false_iff. apply Qle_bool_iff.
Qed.

Lemma Qgeb_le (a b : Q) : Qgeb a b = true <-> (b <= a)%Q.
Proof. apply Qle_bool_iff. Qed.

Lemma Qgtb_lt (a b : Q) : Qgtb a b = true <-> (b < a)%Q.
Proof. apply Qltb_lt. Qed.

Lemma round_mono (x y : Q) : (x <= y)%Q -> round x <= round y.
Proof.
  intros H. unfold round. apply Qfloor_resp_le.
  apply Qplus_le_compat; [exact H | apply Qle_refl].
Qed.

Lemma floor_unique (x : Q) (n : Z) :
  (inject_Z n <= x)%Q -> (x < inject_Z (n + 1))%Q -> Qfloor x = n.
Proof.
  intros Hlo Hhi.
  assert (n <= Qfloor x).
  { rewrite <- (Qfloor_Z n). now apply Qfloor_resp_le. }
  assert (Qfloor x < n + 1).
  { rewrite Zlt_Qlt. eapply Qle_lt_trans; [apply Qfloor_le | exact Hhi]. }
  lia.
Qed.

Lemma round_inject (n : Z) : round (inject_Z n) = n.
Proof.
  unfold round. apply floor_unique.
  - rewrite <- (Qplus_0_r (inject_Z n)) at 1.
    apply Qplus_le_compat; [apply Qle_refl | discriminate].
  - rewrite inject_Z_plus. apply Qplus_lt_r. reflexivity.
Qed.

Lemma round_ge (n : Z) (x : Q) : (inject_Z n <= x)%Q -> n <= round x.
Proof. intros H. rewrite <- (round_inject n). now apply round_mono. Qed.

Lemma round_le (n : Z) (x : Q) : (x <= inject_Z n)%Q -> round x <= n.
Proof. intros H. rewrite <- (round_inject n). now apply round_mono. Qed.

(** [round x = k] exactly when [x] lies in the half-open unit interval
    centred on [k]. *)
Lemma round_unique (x : Q) (k : Z) :
  (inject_Z k - (1 # 2) <= x)%Q -> (x < inject_Z k + (1 # 2))%Q -> round x = k.
Proof.
  intros Hlo Hhi. unfold round. apply floor_unique.
  - lra.
  - rewrite inject_Z_plus. change (inject_Z 1) with 1%Q. lra.
Qed.

Lemma ofNat_nonneg (n : nat) : (0 <= ofNat n)%Q.
Proof. unfold ofNat. change 0%Q with (inject_Z 0). rewrite <- Zle_Qle. lia. Qed.

Lemma ofNat_pos (n : nat) : (0 < n)%nat -> (0 < ofNat n)%Q.
Proof. intros H. unfold ofNat. change 0%Q with (inject_Z 0). rewrite <- Zlt_Qlt. lia. Qed.

Lemma ofNat_le (a b : nat) : (a <= b)%nat -> (ofNat a <= ofNat b)%Q.
Proof. intros H. unfold ofNat. rewrite <- Zle_Qle. lia. Qed.

(** A count over a total is a fraction between 0 and 1. *)
Lemma fraction_bounds (a b : nat) :
  (a <= b)%nat -> (0 < b)%nat -> (0 <= ofNat a / ofNat b <= 1)%Q.
Proof.
  intros Hab Hb. pose proof (ofNat_pos b Hb) as Hpos.
  pose proof (ofNat_nonneg a) as Ha. pose proof (ofNat_le a b Hab) as Hle.
  split.
  - apply Qle_shift_div_l; [exact Hpos | lra].
  - apply Qle_shift_div_r; [exact Hpos | lra].
Qed.

End RoundFacts.

(** ** Session forecast: the risk level never drops below MEDIUM *)

Section ForecastFacts.
Import SessionForecast.

(** C10. For every trade list, session, plan and current state, the
    no-data fallback included, the forecast's risk level is never LOW and
    its label is never POSITIVE: the level starts at MEDIUM and each
    heuristic either leaves it or raises it to HIGH. *)
Theorem forecast_never_low_nor_positive :
  forall (trades : list Trade) (session : option TradingSessions)
         (plan : option TradingPlan) (currentState : option PsychologicalState),
    riskLevel (analyzeSessionForecast trades session plan currentState) <> LOW
    /\ forecast (analyzeSessionForecast trades session plan currentState)
       <> FORECAST_POSITIVE.
Proof.
  intros trades session plan currentState.
  unfold analyzeSessionForecast.
  destruct trades as [|t rest]; [split; discriminate|].
  destruct plan as [plan|]; [|split; discriminate].
  destruct (forallb _ _ && _);
    destruct (Qgtb _ _);
    destruct (Qgeb _ _);
    cbn; split; discriminate.
Qed.

End ForecastFacts.

(** ** The state classifier *)

Section ClassifierFacts.
Import Metrics StateDetermination StateAnalysis.

Lemma daysWithTrades_pos (trades : list Trade) (plan : TradingPlan) :
  (1 <= daysWithTrades (calculateDayMetrics trades plan))%nat.
Proof.
  unfold calculateDayMetrics; cbn [daysWithTrades].
  destruct (Nat.eqb_spec (size (groupByDay plan trades).1) 0); lia.
Qed.

Lemma overextended_iff (dm : DayMetrics) :
  (1 <= daysWithTrades dm)%nat ->
  overextended dm = true <-> OverextendedCondition dm.
Proof.
  intros Hpos. unfold overextended, OverextendedCondition, ratio.
  rewrite andb_true_iff, orb_true_iff, !Qgeb_le, Nat.ltb_lt. intuition lia.
Qed.

Lemma aggressive_iff (rm : RiskMetrics) (planRisk : Q) (N : nat) :
  (1 <= N)%nat ->
  aggressive rm planRisk N = true
  <-> AggressiveCondition (riskSpike (spike rm)) (riskBreaches rm) N (riskAvgRiskUsed rm) planRisk.
Proof.
  intros HN. unfold aggressive, AggressiveCondition, ratio.
  replace (Nat.max 1 N) with N by lia.
  rewrite !orb_true_iff, Qgeb_le, Qgtb_lt. tauto.
Qed.

Lemma hesitant_iff (m : BasicMetrics) (N : nat) :
  (1 <= N)%nat ->
  hesitant m N = true
  <-> HesitantCondition (earlyExits m) N (medianTargetPct m) (winRate m).
Proof.
  intros HN. unfold hesitant, HesitantCondition, ratio.
  replace (Nat.max 1 N) with N by lia.
  rewrite orb_true_iff, andb_true_iff, Qgeb_le, Qltb_lt, Qle_bool_iff. tauto.
Qed.

(** The classifier's state is the first match of the cascade
    OVEREXTENDED, AGGRESSIVE, HESITANT, STABLE. *)
Lemma determineState_cascade metrics dm rm planRisk totalTrades :
  StateDetermination.state (determineState metrics dm rm planRisk totalTrades) =
  if overextended dm then OVEREXTENDED
  else if aggressive rm planRisk totalTrades then AGGRESSIVE
  else if hesitant metrics totalTrades then HESITANT
  else STABLE.
Proof.
  unfold determineState.
  destruct (overextended dm); [reflexivity|].
  destruct (aggressive rm planRisk totalTrades); [reflexivity|].
  destruct (hesitant metrics totalTrades); reflexivity.
Qed.

(** C2. The classifier is a (total) function of the trade list and the
    plan that decides its four outcomes in the fixed priority order
    OVEREXTENDED > AGGRESSIVE > HESITANT > STABLE over the metrics of the
    analysed window; in particular, whenever these meet the OVEREXTENDED
    condition and the AGGRESSIVE condition together, the returned state is
    OVEREXTENDED. *)
Theorem classifier_priority_order :
  forall (trades : list Trade) (plan : TradingPlan),
    let analyzed := take 10 trades in
    let N := length analyzed in
    let planRisk := orQ (riskPercentPerTrade plan) 0 in
    let m := calculateBasicMetrics analyzed in
    let over := OverextendedCondition (calculateDayMetrics analyzed plan) in
    let aggr :=
      AggressiveCondition (riskSpike (calculateRiskSpike analyzed planRisk))
        (calculateRiskBreaches analyzed planRisk) N (avgRiskUsed m) planRisk in
    let hes := HesitantCondition (earlyExits m) N (medianTargetPct m) (winRate m) in
    let s := StateAnalysis.state (analyzePsychologicalState trades (Some plan)) in
    (over -> aggr -> s = OVEREXTENDED)
    /\ (trades <> [] ->
        (over -> s = OVEREXTENDED)
        /\ (~ over -> aggr -> s = AGGRESSIVE)
        /\ (~ over -> ~ aggr -> hes -> s = HESITANT)
        /\ (~ over -> ~ aggr -> ~ hes -> s = STABLE)).
Proof.
  intros trades plan analyzed N planRisk m over aggr hes s.
  destruct trades as [|t rest].
  - split; [|intros H; contradiction].
    intros Hover _. exfalso. subst over analyzed.
    destruct Hover as [H | H]; apply Qle_bool_iff in H; vm_compute in H; discriminate.
  - assert (HN : (1 <= N)%nat) by (subst N analyzed; cbn; lia).
    assert (Hs : s = if overextended (calculateDayMetrics analyzed plan) then OVEREXTENDED
                     else if aggressive
                               {| spike := calculateRiskSpike analyzed planRisk;
                                  riskBreaches := calculateRiskBreaches analyzed planRisk;
                                  riskAvgRiskUsed := avgRiskUsed m |} planRisk N
                          then AGGRESSIVE
                          else if hesitant m N then HESITANT else STABLE).
    { subst s. unfold analyzePsychologicalState. cbn [StateAnalysis.state].
      apply determineState_cascade. }
    pose proof (overextended_iff (calculateDayMetrics analyzed plan)
                  (daysWithTrades_pos analyzed plan)) as Ho.
    pose proof (aggressive_iff
                  {| spike := calculateRiskSpike analyzed planRisk;
                     riskBreaches := calculateRiskBreaches analyzed planRisk;
                     riskAvgRiskUsed := avgRiskUsed m |} planRisk N HN) as Ha.
    pose proof (hesitant_iff m N HN) as Hh.
    cbn [spike riskBreaches riskAvgRiskUsed] in Ha.
    fold over in Ho. fold aggr in Ha. fold hes in Hh.
    rewrite Hs.
    destruct (overextended _); [|destruct (aggressive _ _ _); [|destruct (hesitant _ _)]];
      intuition congruence.
Qed.

(** The confidence of the main path is clamped to [10, 95] and capped at
    40 below five trades. *)
Lemma calculateConfidence_bounds metrics adherence planRisk totalTrades :
  10 <= Confidence.calculateConfidence metrics adherence planRisk totalTrades <= 95
  /\ ((totalTrades < 5)%nat ->
      Confidence.calculateConfidence metrics adherence planRisk totalTrades <= 40).
Proof.
  unfold Confidence.calculateConfidence.
  destruct (Nat.ltb_spec totalTrades 5); split; lia.
Qed.

(** C3, as amended. For every input the confidence lies in [10, 95]; when
    one to four trades are analysed it is at most 40; the no-data fallback
    (no trades or no plan), which analyses zero trades, returns 50. *)
Theorem confidence_range_and_small_sample_cap :
  forall (trades : list Trade) (plan : option TradingPlan),
    let a := analyzePsychologicalState trades plan in
    10 <= confidence a <= 95
    /\ ((1 <= analyzedTradeCount a < 5)%nat -> confidence a <= 40)
    /\ (analyzedTradeCount a = 0%nat <-> (trades = [] \/ plan = None))
    /\ (analyzedTradeCount a = 0%nat -> confidence a = 50).
Proof.
  intros trades plan a. subst a.
  destruct trades as [|t rest]; [|destruct plan as [plan|]].
  - cbn. split; [lia|]. split; [lia|]. split; [tauto | reflexivity].
  - unfold analyzePsychologicalState. cbn [confidence analyzedTradeCount].
    set (n := length (take 10 (t :: rest))).
    assert (Hn : (1 <= n)%nat) by (subst n; cbn; lia).
    match goal with
    | |- context [Confidence.calculateConfidence ?m ?a ?r n] =>
        destruct (calculateConfidence_bounds m a r n) as [Hb Hcap]
    end.
    split; [exact Hb|]. split; [|split].
    + intros [_ Hlt]. now apply Hcap.
    + split; [lia | intros [H | H]; discriminate].
    + lia.
  - cbn. split; [lia|]. split; [lia|]. split; [tauto | reflexivity].
Qed.

(** C3, the claim as stated fails on the fallback: with no trades and no
    plan the analysed window holds zero trades (fewer than five), yet the
    confidence is 50, above 40. *)
Lemma fallback_confidence_exceeds_cap :
  (analyzedTradeCount (analyzePsychologicalState [] None) < 5)%nat
  /\ ~ confidence (analyzePsychologicalState [] None) <= 40.
Proof. cbn. split; lia. Qed.

End ClassifierFacts.


Section WorkedExample.
Import Metrics StateDetermination StateAnalysis.

(** Witness of [classifier_priority_order]: the ten example trades meet
    the OVEREXTENDED and the AGGRESSIVE condition together. *)
Lemma classifier_priority_order_witness :
  StateAnalysis.state (analyzePsychologicalState Examples.tenTrades (Some Examples.plan))
  = OVEREXTENDED.
Proof.
  destruct (classifier_priority_order Examples.tenTrades Examples.plan) as [H _].
  apply H.
  - right. apply Qle_bool_iff. vm_compute. reflexivity.
  - left. vm_compute. reflexivity.
Defined.

Lemma confidence_range_and_small_sample_cap_witness :
  confidence (analyzePsychologicalState (take 3 Examples.tenTrades) (Some Examples.plan)) <= 40.
Proof.
  apply (confidence_range_and_small_sample_cap (take 3 Examples.tenTrades) (Some Examples.plan)).
  vm_compute. lia.
Defined.

End WorkedExample.

Section WorkedExampleClaim.
Import Metrics StateDetermination StateAnalysis.

Lemma orQ_nonzero (q d : Q) : ~ (q == 0)%Q -> orQ q d = q.
Proof.
  intros H. unfold orQ. destruct (Qeq_bool q 0) eqn:E; [|reflexivity].
  apply Qeq_bool_iff in E. contradiction.
Qed.

(** With average risk 1.8 against a plan risk of 1.5, a win rate of 0.6
    and a median target between 40 and 80, the strongest signal is 0.2. *)
Lemma signalStrength_worked (m : BasicMetrics) :
  (winRate m == 6 # 10)%Q -> (avgRiskUsed m == 18 # 10)%Q ->
  (40 <= medianTargetPct m <= 80)%Q ->
  (Confidence.signalStrength m (15 # 10) == 2 # 10)%Q.
Proof.
  intros Hw Ha [Hlo Hhi]. unfold Confidence.signalStrength.
  change (Qeq_bool (15 # 10) 0) with false. cbv iota.
  rewrite (orQ_nonzero (medianTargetPct m)) by lra.
  assert (H1 : (Qabs (avgRiskUsed m / (15 # 10) - 1) == 2 # 10)%Q).
  { rewrite Qabs_pos; [|rewrite Ha; discriminate]. rewrite Ha. reflexivity. }
  assert (H2 : (Qabs (winRate m - (1 # 2)) * 2 == 2 # 10)%Q).
  { rewrite Qabs_pos; [|rewrite Hw; discriminate]. rewrite Hw. reflexivity. }
  assert (H3 : (Qabs (medianTargetPct m / 100 - (6 # 10)) <= 2 # 10)%Q).
  { apply Qabs_Qle_condition. unfold Qdiv. split.
    - change (/ 100)%Q with (1 # 100)%Q. lra.
    - change (/ 100)%Q with (1 # 100)%Q. lra. }
  apply Qle_antisym.
  - apply Q.max_lub; [apply Q.max_lub|]; lra.
  - eapply Qle_trans; [|apply Q.le_max_l]. eapply Qle_trans; [|apply Q.le_max_l]. lra.
Qed.

(** C4, as amended. For the plan with risk 1.5 and any 10-trade window
    with win rate 0.6, average risk 1.8, two risk breaches, six near-target
    hits, a median target between 40 and 80, no exceeded day and two
    outside-session days out of six: plan adherence is 80, confidence is 74,
    and the state is OVEREXTENDED (2/6 >= 0.33 outranks every aggressive
    signal, the risk spike included). *)
Theorem worked_example_is_overextended :
  forall (m : BasicMetrics) (rm : RiskMetrics),
    (winRate m == 6 # 10)%Q -> (avgRiskUsed m == 18 # 10)%Q ->
    (40 <= medianTargetPct m <= 80)%Q ->
    let dm := {| daysWithTrades := 6; exceededDays := 0; outsideSessionDays := 2 |} in
    PlanAdherence.calculatePlanAdherence 2 6 dm 10 = 80
    /\ StateDetermination.state (determineState m dm rm (15 # 10) 10) = OVEREXTENDED
    /\ Confidence.calculateConfidence m 80 (15 # 10) 10 = 74.
Proof.
  intros m rm Hw Ha Hmed dm.
  split; [vm_compute; reflexivity|]. split.
  - rewrite determineState_cascade. reflexivity.
  - pose proof (signalStrength_worked m Hw Ha Hmed) as Hs.
    unfold Confidence.calculateConfidence.
    change (10 <? 5)%nat with false. cbv iota.
    change (ofNat (Nat.min 10 10)) with 10%Q.
    change (inject_Z 80) with 80%Q.
    assert (Hr : round (100 * ((1 # 2) * (80 / 100) + (3 # 10) * (10 / 10)
                               + (2 # 10) * Confidence.signalStrength m (15 # 10))) = 74).
    { apply round_unique.
      - rewrite Hs. discriminate.
      - rewrite Hs. reflexivity. }
    rewrite Hr. reflexivity.
Qed.


(** C4, the claim as stated fails: the ten example trades have every metric
    the claim lists (6 wins of 10, average risk 1.8, average R:R 1.4, two
    risk breaches, last risk 2.6, a risk spike, no exceeded day, 2
    outside-session days of 6), adherence 80 and confidence 74, yet the
    state is OVEREXTENDED, not AGGRESSIVE. *)
Lemma worked_example_not_aggressive :
  length Examples.tenTrades = 10%nat
  /\ count isWin Examples.tenTrades = 6%nat
  /\ (avgRiskUsed (calculateBasicMetrics Examples.tenTrades) == 18 # 10)%Q
  /\ (avgRR (calculateBasicMetrics Examples.tenTrades) == 14 # 10)%Q
  /\ calculateRiskBreaches Examples.tenTrades (15 # 10) = 2%nat
  /\ riskPercentUsed (nth 0 Examples.tenTrades (Examples.trade 0 0 0 0 ASIA 0))
     = Some (26 # 10)%Q
  /\ riskSpike (calculateRiskSpike Examples.tenTrades (15 # 10)) = true
  /\ calculateDayMetrics Examples.tenTrades Examples.plan
     = {| daysWithTrades := 6; exceededDays := 0; outsideSessionDays := 2 |}
  /\ planAdherence workedExample = 80
  /\ confidence workedExample = 74
  /\ StateAnalysis.state workedExample = OVEREXTENDED
  /\ StateAnalysis.state workedExample <> AGGRESSIVE.
Proof.
  repeat match goal with |- _ /\ _ => split end;
    try (vm_compute; reflexivity).
  vm_compute. discriminate.
Qed.

Lemma worked_example_is_overextended_witness :
  Confidence.calculateConfidence (calculateBasicMetrics Examples.tenTrades) 80 (15 # 10) 10
  = 74.
Proof.
  apply (worked_example_is_overextended
           (calculateBasicMetrics Examples.tenTrades)
           {| spike := calculateRiskSpike Examples.tenTrades (15 # 10);
              riskBreaches := 2; riskAvgRiskUsed := 18 # 10 |}).
  - vm_compute. reflexivity.
  - vm_compute. reflexivity.
  - split; apply Qle_bool_iff; vm_compute; reflexivity.
Defined.

End WorkedExampleClaim.

(** ** Performance insights *)

Section InsightFacts.
Import Metrics PerformanceInsights InsightChoice.


(** C5, as amended. With at least one trade and a plan, the generator
    returns exactly one POSITIVE insight, chosen by adherence >= 70, else
    win rate >= 60, else the generic one, and exactly one CONSTRUCTIVE
    insight, chosen by early-exit ratio >= 0.3, else adherence < 60, else
    the generic one.  The zero-trade / missing-plan fallback returns the
    single CONSTRUCTIVE insight asking for data and no POSITIVE one. *)
Theorem insights_one_of_each :
  forall (now : Z) (trades : list Trade) (plan : option TradingPlan) (period : string),
    let r := analyzePerformanceInsights now trades plan period in
    let s := stats r in
    (trades <> [] -> plan <> None ->
     List.filter isPositive (insights r)
     = [positiveChoice (planAdherence s) (statsWinRate s) (length trades)]
     /\ List.filter isConstructive (insights r)
        = [constructiveChoice (count isEarlyExit trades) (length trades)
             (planAdherence s) (avgRiskReward s)])
    /\ (trades = [] \/ plan = None -> insights r = [addData]).
Proof.
  intros now trades plan period r s. subst s r. split.
  - intros Hne Hplan.
    destruct trades as [|t rest]; [contradiction|].
    destruct plan as [plan|]; [|contradiction].
    unfold analyzePerformanceInsights.
    cbn [insights stats planAdherence statsWinRate avgRiskReward].
    unfold positiveChoice, constructiveChoice.
    destruct (70 <=? _); [|destruct (60 <=? _)];
      (destruct (Qgeb _ _); [|destruct (_ <? 60)]); split; reflexivity.
  - intros [-> | ->]; [reflexivity|].
    destruct trades; reflexivity.
Qed.

(** C5, the claim as stated fails on the fallback: with no trades the
    generator returns no insight of type POSITIVE. *)
Lemma fallback_has_no_positive_insight :
  existsb isPositive
    (insights (analyzePerformanceInsights 0 [] (Some Examples.plan) "MONTH"))
  = false.
Proof. reflexivity. Qed.

Lemma insights_one_of_each_witness :
  List.filter isPositive
    (insights (analyzePerformanceInsights 0 Examples.tenTrades (Some Examples.plan) "MONTH"))
  = [strongAdherence 80].
Proof.
  pose proof (insights_one_of_each 0 Examples.tenTrades (Some Examples.plan) "MONTH") as H.
  destruct H as [H _]. destruct H as [H _]; [discriminate | discriminate |].
  rewrite H. vm_compute. reflexivity.
Defined.

End InsightFacts.

(** ** Breathwork trigger *)

Section BreathworkFacts.
Import Breathwork.

(** The battery has dropped by more than 30 from the session start to 35
    exactly when the session started above 65. *)
Lemma drop_fires (start : Q) :
  Qgtb (calculateBatteryDrop start 35) 30 = true <-> (65 < start)%Q.
Proof.
  unfold calculateBatteryDrop. rewrite Qgtb_lt. split.
  - intros H. destruct (Q.max_spec 0 (start - 35)) as [[_ E] | [_ E]]; rewrite E in H; lra.
  - intros H. eapply Qlt_le_trans; [|apply Q.le_max_r]. lra.
Qed.

(** C6, as amended. With mental battery 35, emotional volatility 50 and
    fewer than three impulsive trades in the trailing hour, the trigger
    suggests breathwork.  With the session-start battery at its default of
    100, or at any supplied value above 65, the low-battery and the
    battery-drop (100 - 35 = 65 > 30) triggers both fire and the urgency
    score is 20 * 2 + 15 + 20 = 75, in the "high" band.  Low battery is the
    only trigger, with score 20 + 15 = 35 in the "low" band, when and only
    when a session-start battery of at most 65 is supplied. *)
Theorem breathwork_at_battery_35 :
  forall (now : Z) (todayTrades : list Trade),
    (countImpulsiveTradesLastHour now todayTrades < 3)%nat ->
    (let r := shouldSuggestBreathwork now 35 50 todayTrades None in
     shouldSuggest r = true
     /\ map triggerType (triggers r) = [low_battery; battery_drop]
     /\ urgencyScore (urgency r) = 75
     /\ level (urgency r) = high)
    /\ (forall start : Q, (start <= 65)%Q ->
        let r := shouldSuggestBreathwork now 35 50 todayTrades (Some start) in
        shouldSuggest r = true
        /\ map triggerType (triggers r) = [low_battery]
        /\ urgencyScore (urgency r) = 35
        /\ level (urgency r) = low)
    /\ (forall start : Q, (65 < start)%Q ->
        let r := shouldSuggestBreathwork now 35 50 todayTrades (Some start) in
        shouldSuggest r = true
        /\ map triggerType (triggers r) = [low_battery; battery_drop]
        /\ urgencyScore (urgency r) = 75
        /\ level (urgency r) = high)
    /\ (forall sessionStartBattery : option Q,
        map triggerType
            (triggers (shouldSuggestBreathwork now 35 50 todayTrades sessionStartBattery))
        = [low_battery]
        <-> exists start, sessionStartBattery = Some start /\ (start <= 65)%Q).
Proof.
  intros now todayTrades Himp.
  assert (Hno : (3 <=? countImpulsiveTradesLastHour now todayTrades)%nat = false)
    by (apply Nat.leb_gt; exact Himp).
  assert (Hlow : forall start : Q, (start <= 65)%Q ->
            let r := shouldSuggestBreathwork now 35 50 todayTrades (Some start) in
            shouldSuggest r = true
            /\ map triggerType (triggers r) = [low_battery]
            /\ urgencyScore (urgency r) = 35
            /\ level (urgency r) = low).
  { intros start Hstart. unfold shouldSuggestBreathwork. rewrite Hno.
    assert (Hdrop : Qgtb (calculateBatteryDrop (default 100%Q (Some start)) 35) 30 = false).
    { change (default 100%Q (Some start)) with start.
      destruct (Qgtb (calculateBatteryDrop start 35) 30) eqn:E; [|reflexivity].
      apply drop_fires in E. lra. }
    rewrite Hdrop. cbn. repeat split. }
  assert (Hhigh : forall start : Q, (65 < start)%Q ->
            let r := shouldSuggestBreathwork now 35 50 todayTrades (Some start) in
            shouldSuggest r = true
            /\ map triggerType (triggers r) = [low_battery; battery_drop]
            /\ urgencyScore (urgency r) = 75
            /\ level (urgency r) = high).
  { intros start Hstart. unfold shouldSuggestBreathwork. rewrite Hno.
    assert (Hdrop : Qgtb (calculateBatteryDrop (default 100%Q (Some start)) 35) 30 = true).
    { change (default 100%Q (Some start)) with start. apply drop_fires. exact Hstart. }
    rewrite Hdrop. cbn. repeat split. }
  assert (Hdefault :
            let r := shouldSuggestBreathwork now 35 50 todayTrades None in
            shouldSuggest r = true
            /\ map triggerType (triggers r) = [low_battery; battery_drop]
            /\ urgencyScore (urgency r) = 75
            /\ level (urgency r) = high).
  { unfold shouldSuggestBreathwork. rewrite Hno. cbn. repeat split. }
  split; [exact Hdefault|]. split; [exact Hlow|]. split; [exact Hhigh|].
  intros [start|]; split.
  - intros Hone. exists start. split; [reflexivity|].
    destruct (Qlt_le_dec 65 start) as [Hgt | Hle]; [|exact Hle].
    destruct (Hhigh start Hgt) as (_ & Hboth & _). cbv zeta in Hboth.
    rewrite Hboth in Hone. discriminate Hone.
  - intros (v & Hv & Hle). apply (inj Some) in Hv. subst v.
    apply (Hlow start Hle).
  - intros Hone. destruct Hdefault as (_ & Hboth & _). cbv zeta in Hboth.
    rewrite Hboth in Hone. discriminate Hone.
  - intros (v & Hv & _). discriminate Hv.
Qed.

End BreathworkFacts.

(** ** Bounded scores *)

Section DayGrouping.
Import Metrics.

Lemma count_le_length {A} (p : A -> bool) (xs : list A) : (count p xs <= length xs)%nat.
Proof. unfold count. apply List.filter_length_le. Qed.

(** The days flagged as outside-session are days that have trades. *)
Lemma groupStep_dom (plan : TradingPlan) (trades : list Trade)
      (acc : gmap Z nat * gmap Z bool) :
  dom acc.2 ⊆ dom acc.1 ->
  dom (fold_left (groupStep plan) trades acc).2
  ⊆ dom (fold_left (groupStep plan) trades acc).1.
Proof.
  revert acc. induction trades as [|t rest IH]; intros acc Hacc; [exact Hacc|].
  cbn [fold_left]. apply IH. unfold groupStep. cbn [fst snd].
  destruct (isOutsideSession plan t).
  - rewrite !dom_insert. apply union_mono_l. exact Hacc.
  - rewrite dom_insert. apply union_subseteq_r'. exact Hacc.
Qed.

Lemma dayMetrics_bounds (trades : list Trade) (plan : TradingPlan) :
  let dm := calculateDayMetrics trades plan in
  (1 <= daysWithTrades dm)%nat
  /\ (exceededDays dm <= daysWithTrades dm)%nat
  /\ (outsideSessionDays dm <= daysWithTrades dm)%nat.
Proof.
  cbn zeta. unfold calculateDayMetrics.
  cbn [daysWithTrades exceededDays outsideSessionDays].
  set (m := (groupByDay plan trades).1).
  set (o := (groupByDay plan trades).2).
  assert (Ho : (size o <= size m)%nat).
  { rewrite <- (size_dom (D := gset Z) o), <- (size_dom (D := gset Z) m).
    apply subseteq_size. subst o m. unfold groupByDay.
    apply groupStep_dom. reflexivity. }
  assert (He : (count (exceedsCap plan) (map snd (map_to_list m)) <= size m)%nat).
  { etransitivity; [apply count_le_length|].
    rewrite List.length_map, length_map_to_list. reflexivity. }
  destruct (Nat.eqb_spec (size m) 0); lia.
Qed.

End DayGrouping.

Section AdherenceBounds.
Import Metrics PlanAdherence.

Lemma atLeast1_fraction (a n : nat) :
  (a <= Nat.max 1 n)%nat -> (0 <= ofNat a / atLeast1 n <= 1)%Q.
Proof. intros H. unfold atLeast1. apply fraction_bounds; lia. Qed.

(** The weighted average of four fractions, scaled to a percentage. *)
Lemma calculatePlanAdherence_bounds (riskBreaches nearTargetHits : nat)
      (dm : DayMetrics) (totalTrades : nat) :
  (riskBreaches <= totalTrades)%nat ->
  (exceededDays dm <= daysWithTrades dm)%nat ->
  (outsideSessionDays dm <= daysWithTrades dm)%nat ->
  0 <= calculatePlanAdherence riskBreaches nearTargetHits dm totalTrades <= 100.
Proof.
  intros Hr He Ho. unfold calculatePlanAdherence.
  pose proof (atLeast1_fraction riskBreaches totalTrades ltac:(lia)) as Ha.
  pose proof (atLeast1_fraction (outsideSessionDays dm) (daysWithTrades dm) ltac:(lia)) as Hb.
  pose proof (atLeast1_fraction (exceededDays dm) (daysWithTrades dm) ltac:(lia)) as Hc.
  set (a := (ofNat riskBreaches / atLeast1 totalTrades)%Q) in *.
  set (b := (ofNat (outsideSessionDays dm) / atLeast1 (daysWithTrades dm))%Q) in *.
  set (c := (ofNat (exceededDays dm) / atLeast1 (daysWithTrades dm))%Q) in *.
  set (d := Qmin 1 (ofNat nearTargetHits / atLeast1 totalTrades)).
  assert (Hd : (0 <= d <= 1)%Q).
  { subst d. split; [|apply Q.le_min_l].
    apply Q.min_glb; [discriminate|].
    apply Qle_shift_div_l; [apply ofNat_pos; lia|].
    rewrite Qmult_0_l. apply ofNat_nonneg. }
  let v := eval vm_compute in (orQ (sum WEIGHTS) 1) in
  change (orQ (sum WEIGHTS) 1) with v.
  unfold weightedSum, WEIGHTS. cbn [combine fold_left fst snd].
  unfold Qdiv.
  match goal with |- context [Qinv ?q] =>
    let i := eval vm_compute in (Qinv q) in change (Qinv q) with i end.
  clearbody a b c d.
  split; [apply round_ge | apply round_le];
    [change (inject_Z 0) with 0%Q | change (inject_Z 100) with 100%Q]; lra.
Qed.

End AdherenceBounds.

 
Section SortFacts.

Lemma insertByEntry_length (t : Trade) (sorted : list Trade) :
  length (insertByEntry t sorted) = S (length sorted).
Proof.
  induction sorted as [|u rest IH]; [reflexivity|].
  cbn [insertByEntry]. destruct (entryTime t <=? entryTime u); cbn [length]; congruence.
Qed.

Lemma sortByEntryTime_length (trades : list Trade) :
  length (sortByEntryTime trades) = length trades.
Proof.
  induction trades as [|t rest IH]; [reflexivity|].
  unfold sortByEntryTime in *. cbn [fold_right length].
  rewrite insertByEntry_length. congruence.
Qed.

Lemma insertByEntry_perm (t : Trade) (sorted : list Trade) :
  Permutation (insertByEntry t sorted) (t :: sorted).
Proof.
  induction sorted as [|u rest IH]; [reflexivity|].
  cbn [insertByEntry]. destruct (entryTime t <=? entryTime u); [reflexivity|].
  rewrite IH. apply perm_swap.
Qed.

(** Sorting rearranges the trades and neither adds nor drops one. *)
Lemma sortByEntryTime_perm (trades : list Trade) :
  Permutation (sortByEntryTime trades) trades.
Proof.
  induction trades as [|t rest IH]; [reflexivity|].
  unfold sortByEntryTime in *. cbn [fold_right].
  rewrite insertByEntry_perm. now apply perm_skip.
Qed.

End SortFacts.

Section PlanControlBounds.
Import PlanControl.

Lemma calculateTradeScore_bounds trade plan previous :
  0 <= score (calculateTradeScore trade plan previous) <= 100.
Proof.
  unfold calculateTradeScore, award.
  destruct (isInAllowedSession _ _), (hasProperSlTp _ _), (hasCorrectPositionSize _ _),
    (hasNotes _), (hasTimingDiscipline _ _); cbn; lia.
Qed.

Lemma scoreAll_length plan previous sorted :
  length (scoreAll plan previous sorted) = length sorted.
Proof.
  revert previous. induction sorted as [|t rest IH]; intros previous; [reflexivity|].
  cbn [scoreAll length]. now rewrite IH.
Qed.

Lemma totalScore_from (scores : list ScoredTrade) (start : Z) :
  Forall (fun ts => 0 <= score (tradeScore ts) <= 100) scores ->
  start <= fold_left (fun s ts => s + score (tradeScore ts)) scores start
        <= start + 100 * Z.of_nat (length scores).
Proof.
  intros H. revert start. induction H as [|ts rest Hts _ IH]; intros start.
  - cbn. lia.
  - cbn [fold_left length]. specialize (IH (start + score (tradeScore ts))). lia.
Qed.

Lemma scoreAll_bounds plan previous sorted :
  Forall (fun ts => 0 <= score (tradeScore ts) <= 100) (scoreAll plan previous sorted).
Proof.
  revert previous. induction sorted as [|t rest IH]; intros previous; constructor.
  - apply calculateTradeScore_bounds.
  - apply IH.
Qed.

(** The mean of [n > 0] per-trade scores, rounded. *)
Lemma mean_score_bounds (total : Z) (n : nat) :
  (0 < n)%nat -> 0 <= total <= 100 * Z.of_nat n ->
  inRange (round (inject_Z total / ofNat n)).
Proof.
  intros Hn [Hlo Hhi]. pose proof (ofNat_pos n Hn) as Hpos.
  split; [apply round_ge | apply round_le].
  - apply Qle_shift_div_l; [exact Hpos|]. rewrite Qmult_0_l.
    change 0%Q with (inject_Z 0). now rewrite <- Zle_Qle.
  - apply Qle_shift_div_r; [exact Hpos|]. unfold ofNat.
    rewrite <- inject_Z_mult, <- Zle_Qle. lia.
Qed.

Lemma calculatePlanControl_bounds trades plan :
  inRange (percentage (calculatePlanControl trades plan)).
Proof.
  unfold calculatePlanControl. destruct trades as [|t rest]; [cbn; unfold inRange; lia|].
  cbn [percentage].
  set (sorted := sortByEntryTime (take 5 (t :: rest))).
  assert (Hlen : (0 < length sorted)%nat).
  { subst sorted. rewrite sortByEntryTime_length. cbn. lia. }
  apply mean_score_bounds; [exact Hlen|].
  pose proof (totalScore_from (scoreAll plan None sorted) 0 (scoreAll_bounds _ _ _)) as H.
  rewrite scoreAll_length in H. unfold totalScore. lia.
Qed.

End PlanControlBounds.

Section RadarBounds.
Import Radar.

Lemma Qdiv_nonneg (a b : Q) : (0 <= a)%Q -> (0 <= b)%Q -> (0 <= a / b)%Q.
Proof.
  intros Ha Hb. unfold Qdiv. apply Qmult_le_0_compat; [exact Ha|].
  now apply Qinv_le_0_compat.
Qed.

Lemma fold_plus_nonneg (xs : list Q) (acc : Q) :
  Forall (fun x => 0 <= x)%Q xs -> (0 <= acc)%Q -> (0 <= fold_left Qplus xs acc)%Q.
Proof.
  intros H. revert acc. induction H as [|x rest Hx _ IH]; intros acc Hacc; [exact Hacc|].
  cbn [fold_left]. apply IH. lra.
Qed.

Lemma sum_nonneg (xs : list Q) : Forall (fun x => 0 <= x)%Q xs -> (0 <= sum xs)%Q.
Proof. intros H. unfold sum. apply fold_plus_nonneg; [exact H | apply Qle_refl]. Qed.

Lemma risksUsed_nonneg (trades : list Trade) :
  Forall wellFormedTrade trades -> Forall (fun x => 0 <= x)%Q (risksUsed trades).
Proof.
  unfold risksUsed, present. induction 1 as [|t rest Ht _ IH]; [constructor|].
  cbn [List.filter]. destruct (truthy (riskPercentUsed t)); [|exact IH].
  cbn [omap list_omap]. unfold wellFormedTrade in Ht.
  destruct (riskPercentUsed t); [constructor; assumption | exact IH].
Qed.

Lemma planRiskOr1_pos (plan : option TradingPlan) :
  wellFormedPlan plan -> (0 < planRiskOr1 plan)%Q.
Proof.
  destruct plan as [p|]; cbn; [|reflexivity]. intros Hp. unfold orQ.
  destruct (Qeq_bool (riskPercentPerTrade p) 0) eqn:E; [reflexivity|].
  apply Qeq_bool_neq in E. apply Qle_lteq in Hp. destruct Hp as [Hp | Hp]; [exact Hp|].
  exfalso. apply E. symmetry. exact Hp.
Qed.

Lemma firstn_Forall {A} (P : A -> Prop) (n : nat) (xs : list A) :
  Forall P xs -> Forall P (firstn n xs).
Proof.
  intros H. revert n. induction H as [|x rest Hx _ IH]; intros [|n]; cbn; constructor; auto.
Qed.

Lemma min100_round_bounds (x : Q) : (0 <= x)%Q -> inRange (Z.min 100 (round x)).
Proof.
  intros Hx. split; [|apply Z.le_min_l].
  apply Z.min_glb; [lia|]. now apply round_ge.
Qed.

Lemma calculateDiscipline_bounds trades plan (pc : Q) :
  (0 <= pc)%Q -> inRange (calculateDiscipline trades plan pc).
Proof.
  intros Hpc. unfold calculateDiscipline. apply min100_round_bounds.
  destruct (negb (existsb _ trades)); destruct (negb (_ && _)); lra.
Qed.

Lemma calculateImpulseControl_bounds trades : inRange (calculateImpulseControl trades).
Proof.
  unfold calculateImpulseControl.
  destruct (length trades <? 2)%nat; [unfold inRange; lia|].
  split; [apply Z.le_max_l|].
  apply Z.max_lub; [lia|]. apply round_le. change (inject_Z 100) with 100%Q.
  pose proof (ofNat_nonneg (countPairs impulsiveGap (sortByEntryTime trades))) as H.
  unfold Qdiv. change (/ 5)%Q with (1 # 5)%Q. lra.
Qed.

Lemma aggressionBase_nonneg trades planRisk :
  Forall wellFormedTrade trades -> (0 < planRisk)%Q ->
  (0 <= aggressionBase trades planRisk)%Q.
Proof.
  intros Hwf Hp. unfold aggressionBase.
  destruct (0 <? length (risksUsed trades))%nat; [|apply Qle_refl].
  apply Qmult_le_0_compat; [|discriminate].
  apply Qdiv_nonneg; [|lra]. unfold mean.
  apply Qdiv_nonneg; [|apply ofNat_nonneg].
  apply sum_nonneg. now apply risksUsed_nonneg.
Qed.

Lemma calculateAggression_bounds trades plan :
  Forall wellFormedTrade trades -> wellFormedPlan plan ->
  inRange (calculateAggression trades plan).
Proof.
  intros Hwf Hp. unfold calculateAggression.
  destruct trades as [|t rest]; [unfold inRange; lia|].
  pose proof (aggressionBase_nonneg (t :: rest) (planRiskOr1 plan) Hwf (planRiskOr1_pos plan Hp)).
  apply min100_round_bounds.
  destruct (existsb _ _); destruct (somePair _ _); lra.
Qed.

Lemma calculateHesitation_bounds trades : inRange (calculateHesitation trades).
Proof.
  unfold calculateHesitation. destruct trades as [|t rest]; [unfold inRange; lia|].
  apply min100_round_bounds.
  pose proof (ofNat_nonneg (count exitedEarly (t :: rest))) as H.
  unfold Qdiv. change (/ 5)%Q with (1 # 5)%Q.
  destruct (existsb _ _); destruct (somePair _ _); lra.
Qed.

Lemma calculateConsistency_bounds sqrt trades plan :
  inRange (calculateConsistency sqrt trades plan).
Proof.
  unfold calculateConsistency, inRange. destruct trades; lia.
Qed.

Lemma calculateEmotionalVolatility_bounds a h :
  inRange (calculateEmotionalVolatility a h).
Proof.
  unfold calculateEmotionalVolatility. apply min100_round_bounds.
  pose proof (Qabs_nonneg (inject_Z a - inject_Z h)) as H.
  unfold Qdiv. change (/ 2)%Q with (1 # 2)%Q.
  destruct ((60 <? a) && (60 <? h)); lra.
Qed.

(** Every trait of the radar lies in [0, 100]. *)
Lemma radar_bounds sqrt trades plan :
  Forall wellFormedTrade trades -> wellFormedPlan plan ->
  let t := traits (calculatePsychologicalRadar sqrt trades plan) in
  inRange (discipline t) /\ inRange (impulseControl t) /\ inRange (aggression t)
  /\ inRange (hesitation t) /\ inRange (consistency t) /\ inRange (emotionalVolatility t).
Proof.
  intros Hwf Hp. cbn zeta. unfold calculatePsychologicalRadar.
  destruct trades as [|t0 rest]; [cbn; unfold inRange; repeat split; lia|].
  cbn [traits discipline impulseControl aggression hesitation consistency emotionalVolatility].
  repeat match goal with |- _ /\ _ => split end.
  - apply calculateDiscipline_bounds.
    change 0%Q with (inject_Z 0). rewrite <- Zle_Qle.
    apply calculatePlanControl_bounds.
  - apply calculateImpulseControl_bounds.
  - apply calculateAggression_bounds; [|exact Hp]. now apply firstn_Forall.
  - apply calculateHesitation_bounds.
  - apply calculateConsistency_bounds.
  - apply calculateEmotionalVolatility_bounds.
Qed.

End RadarBounds.

Section HeatmapBounds.
Import Heatmap.

Lemma calculateWindowScore_bounds sqrt trades plan :
  inRange (score (calculateWindowScore sqrt trades plan)).
Proof.
  unfold calculateWindowScore. cbn [score].
  split; [apply round_ge | apply round_le].
  - apply Q.le_max_l.
  - apply Q.max_lub; [discriminate | apply Q.le_min_l].
Qed.

(** A window without trades has no score and is grey; a window with trades
    has a score in [0, 100]. *)
Lemma windowCell_bounds sqrt tzOffset trades plan w :
  match cellScore (windowCell sqrt tzOffset trades plan w) with
  | Some s => inRange s
  | None => color (windowCell sqrt tzOffset trades plan w) = grey
  end.
Proof.
  unfold windowCell. destruct (List.filter _ trades); cbn [cellScore color]; [reflexivity|].
  apply calculateWindowScore_bounds.
Qed.

End HeatmapBounds.

Section ScoreBounds.
Import Metrics.

Lemma analysis_planAdherence_bounds trades plan :
  inRange (StateAnalysis.planAdherence (StateAnalysis.analyzePsychologicalState trades plan)).
Proof.
  unfold StateAnalysis.analyzePsychologicalState.
  destruct trades as [|t rest]; [cbn; unfold inRange; lia|].
  destruct plan as [plan|]; [|cbn; unfold inRange; lia].
  cbn [StateAnalysis.planAdherence].
  pose proof (dayMetrics_bounds (take 10 (t :: rest)) plan) as (_ & He & Ho).
  apply calculatePlanAdherence_bounds; [apply count_le_length | exact He | exact Ho].
Qed.

Lemma insights_planAdherence_bounds now trades plan period :
  inRange (PerformanceInsights.planAdherence
             (PerformanceInsights.stats
                (PerformanceInsights.analyzePerformanceInsights now trades plan period))).
Proof.
  unfold PerformanceInsights.analyzePerformanceInsights.
  destruct trades as [|t rest]; [cbn; unfold inRange; lia|].
  destruct plan as [plan|]; [|cbn; unfold inRange; lia].
  cbn [PerformanceInsights.stats PerformanceInsights.planAdherence].
  set (n := length (t :: rest)).
  assert (Hn : (0 < n)%nat) by (subst n; cbn; lia).
  match goal with |- context [(1 - ofNat (count ?p ?l) / ofNat n + _)%Q] =>
    pose proof (fraction_bounds (count p l) n (count_le_length p l) Hn) as Ha;
    set (a := (ofNat (count p l) / ofNat n)%Q) in * end.
  match goal with |- context [(1 - (ofNat (count ?p ?l) / ofNat n))%Q] =>
    pose proof (fraction_bounds (count p l) n (count_le_length p l) Hn) as Hb;
    set (b := (ofNat (count p l) / ofNat n)%Q) in * end.
  clearbody a b. unfold Qdiv. change (/ 2)%Q with (1 # 2)%Q.
  split; [apply round_ge | apply round_le];
    [change (inject_Z 0) with 0%Q | change (inject_Z 100) with 100%Q]; lra.
Qed.

Lemma calculateMentalBattery_bounds trades plan planControlPercent :
  inRange (MentalBattery.battery
             (MentalBattery.calculateMentalBattery trades plan planControlPercent)).
Proof.
  unfold MentalBattery.calculateMentalBattery, inRange.
  destruct trades; cbn [MentalBattery.battery]; lia.
Qed.

End ScoreBounds.

Section AllScores.

(** C7. For every well-formed input, the plan-adherence value (of the state
    analysis and of the period insights), each of the six radar traits, the
    mental battery level, the plan-control percentage and every computed
    heatmap window score lie in [0, 100]; this holds for any timezone and
    whatever values the square root takes. *)
Theorem scores_within_0_100 :
  forall (sqrt : Q -> Q) (tzOffset now : Z) (period : string)
         (trades : list Trade) (plan : option TradingPlan) (planControlPercent : Z),
    Forall wellFormedTrade trades -> wellFormedPlan plan ->
    inRange (StateAnalysis.planAdherence (StateAnalysis.analyzePsychologicalState trades plan))
    /\ inRange (PerformanceInsights.planAdherence
                  (PerformanceInsights.stats
                     (PerformanceInsights.analyzePerformanceInsights now trades plan period)))
    /\ (let t := Radar.traits (Radar.calculatePsychologicalRadar sqrt trades plan) in
        inRange (Radar.discipline t) /\ inRange (Radar.impulseControl t)
        /\ inRange (Radar.aggression t) /\ inRange (Radar.hesitation t)
        /\ inRange (Radar.consistency t) /\ inRange (Radar.emotionalVolatility t))
    /\ inRange (MentalBattery.battery
                  (MentalBattery.calculateMentalBattery trades plan planControlPercent))
    /\ inRange (PlanControl.percentage (PlanControl.calculatePlanControl trades plan))
    /\ inRange (Heatmap.score (Heatmap.calculateWindowScore sqrt trades plan))
    /\ Forall (fun cell => match Heatmap.cellScore cell with
                           | Some s => inRange s
                           | None => Heatmap.color cell = Heatmap.grey
                           end)
              (Heatmap.windows (Heatmap.calculateBehaviorHeatmap sqrt tzOffset trades plan)).
Proof.
  intros sqrt tzOffset now period trades plan pc Hwf Hp.
  split; [apply analysis_planAdherence_bounds|].
  split; [apply insights_planAdherence_bounds|].
  split; [now apply radar_bounds|].
  split; [apply calculateMentalBattery_bounds|].
  split; [apply calculatePlanControl_bounds|].
  split; [apply calculateWindowScore_bounds|].
  unfold Heatmap.calculateBehaviorHeatmap. cbn [Heatmap.windows].
  apply List.Forall_forall. intros cell Hin. apply in_map_iff in Hin.
  destruct Hin as (w & <- & _). apply windowCell_bounds.
Qed.

End AllScores.

(** ** Null handling of the aggregates *)

Section NullExclusion.
Import Metrics NullHandling.


Lemma sumField_from (f : Trade -> option Q) (trades : list Trade) (acc : Q) :
  fold_left (fun s t => (s + default 0 (f t))%Q)
            (List.filter (fun t => notNull (f t)) trades) acc
  = fold_left Qplus (present f trades) acc.
Proof.
  revert acc. unfold present.
  induction trades as [|t rest IH]; intros acc; [reflexivity|].
  cbn [List.filter omap list_omap].
  destruct (f t) as [v|] eqn:E; cbn [notNull]; [|apply IH].
  cbn [fold_left]. rewrite E. apply IH.
Qed.

Lemma present_length (f : Trade -> option Q) (trades : list Trade) :
  length (List.filter (fun t => notNull (f t)) trades) = length (present f trades).
Proof.
  unfold present. induction trades as [|t rest IH]; [reflexivity|].
  cbn [List.filter omap list_omap].
  destruct (f t); cbn [notNull length]; congruence.
Qed.

(** The guarded average over the trades filtered on a non-null field is
    the mean of the values that are present. *)
Lemma fieldAverageOr_present (dflt : Q) (f : Trade -> option Q) (trades : list Trade) :
  fieldAverageOr dflt f (List.filter (fun t => notNull (f t)) trades)
  = meanOr dflt (present f trades).
Proof.
  unfold fieldAverageOr, sumField, meanOr, sum.
  rewrite sumField_from, present_length.
  destruct (present f trades); reflexivity.
Qed.

Lemma count_present (f : Trade -> option Q) (p : Q -> bool) (trades : list Trade) :
  count (fun t => match f t with Some v => p v | None => false end) trades
  = count p (present f trades).
Proof.
  unfold count, present. induction trades as [|t rest IH]; [reflexivity|].
  cbn [List.filter omap list_omap].
  destruct (f t) as [v|]; [|exact IH].
  cbn [List.filter]. destruct (p v); cbn [length]; congruence.
Qed.

Lemma risksUsed_present (trades : list Trade) :
  risksUsed trades = List.filter nonZero (present riskPercentUsed trades).
Proof.
  unfold risksUsed, present. induction trades as [|t rest IH]; [reflexivity|].
  cbn [List.filter omap list_omap].
  destruct (riskPercentUsed t) as [r|] eqn:E; cbn [truthy]; [|exact IH].
  cbn [List.filter]. fold (nonZero r). destruct (nonZero r); [|exact IH].
  cbn [omap list_omap]. rewrite E. now f_equal.
Qed.

Lemma present_map (f : Trade -> option Q) (trades : list Trade) :
  present f trades = omap id (map f trades).
Proof.
  unfold present. induction trades as [|t rest IH]; [reflexivity|].
  cbn [map omap list_omap]. destruct (f t); cbn [id]; now rewrite IH.
Qed.

Lemma count_mono {A} (p q : A -> bool) (xs : list A) :
  (forall x, p x = true -> q x = true) -> (count p xs <= count q xs)%nat.
Proof.
  intros H. unfold count. induction xs as [|x rest IH]; [reflexivity|].
  cbn [List.filter]. destruct (p x) eqn:E.
  - rewrite (H x E). cbn [length]. lia.
  - destruct (q x); cbn [length]; lia.
Qed.

Lemma filter_sub {A} (p q : A -> bool) (xs : list A) :
  (forall x, p x = true -> q x = true) ->
  List.filter p (List.filter q xs) = List.filter p xs.
Proof.
  intros H. induction xs as [|x rest IH]; [reflexivity|].
  cbn [List.filter]. destruct (q x) eqn:Eq.
  - cbn [List.filter]. destruct (p x); [f_equal|]; exact IH.
  - destruct (p x) eqn:Ep; [|exact IH]. rewrite (H x Ep) in Eq. discriminate Eq.
Qed.

Lemma count_sub {A} (p q : A -> bool) (xs : list A) :
  (forall x, p x = true -> q x = true) -> count p (List.filter q xs) = count p xs.
Proof. intros H. unfold count. now rewrite filter_sub. Qed.

Lemma existsb_sub {A} (p q : A -> bool) (xs : list A) :
  (forall x, p x = true -> q x = true) -> existsb p (List.filter q xs) = existsb p xs.
Proof.
  intros H. induction xs as [|x rest IH]; [reflexivity|].
  cbn [List.filter existsb]. destruct (q x) eqn:Eq.
  - cbn [existsb]. now rewrite IH.
  - destruct (p x) eqn:Ep; [rewrite (H x Ep) in Eq; discriminate Eq|]. exact IH.
Qed.

Lemma present_withField (f : Trade -> option Q) (trades : list Trade) :
  present f (List.filter (fun t => notNull (f t)) trades) = present f trades.
Proof.
  unfold present. induction trades as [|t rest IH]; [reflexivity|].
  cbn [List.filter]. destruct (f t) as [v|] eqn:E; cbn [notNull omap list_omap]; rewrite E.
  - now rewrite IH.
  - exact IH.
Qed.

Lemma risksUsed_withRisk (trades : list Trade) :
  risksUsed (tradesWithRisk trades) = risksUsed trades.
Proof.
  unfold risksUsed, tradesWithRisk. rewrite filter_sub; [reflexivity|].
  intros t. destruct (riskPercentUsed t); [reflexivity | discriminate].
Qed.

Lemma risksUsed_nil_withRisk (trades : list Trade) :
  tradesWithRisk trades = [] -> risksUsed trades = [].
Proof. intros E. rewrite <- risksUsed_withRisk, E. reflexivity. Qed.

Lemma tradesWithRisk_idem (trades : list Trade) :
  tradesWithRisk (tradesWithRisk trades) = tradesWithRisk trades.
Proof. unfold tradesWithRisk. apply filter_sub. auto. Qed.

Lemma tradesWithRR_idem (trades : list Trade) :
  tradesWithRR (tradesWithRR trades) = tradesWithRR trades.
Proof. unfold tradesWithRR. apply filter_sub. auto. Qed.

(** The metrics of a window and of its trades that record the field. *)
Lemma basicMetrics_withField (trades : list Trade) :
  avgRiskUsed (calculateBasicMetrics trades)
  = avgRiskUsed (calculateBasicMetrics (tradesWithRisk trades))
  /\ avgRR (calculateBasicMetrics trades)
     = avgRR (calculateBasicMetrics (tradesWithRR trades))
  /\ medianTargetPct (calculateBasicMetrics trades)
     = medianTargetPct (calculateBasicMetrics (tradesWithTarget trades))
  /\ nearTargetHits (calculateBasicMetrics trades)
     = nearTargetHits (calculateBasicMetrics (tradesWithTarget trades))
  /\ earlyExits (calculateBasicMetrics trades)
     = earlyExits (calculateBasicMetrics (targetOrFlag trades)).
Proof.
  destruct trades as [|t rest]; [repeat split|].
  set (trades := t :: rest).
  assert (Hm : forall ts : list Trade,
             calculateBasicMetrics ts
             = match ts with
               | [] => {| winRate := 0; avgRiskUsed := 0; avgRR := 0; medianTargetPct := 0;
                          nearTargetHits := 0; earlyExits := 0 |}
               | _ :: _ =>
                   {| winRate := (ofNat (count isWin ts) / ofNat (length ts))%Q;
                      avgRiskUsed := fieldAverageOr 0 riskPercentUsed (tradesWithRisk ts);
                      avgRR := fieldAverageOr 0 riskRewardAchieved (tradesWithRR ts);
                      medianTargetPct := computeMedian (sortQ (present targetPercentAchieved ts));
                      nearTargetHits := count isNearTargetHit ts;
                      earlyExits := count isEarlyExit ts |}
               end) by (intros [|x xs]; reflexivity).
  rewrite !Hm. subst trades.
  change (match t :: rest with [] => _ | _ :: _ => ?b end) with b.
  set (trades := t :: rest).
  split; [|split; [|split; [|split]]].
  - destruct (tradesWithRisk trades) as [|x xs] eqn:E; [reflexivity|].
    cbn [avgRiskUsed]. rewrite <- E, tradesWithRisk_idem. reflexivity.
  - destruct (tradesWithRR trades) as [|x xs] eqn:E; [reflexivity|].
    cbn [avgRR]. rewrite <- E, tradesWithRR_idem. reflexivity.
  - unfold tradesWithTarget.
    pose proof (present_withField targetPercentAchieved trades) as Hp.
    destruct (List.filter _ trades) as [|x xs] eqn:E.
    + cbn [medianTargetPct]. rewrite <- Hp. reflexivity.
    + cbn [medianTargetPct]. rewrite Hp. reflexivity.
  - unfold tradesWithTarget.
    assert (Hsub : forall x : Trade, isNearTargetHit x = true
                                     -> notNull (targetPercentAchieved x) = true).
    { intros x. unfold isNearTargetHit. destruct (targetPercentAchieved x);
        [reflexivity | discriminate]. }
    pose proof (count_sub isNearTargetHit _ trades Hsub) as Hc.
    destruct (List.filter _ trades) as [|x xs] eqn:E; cbn [nearTargetHits]; rewrite <- Hc;
      reflexivity.
  - unfold targetOrFlag.
    assert (Hsub : forall x : Trade,
               isEarlyExit x = true
               -> notNull (targetPercentAchieved x) || exitedEarly x = true).
    { intros x. unfold isEarlyExit. destruct (exitedEarly x); [intros _; apply orb_true_r|].
      destruct (targetPercentAchieved x); [reflexivity|].
      rewrite andb_false_r. discriminate. }
    pose proof (count_sub isEarlyExit _ trades Hsub) as Hc.
    destruct (List.filter _ trades) as [|x xs] eqn:E; cbn [earlyExits]; rewrite <- Hc;
      reflexivity.
Qed.

Lemma riskBreaches_withRisk (trades : list Trade) (planRisk : Q) :
  calculateRiskBreaches trades planRisk
  = calculateRiskBreaches (tradesWithRisk trades) planRisk.
Proof.
  unfold calculateRiskBreaches, tradesWithRisk. symmetry. apply count_sub.
  intros t. unfold exceedsRisk. destruct (riskPercentUsed t); [reflexivity | discriminate].
Qed.

Lemma firstn_olderWithRisk {A} (p : A -> bool) (n : nat) (xs : list A) :
  firstn n (firstn n xs ++ List.filter p (skipn n xs)) = firstn n xs.
Proof.
  revert xs. induction n as [|n IH]; intros [|x rest]; cbn [firstn skipn app List.filter];
    try reflexivity.
  f_equal. apply IH.
Qed.

Lemma olderWithRisk_nil (trades : list Trade) : olderWithRisk trades = [] -> trades = [].
Proof. destruct trades; [reflexivity | discriminate]. Qed.

Lemma olderWithRisk_withRisk (trades : list Trade) :
  tradesWithRisk (olderWithRisk trades) = tradesWithRisk trades.
Proof.
  unfold olderWithRisk, take.
  rewrite <- (firstn_skipn 3 trades) at 3.
  unfold tradesWithRisk. rewrite !List.filter_app. f_equal.
  apply filter_sub. auto.
Qed.

Lemma olderWithRisk_take (trades : list Trade) :
  take 3 (olderWithRisk trades) = take 3 trades.
Proof. apply firstn_olderWithRisk. Qed.

Lemma olderWithRisk_length (trades : list Trade) :
  (3 <=? length (olderWithRisk trades))%nat = (3 <=? length trades)%nat.
Proof.
  unfold olderWithRisk, take. rewrite length_app.
  destruct trades as [|a [|b [|c rest]]]; try reflexivity.
Qed.

Lemma riskSpike_olderWithRisk (trades : list Trade) (planRisk : Q) :
  calculateRiskSpike trades planRisk = calculateRiskSpike (olderWithRisk trades) planRisk.
Proof.
  destruct trades as [|t rest]; [reflexivity|].
  unfold calculateRiskSpike.
  rewrite olderWithRisk_withRisk, olderWithRisk_take. reflexivity.
Qed.

Lemma last3Breaches_recorded (trades : list Trade) (planRisk : Q) :
  (last3Breaches (calculateRiskSpike trades planRisk)
   <= count (fun t => notNull (riskPercentUsed t)) (take 3 trades))%nat.
Proof.
  unfold calculateRiskSpike. destruct (Nat.eqb (length trades) 0); [apply Nat.le_0_l|].
  cbn [last3Breaches]. apply count_mono. intros t. unfold exceedsRisk.
  destruct (riskPercentUsed t); [reflexivity | discriminate].
Qed.


(** The risk level of the forecast: HIGH on a losing streak or on an
    escalated average risk, MEDIUM otherwise. *)
Lemma forecast_level (trades : list Trade) (session : option TradingSessions)
      (plan : TradingPlan) (currentState : option PsychologicalState) :
  trades <> [] ->
  let f := SessionForecast.analyzeSessionForecast trades session (Some plan) currentState in
  let planRisk := orQ (riskPercentPerTrade plan) 0 in
  let high :=
    forallb (fun t => Qle_bool (profitLoss t) 0) (take 3 trades) && (3 <=? length trades)%nat
    || Qgtb (fieldAverageOr planRisk riskPercentUsed (tradesWithRisk trades))
            (planRisk * (125 # 100)) in
  SessionForecast.riskLevel f = (if high then HIGH else MEDIUM)
  /\ SessionForecast.forecast f
     = (if high then SessionForecast.FORECAST_NEGATIVE else SessionForecast.FORECAST_NEUTRAL).
Proof.
  intros Hne. cbv zeta. destruct trades as [|t rest]; [contradiction|].
  unfold SessionForecast.analyzeSessionForecast.
  destruct (forallb _ _ && _); destruct (Qgtb _ _); destruct (Qgeb _ _); split; reflexivity.
Qed.

Lemma forecast_olderWithRisk (trades : list Trade) (session : option TradingSessions)
      (plan : option TradingPlan) (currentState : option PsychologicalState) :
  let f := SessionForecast.analyzeSessionForecast trades session plan currentState in
  let g := SessionForecast.analyzeSessionForecast (olderWithRisk trades) session plan
             currentState in
  SessionForecast.riskLevel f = SessionForecast.riskLevel g
  /\ SessionForecast.forecast f = SessionForecast.forecast g.
Proof.
  cbv zeta. destruct trades as [|t rest]; [split; reflexivity|].
  destruct plan as [plan|]; [|split; reflexivity].
  set (trades := t :: rest).
  assert (Hne : trades <> []) by discriminate.
  assert (Hne' : olderWithRisk trades <> []).
  { intros E. apply olderWithRisk_nil in E. discriminate E. }
  destruct (forecast_level trades session plan currentState Hne) as [H1 H2].
  destruct (forecast_level (olderWithRisk trades) session plan currentState Hne') as [H3 H4].
  cbv zeta in H1, H2, H3, H4.
  rewrite olderWithRisk_withRisk, olderWithRisk_take, olderWithRisk_length in H3, H4.
  rewrite H1, H2, H3, H4. split; reflexivity.
Qed.

Lemma insights_avgRR_withRR (now : Z) (trades : list Trade) (plan : option TradingPlan)
      (period : string) :
  PerformanceInsights.avgRiskReward
    (PerformanceInsights.stats
       (PerformanceInsights.analyzePerformanceInsights now trades plan period))
  = PerformanceInsights.avgRiskReward
      (PerformanceInsights.stats
         (PerformanceInsights.analyzePerformanceInsights now (tradesWithRR trades) plan period)).
Proof.
  destruct trades as [|t rest]; [reflexivity|].
  destruct plan as [plan|]; [|destruct (tradesWithRR (t :: rest)); reflexivity].
  set (trades := t :: rest).
  destruct (tradesWithRR trades) as [|u us] eqn:E.
  - unfold PerformanceInsights.analyzePerformanceInsights. subst trades.
    cbn [PerformanceInsights.stats PerformanceInsights.avgRiskReward].
    rewrite E. reflexivity.
  - unfold PerformanceInsights.analyzePerformanceInsights. subst trades.
    cbn [PerformanceInsights.stats PerformanceInsights.avgRiskReward].
    rewrite <- E, tradesWithRR_idem. reflexivity.
Qed.

Lemma aggressionBase_withRisk (trades : list Trade) (planRisk : Q) :
  Radar.aggressionBase trades planRisk = Radar.aggressionBase (tradesWithRisk trades) planRisk.
Proof. unfold Radar.aggressionBase. rewrite risksUsed_withRisk. reflexivity. Qed.

Lemma riskAbove_recorded (bound : Q) (t : Trade) :
  riskAbove bound t = true -> notNull (riskPercentUsed t) = true.
Proof. unfold riskAbove. destruct (riskPercentUsed t); [reflexivity | discriminate]. Qed.

Lemma pairs_fst_In (sorted : list Trade) (pt : Trade * Trade) :
  In pt (pairs sorted) -> In (fst pt) sorted.
Proof.
  induction sorted as [|a rest IH]; [intros []|].
  destruct rest as [|b rest']; [intros []|].
  cbn [pairs]. intros [<-|H]; [left; reflexivity|]. right. apply IH. exact H.
Qed.

(** No trade of the window is a loss: no pair of the window is a revenge
    pattern. *)
Lemma no_loss_no_revenge (planRisk : Q) (trades : list Trade) :
  Forall (fun t => (0 <= profitLoss t)%Q) trades ->
  somePair (Radar.isRevenge planRisk) (sortByEntryTime trades) = false.
Proof.
  intros H. unfold somePair.
  destruct (existsb _ _) eqn:E; [|reflexivity]. exfalso.
  apply existsb_exists in E. destruct E as (pt & Hin & Hrev).
  apply pairs_fst_In in Hin.
  assert (Hin' : In (fst pt) trades).
  { eapply Permutation_in; [apply sortByEntryTime_perm | exact Hin]. }
  rewrite List.Forall_forall in H. specialize (H _ Hin').
  unfold Radar.isRevenge in Hrev. apply andb_true_iff in Hrev. destruct Hrev as [Hl _].
  apply Qltb_lt in Hl. cbn beta in H. lra.
Qed.

Lemma aggression_no_loss (trades : list Trade) (plan : option TradingPlan) :
  Forall (fun t => (0 <= profitLoss t)%Q) trades ->
  Radar.calculateAggression trades plan
  = Z.min 100 (round (if existsb (riskAbove (planRiskOr1 plan * (15 # 10))) trades
                      then Radar.aggressionBase trades (planRiskOr1 plan) + 20
                      else Radar.aggressionBase trades (planRiskOr1 plan))%Q).
Proof.
  intros Hwin. destruct trades as [|t rest]; [reflexivity|].
  unfold Radar.calculateAggression. rewrite no_loss_no_revenge by exact Hwin. reflexivity.
Qed.

Lemma aggression_withRisk (trades : list Trade) (plan : option TradingPlan) :
  Forall (fun t => (0 <= profitLoss t)%Q) trades ->
  Radar.calculateAggression trades plan
  = Radar.calculateAggression (tradesWithRisk trades) plan.
Proof.
  intros Hwin.
  assert (Hwin' : Forall (fun t => (0 <= profitLoss t)%Q) (tradesWithRisk trades)).
  { unfold tradesWithRisk. rewrite List.Forall_forall in *. intros x Hx.
    apply List.filter_In in Hx. apply Hwin. apply Hx. }
  rewrite (aggression_no_loss trades plan Hwin).
  rewrite (aggression_no_loss (tradesWithRisk trades) plan Hwin').
  rewrite <- aggressionBase_withRisk.
  unfold tradesWithRisk at 1. rewrite existsb_sub by apply riskAbove_recorded. reflexivity.
Qed.

Lemma riskVariability_withRisk (sqrt : Q -> Q) (trades : list Trade) :
  Radar.riskVariability sqrt trades = Radar.riskVariability sqrt (tradesWithRisk trades).
Proof. unfold Radar.riskVariability. rewrite risksUsed_withRisk. reflexivity. Qed.

Lemma riskDeviation_withRisk (sqrt : Q -> Q) (trades : list Trade) (planRisk : Q) :
  Heatmap.calculateRiskDeviationPenalty sqrt trades planRisk
  = Heatmap.calculateRiskDeviationPenalty sqrt (tradesWithRisk trades) planRisk.
Proof.
  destruct trades as [|t rest]; [reflexivity|]. set (trades := t :: rest).
  destruct (tradesWithRisk trades) as [|u us] eqn:E.
  - subst trades. unfold Heatmap.calculateRiskDeviationPenalty.
    rewrite (risksUsed_nil_withRisk _ E). destruct (Qeq_bool planRisk 0); reflexivity.
  - rewrite <- E. subst trades. unfold Heatmap.calculateRiskDeviationPenalty at 1.
    rewrite <- risksUsed_withRisk. set (w := tradesWithRisk (t :: rest)) in *.
    unfold Heatmap.calculateRiskDeviationPenalty. rewrite E. reflexivity.
Qed.

Lemma riskConsistency_withRisk (sqrt : Q -> Q) (trades : list Trade) (planRisk : Q) :
  ConsistencyTrend.calculateRiskConsistency sqrt trades planRisk
  = ConsistencyTrend.calculateRiskConsistency sqrt (tradesWithRisk trades) planRisk.
Proof.
  destruct trades as [|t rest]; [reflexivity|]. set (trades := t :: rest).
  destruct (tradesWithRisk trades) as [|u us] eqn:E.
  - subst trades. unfold ConsistencyTrend.calculateRiskConsistency.
    rewrite (risksUsed_nil_withRisk _ E). destruct (Qeq_bool planRisk 0); reflexivity.
  - rewrite <- E. subst trades. unfold ConsistencyTrend.calculateRiskConsistency at 1.
    rewrite <- risksUsed_withRisk. set (w := tradesWithRisk (t :: rest)) in *.
    unfold ConsistencyTrend.calculateRiskConsistency. rewrite E. reflexivity.
Qed.

Lemma hesitationPenalty_targetOrFlag (trades : list Trade) :
  Heatmap.calculateHesitationPenalty trades
  = Heatmap.calculateHesitationPenalty (targetOrFlag trades).
Proof.
  destruct trades as [|t rest]; [reflexivity|]. set (trades := t :: rest).
  assert (Hsub : forall x : Trade,
             Heatmap.isHesitation x = true
             -> notNull (targetPercentAchieved x) || exitedEarly x = true).
  { intros x. unfold Heatmap.isHesitation.
    destruct (exitedEarly x); [intros _; apply orb_true_r|].
    destruct (targetPercentAchieved x); [reflexivity | discriminate]. }
  pose proof (count_sub Heatmap.isHesitation _ trades Hsub) as Hc.
  fold (targetOrFlag trades) in Hc.
  unfold Heatmap.calculateHesitationPenalty at 1. subst trades. cbv iota. rewrite <- Hc.
  destruct (targetOrFlag (t :: rest)) as [|u us]; reflexivity.
Qed.

Lemma count_map {A B} (p : B -> bool) (f : A -> B) (xs : list A) :
  count p (map f xs) = count (fun x => p (f x)) xs.
Proof.
  unfold count. induction xs as [|x rest IH]; [reflexivity|].
  cbn [map List.filter]. destruct (p (f x)); cbn [length]; congruence.
Qed.

Lemma count_ext {A} (p q : A -> bool) (xs : list A) :
  (forall x, p x = q x) -> count p xs = count q xs.
Proof.
  intros H. unfold count. induction xs as [|x rest IH]; [reflexivity|].
  cbn [List.filter]. rewrite (H x). destruct (q x); cbn [length]; congruence.
Qed.

Lemma count_map_same {A} (p : A -> bool) (f : A -> A) (xs : list A) :
  (forall x, p (f x) = p x) -> count p (map f xs) = count p xs.
Proof. intros H. rewrite count_map. apply count_ext. exact H. Qed.

Lemma fold_left_map_same {A B} (step : B -> A -> B) (f : A -> A) (xs : list A) (acc : B) :
  (forall b x, step b (f x) = step b x) ->
  fold_left step (map f xs) acc = fold_left step xs acc.
Proof.
  intros H. revert acc. induction xs as [|x rest IH]; intros acc; [reflexivity|].
  cbn [map fold_left]. rewrite H. apply IH.
Qed.

(** A trade read with a field filled in is the same trade to the day
    grouping. *)
Lemma dayMetrics_map (f : Trade -> Trade) (trades : list Trade) (plan : TradingPlan) :
  (forall t, entryTime (f t) = entryTime t /\ session (f t) = session t) ->
  calculateDayMetrics (map f trades) plan = calculateDayMetrics trades plan.
Proof.
  intros H. unfold calculateDayMetrics, groupByDay.
  rewrite fold_left_map_same; [reflexivity|].
  intros acc t. destruct (H t) as [He Hs].
  unfold groupStep, dayKey, isOutsideSession. rewrite He, Hs. reflexivity.
Qed.

Lemma adherence_map (f : Trade -> Trade) (trades : list Trade) (plan : option TradingPlan) :
  (forall t, entryTime (f t) = entryTime t /\ session (f t) = session t) ->
  (forall t, isNearTargetHit (f t) = isNearTargetHit t) ->
  (forall p t, plan = Some p ->
               exceedsRisk (orQ (riskPercentPerTrade p) 0 * (15 # 10)) (f t)
               = exceedsRisk (orQ (riskPercentPerTrade p) 0 * (15 # 10)) t) ->
  StateAnalysis.planAdherence (StateAnalysis.analyzePsychologicalState (map f trades) plan)
  = StateAnalysis.planAdherence (StateAnalysis.analyzePsychologicalState trades plan).
Proof.
  intros Hday Hnear Hrisk.
  destruct trades as [|t rest]; [reflexivity|].
  destruct plan as [plan|]; [|reflexivity].
  set (trades := t :: rest).
  assert (Hcons : map f trades = f t :: map f rest) by reflexivity.
  unfold StateAnalysis.analyzePsychologicalState. rewrite Hcons. fold trades.
  change (match trades with [] => _ | _ :: _ => ?b end) with b.
  cbv iota. cbn [StateAnalysis.planAdherence]. rewrite <- Hcons.
  unfold take. rewrite !List.firstn_map.
  set (window := firstn 10 trades).
  rewrite length_map, dayMetrics_map by exact Hday.
  f_equal.
  - unfold calculateRiskBreaches. apply count_map_same. intros x. apply (Hrisk plan x eq_refl).
  - destruct window as [|w ws] eqn:E; [reflexivity|].
    unfold calculateBasicMetrics. cbn [map length Nat.eqb nearTargetHits].
    change (f w :: map f ws) with (map f (w :: ws)).
    apply count_map_same. exact Hnear.
Qed.


Lemma filter_map_same {A} (p : A -> bool) (f : A -> A) (xs : list A) :
  (forall x, p (f x) = p x) -> List.filter p (map f xs) = map f (List.filter p xs).
Proof.
  intros H. induction xs as [|x rest IH]; [reflexivity|].
  cbn [map List.filter]. rewrite H. destruct (p x); cbn [map]; congruence.
Qed.

Lemma sumField_map (g : Trade -> option Q) (f : Trade -> Trade) (ts : list Trade) :
  (forall t, g (f t) = g t) -> sumField g (map f ts) = sumField g ts.
Proof.
  intros H. unfold sumField. apply fold_left_map_same. intros b x. now rewrite H.
Qed.

(** The insights read a trade through its outcome, its reward ratio, its
    session, its entry time and the tests of risk breach and early exit. *)
Lemma insights_map (f : Trade -> Trade) (now : Z) (trades : list Trade)
      (plan : option TradingPlan) (period : string) :
  (forall t, entryTime (f t) = entryTime t /\ session (f t) = session t
             /\ profitLoss (f t) = profitLoss t
             /\ riskRewardAchieved (f t) = riskRewardAchieved t) ->
  (forall t, PerformanceInsights.isEarlyExit (f t) = PerformanceInsights.isEarlyExit t) ->
  (forall p t, plan = Some p ->
               exceedsRisk (orQ (riskPercentPerTrade p) 0 * (15 # 10)) (f t)
               = exceedsRisk (orQ (riskPercentPerTrade p) 0 * (15 # 10)) t) ->
  PerformanceInsights.analyzePerformanceInsights now (map f trades) plan period
  = PerformanceInsights.analyzePerformanceInsights now trades plan period.
Proof.
  intros Hsame Hearly Hrisk.
  destruct trades as [|t rest]; [reflexivity|].
  destruct plan as [plan|]; [|reflexivity].
  set (trades := t :: rest).
  assert (Hcons : map f trades = f t :: map f rest) by reflexivity.
  unfold PerformanceInsights.analyzePerformanceInsights. rewrite Hcons. fold trades.
  change (match trades with [] => _ | _ :: _ => ?b end) with b.
  cbv iota. rewrite <- Hcons.
  assert (Hwin : count isWin (map f trades) = count isWin trades).
  { apply count_map_same. intros x. unfold isWin. destruct (Hsame x) as (_ & _ & -> & _).
    reflexivity. }
  assert (Hrr : tradesWithRR (map f trades) = map f (tradesWithRR trades)).
  { apply filter_map_same. intros x. destruct (Hsame x) as (_ & _ & _ & ->). reflexivity. }
  assert (Hsum : sumField riskRewardAchieved (map f (tradesWithRR trades))
                 = sumField riskRewardAchieved (tradesWithRR trades)).
  { apply sumField_map. intros x. apply (Hsame x). }
  assert (Hbreach : count (exceedsRisk (orQ (riskPercentPerTrade plan) 0 * (15 # 10)))
                          (map f trades)
                    = count (exceedsRisk (orQ (riskPercentPerTrade plan) 0 * (15 # 10))) trades).
  { apply count_map_same. intros x. apply (Hrisk plan x eq_refl). }
  assert (Hout : count (isOutsideSession plan) (map f trades)
                 = count (isOutsideSession plan) trades).
  { apply count_map_same. intros x. unfold isOutsideSession.
    destruct (Hsame x) as (_ & -> & _). reflexivity. }
  assert (Hweek : count (fun t => now - 7 * 86400000 <=? entryTime t) (map f trades)
                  = count (fun t => now - 7 * 86400000 <=? entryTime t) trades).
  { apply count_map_same. intros x. destruct (Hsame x) as (-> & _). reflexivity. }
  assert (Hearly' : count PerformanceInsights.isEarlyExit (map f trades)
                    = count PerformanceInsights.isEarlyExit trades).
  { apply count_map_same. exact Hearly. }
  rewrite Hwin, Hrr, Hsum, Hbreach, Hout, Hweek, Hearly', !length_map. reflexivity.
Qed.

Lemma exceedsRisk_fillRisk (threshold : Q) (t : Trade) :
  (0 <= threshold)%Q -> exceedsRisk threshold (fillRisk 0 t) = exceedsRisk threshold t.
Proof.
  intros H. unfold exceedsRisk, fillRisk. cbn [riskPercentUsed].
  destruct (riskPercentUsed t) as [r|]; [reflexivity|].
  change (default 0%Q None) with 0%Q. apply Qltb_ge. exact H.
Qed.

Lemma breachThreshold_nonneg (plan : option TradingPlan) (p : TradingPlan) :
  wellFormedPlan plan -> plan = Some p ->
  (0 <= orQ (riskPercentPerTrade p) 0 * (15 # 10))%Q.
Proof.
  intros Hwf ->. cbn in Hwf. unfold orQ.
  destruct (Qeq_bool (riskPercentPerTrade p) 0); [discriminate | lra].
Qed.

Lemma tests_fail_without_risk (t : Trade) (bound planRisk : Q) :
  riskPercentUsed t = None ->
  exceedsRisk bound t = false /\ riskAbove bound t = false /\ riskBelow bound t = false
  /\ MentalBattery.isOversizedTrade t planRisk = false
  /\ MentalBattery.withinTenPercent planRisk t = false
  /\ PlanControl.hasCorrectPositionSize t planRisk = false.
Proof.
  intros E. unfold exceedsRisk, riskAbove, riskBelow, MentalBattery.isOversizedTrade,
    MentalBattery.withinTenPercent, PlanControl.hasCorrectPositionSize.
  rewrite E. repeat split.
Qed.

Lemma tests_fail_without_target (t : Trade) :
  targetPercentAchieved t = None ->
  isNearTargetHit t = false /\ Radar.lowTargetWin t = false
  /\ isEarlyExit t = exitedEarly t
  /\ PerformanceInsights.isEarlyExit t = exitedEarly t
  /\ MentalBattery.hesitationFlag t = exitedEarly t
  /\ Heatmap.isHesitation t = exitedEarly t
  /\ (forall targetRR : Q,
        riskRewardAchieved t = None -> PlanControl.hasProperSlTp t targetRR = false).
Proof.
  intros E. unfold isNearTargetHit, Radar.lowTargetWin, isEarlyExit,
    PerformanceInsights.isEarlyExit, MentalBattery.hesitationFlag, Heatmap.isHesitation.
  rewrite E. cbn [truthy]. rewrite !andb_false_r, !orb_false_r.
  repeat split; [destruct (exitedEarly t); reflexivity|].
  intros targetRR Err. unfold PlanControl.hasProperSlTp. rewrite E, Err.
  change (default 0%Q None) with 0%Q. rewrite andb_false_r. reflexivity.
Qed.

Lemma stable_risk_fails_without_risk (trades : list Trade) (planRisk : Q) (t : Trade) :
  In t trades -> riskPercentUsed t = None ->
  MentalBattery.hasStableRiskUsage trades planRisk = false
  /\ PerformanceWindow.checkStableRisk trades planRisk = false.
Proof.
  intros Hin E.
  assert (H1 : forallb (MentalBattery.withinTenPercent planRisk) trades = false).
  { apply not_true_is_false. intros H. rewrite forallb_forall in H. specialize (H t Hin).
    unfold MentalBattery.withinTenPercent in H. rewrite E in H. discriminate H. }
  unfold MentalBattery.hasStableRiskUsage, PerformanceWindow.checkStableRisk.
  destruct trades as [|u us]; [destruct Hin|].
  destruct (Qeq_bool planRisk 0); [split; reflexivity|].
  split; exact H1.
Qed.

(** C1, as amended. The averages, the median and the deviations over a
    nullable trade field are computed over the trades that record the field
    and over nothing else, and so are the threshold counts: removing the
    trades without the field leaves them unchanged (average risk and
    reward ratio, median target, near-target hits and risk breaches of the
    metrics, reward ratio of the insights, risk base of the radar's
    aggression and its aggression score when no trade is a loss, risk
    variability of the radar, risk-deviation penalty of the heatmap and risk
    consistency of the trend); removing the trades without a target that
    are not flagged as exited early leaves the early exits and the
    heatmap's hesitation penalty unchanged; removing the trades without a
    risk from beyond the three most recent leaves the risk spike and the
    risk level and label of the forecast unchanged, and a trade without a
    risk among those three is never one of the breaches.  No test on a
    nullable field is passed by a trade that lacks it (it counts as an early
    exit or a hesitation by its flag alone), and the scoring suite averages
    the risks that are neither null nor 0.  For risks
    [2.0, null, 1.5, null, 2.5] the average risk used is 2.0, not 1.2, in
    the state analysis and in the radar alike.  A trade without the field
    is still a trade, though: it stays in the number of trades by which the
    breach, near-target and early-exit counts are divided, so that plan
    adherence reads a missing target as it reads 0, the insights read it
    as they read a target of 50 or more, and both read a missing risk as
    they read 0 when the plan risk is not negative; and the checks that
    every trade is within a tenth of the plan risk fail on it. *)
Theorem null_values_enter_no_average_and_pass_no_test :
  forall (sqrt : Q -> Q) (now : Z) (period : string) (trades : list Trade)
         (plan : option TradingPlan) (planRisk : Q)
         (session : option TradingSessions) (currentState : option PsychologicalState),
    (* the metrics of the state analysis *)
    (avgRiskUsed (calculateBasicMetrics trades)
     = avgRiskUsed (calculateBasicMetrics (tradesWithRisk trades))
     /\ avgRR (calculateBasicMetrics trades)
        = avgRR (calculateBasicMetrics (tradesWithRR trades))
     /\ medianTargetPct (calculateBasicMetrics trades)
        = medianTargetPct (calculateBasicMetrics (tradesWithTarget trades))
     /\ nearTargetHits (calculateBasicMetrics trades)
        = nearTargetHits (calculateBasicMetrics (tradesWithTarget trades))
     /\ earlyExits (calculateBasicMetrics trades)
        = earlyExits (calculateBasicMetrics (targetOrFlag trades))
     /\ calculateRiskBreaches trades planRisk
        = calculateRiskBreaches (tradesWithRisk trades) planRisk
     /\ calculateRiskSpike trades planRisk
        = calculateRiskSpike (olderWithRisk trades) planRisk
     /\ (last3Breaches (calculateRiskSpike trades planRisk)
         <= count (fun t => notNull (riskPercentUsed t)) (take 3 trades))%nat)
    (* the session forecast and the insights *)
    /\ (let f := SessionForecast.analyzeSessionForecast trades session plan currentState in
        let g := SessionForecast.analyzeSessionForecast (olderWithRisk trades) session plan
                   currentState in
        SessionForecast.riskLevel f = SessionForecast.riskLevel g
        /\ SessionForecast.forecast f = SessionForecast.forecast g)
    /\ PerformanceInsights.avgRiskReward
         (PerformanceInsights.stats
            (PerformanceInsights.analyzePerformanceInsights now trades plan period))
       = PerformanceInsights.avgRiskReward
           (PerformanceInsights.stats
              (PerformanceInsights.analyzePerformanceInsights
                 now (tradesWithRR trades) plan period))
    (* the scoring suite *)
    /\ (risksUsed trades = List.filter nonZero (present riskPercentUsed trades)
        /\ Radar.aggressionBase trades planRisk
           = Radar.aggressionBase (tradesWithRisk trades) planRisk
        /\ (Forall (fun t => (0 <= profitLoss t)%Q) trades ->
            Radar.calculateAggression trades plan
            = Radar.calculateAggression (tradesWithRisk trades) plan)
        /\ Radar.riskVariability sqrt trades
           = Radar.riskVariability sqrt (tradesWithRisk trades)
        /\ Heatmap.calculateRiskDeviationPenalty sqrt trades planRisk
           = Heatmap.calculateRiskDeviationPenalty sqrt (tradesWithRisk trades) planRisk
        /\ ConsistencyTrend.calculateRiskConsistency sqrt trades planRisk
           = ConsistencyTrend.calculateRiskConsistency sqrt (tradesWithRisk trades) planRisk
        /\ Heatmap.calculateHesitationPenalty trades
           = Heatmap.calculateHesitationPenalty (targetOrFlag trades))
    (* the tests on a nullable field *)
    /\ (forall (t : Trade) (bound : Q),
          riskPercentUsed t = None ->
          exceedsRisk bound t = false /\ riskAbove bound t = false
          /\ riskBelow bound t = false
          /\ MentalBattery.isOversizedTrade t planRisk = false
          /\ MentalBattery.withinTenPercent planRisk t = false
          /\ PlanControl.hasCorrectPositionSize t planRisk = false)
    /\ (forall t : Trade,
          targetPercentAchieved t = None ->
          isNearTargetHit t = false /\ Radar.lowTargetWin t = false
          /\ isEarlyExit t = exitedEarly t
          /\ PerformanceInsights.isEarlyExit t = exitedEarly t
          /\ MentalBattery.hesitationFlag t = exitedEarly t
          /\ Heatmap.isHesitation t = exitedEarly t
          /\ (forall targetRR : Q,
                riskRewardAchieved t = None -> PlanControl.hasProperSlTp t targetRR = false))
    (* a trade without the field is still a trade *)
    /\ StateAnalysis.planAdherence
         (StateAnalysis.analyzePsychologicalState (map (fillTarget 0) trades) plan)
       = StateAnalysis.planAdherence (StateAnalysis.analyzePsychologicalState trades plan)
    /\ (wellFormedPlan plan ->
        StateAnalysis.planAdherence
          (StateAnalysis.analyzePsychologicalState (map (fillRisk 0) trades) plan)
        = StateAnalysis.planAdherence (StateAnalysis.analyzePsychologicalState trades plan)
        /\ PerformanceInsights.analyzePerformanceInsights
             now (map (fillRisk 0) trades) plan period
           = PerformanceInsights.analyzePerformanceInsights now trades plan period)
    /\ (forall v : Q, (50 <= v)%Q ->
        PerformanceInsights.analyzePerformanceInsights now (map (fillTarget v) trades) plan period
        = PerformanceInsights.analyzePerformanceInsights now trades plan period)
    /\ (forall t : Trade, In t trades -> riskPercentUsed t = None ->
        MentalBattery.hasStableRiskUsage trades planRisk = false
        /\ PerformanceWindow.checkStableRisk trades planRisk = false)
    (* the example *)
    /\ (map riskPercentUsed trades
        = [Some 2%Q; None; Some (15 # 10)%Q; None; Some (25 # 10)%Q] ->
        (avgRiskUsed (calculateBasicMetrics trades) == 2)%Q
        /\ ~ (avgRiskUsed (calculateBasicMetrics trades) == 12 # 10)%Q
        /\ (Radar.mean (risksUsed trades) == 2)%Q)
    /\ (map riskRewardAchieved trades = [Some 2%Q; None; Some 1%Q] ->
        (avgRR (calculateBasicMetrics trades) == 3 # 2)%Q
        /\ (plan <> None ->
            (PerformanceInsights.avgRiskReward
               (PerformanceInsights.stats
                  (PerformanceInsights.analyzePerformanceInsights now trades plan period))
             == 3 # 2)%Q))
    /\ (map targetPercentAchieved trades = [Some 100%Q; None; Some 50%Q] ->
        (medianTargetPct (calculateBasicMetrics trades) == 75)%Q
        /\ nearTargetHits (calculateBasicMetrics trades) = 1%nat)
    /\ riskSpike (calculateRiskSpike threeOfFive (15 # 10)) = false
    /\ SessionForecast.forecast
         (SessionForecast.analyzeSessionForecast threeOfFive None (Some Examples.plan) None)
       = SessionForecast.FORECAST_NEGATIVE
    /\ Radar.calculateAggression Examples.fiveRisks (Some Examples.plan) = 87
    /\ Radar.calculateConsistency Examples.sqrtApprox sparseTrades (Some Examples.plan) = 60
    /\ Heatmap.calculateRiskDeviationPenalty Examples.sqrtApprox sparseTrades (15 # 10) = 33
    /\ (ConsistencyTrend.calculateRiskConsistency Examples.sqrtApprox sparseTrades (15 # 10)
        == 50)%Q
    /\ Heatmap.calculateHesitationPenalty sparseTrades = 20.
Proof.
  intros sqrt now period trades plan planRisk session currentState.
  split.
  { destruct (basicMetrics_withField trades) as (H1 & H2 & H3 & H4 & H5).
    repeat (split; [assumption|]).
    split; [apply riskBreaches_withRisk|].
    split; [apply riskSpike_olderWithRisk | apply last3Breaches_recorded]. }
  split; [apply forecast_olderWithRisk|].
  split; [apply insights_avgRR_withRR|].
  split.
  { split; [apply risksUsed_present|].
    split; [apply aggressionBase_withRisk|].
    split; [apply aggression_withRisk|].
    split; [apply riskVariability_withRisk|].
    split; [apply riskDeviation_withRisk|].
    split; [apply riskConsistency_withRisk | apply hesitationPenalty_targetOrFlag]. }
  split; [intros t bound; apply tests_fail_without_risk|].
  split; [apply tests_fail_without_target|].
  split.
  { apply adherence_map.
    - intros t. split; reflexivity.
    - intros t. unfold isNearTargetHit, fillTarget. cbn [targetPercentAchieved].
      destruct (targetPercentAchieved t); reflexivity.
    - reflexivity. }
  split.
  { intros Hwf. split.
    - apply adherence_map.
      + intros t. split; reflexivity.
      + reflexivity.
      + intros p t Hp. apply exceedsRisk_fillRisk. exact (breachThreshold_nonneg plan p Hwf Hp).
    - apply insights_map.
      + intros t. repeat split.
      + reflexivity.
      + intros p t Hp. apply exceedsRisk_fillRisk. exact (breachThreshold_nonneg plan p Hwf Hp). }
  split.
  { intros v Hv. apply insights_map.
    - intros t. repeat split.
    - intros t. unfold PerformanceInsights.isEarlyExit, fillTarget.
      cbn [exitedEarly targetPercentAchieved].
      destruct (targetPercentAchieved t) as [x|]; [reflexivity|].
      change (default v None) with v.
      assert (E : Qltb v 50 = false) by (apply Qltb_ge; exact Hv). rewrite E. reflexivity.
    - reflexivity. }
  split; [apply stable_risk_fails_without_risk|].
  split.
  { intros Hcol.
    assert (Hrisk : avgRiskUsed (calculateBasicMetrics trades)
                    = meanOr 0 (present riskPercentUsed trades)).
    { destruct trades as [|t rest]; [reflexivity|].
      apply (fieldAverageOr_present 0 riskPercentUsed). }
    assert (Hpresent : present riskPercentUsed trades = [2; 15 # 10; 25 # 10]%Q).
    { rewrite present_map, Hcol. reflexivity. }
    rewrite Hrisk, risksUsed_present, Hpresent.
    split; [reflexivity|]. split; [discriminate | reflexivity]. }
  split.
  { intros Hcol.
    assert (Hpresent : present riskRewardAchieved trades = [2; 1]%Q).
    { rewrite present_map, Hcol. reflexivity. }
    assert (Hlen : length (tradesWithRR trades) = 2%nat).
    { unfold tradesWithRR. rewrite present_length, Hpresent. reflexivity. }
    assert (Hsum : sumField riskRewardAchieved (tradesWithRR trades)
                   = fold_left Qplus [2; 1]%Q 0%Q).
    { unfold sumField, tradesWithRR. rewrite sumField_from, Hpresent. reflexivity. }
    destruct trades as [|t rest]; [discriminate Hcol|].
    split.
    - unfold calculateBasicMetrics. cbn [length Nat.eqb avgRR].
      unfold fieldAverageOr. rewrite Hlen, Hsum. reflexivity.
    - intros Hplan. destruct plan as [plan|]; [|contradiction].
      unfold PerformanceInsights.analyzePerformanceInsights.
      cbn [PerformanceInsights.stats PerformanceInsights.avgRiskReward].
      rewrite Hlen, Hsum. reflexivity. }
  split.
  { intros Hcol.
    assert (Hpresent : present targetPercentAchieved trades = [100; 50]%Q).
    { rewrite present_map, Hcol. reflexivity. }
    destruct trades as [|t rest]; [discriminate Hcol|].
    split.
    - unfold calculateBasicMetrics. cbn [length Nat.eqb medianTargetPct].
      rewrite Hpresent. reflexivity.
    - unfold calculateBasicMetrics. cbn [length Nat.eqb nearTargetHits].
      unfold isNearTargetHit.
      rewrite (count_present targetPercentAchieved (fun pct => Qgeb pct 80)), Hpresent.
      reflexivity. }
  split; [vm_compute; reflexivity|].
  split; [vm_compute; reflexivity|].
  split; [vm_compute; reflexivity|].
  split; [vm_compute; reflexivity|].
  split; [vm_compute; reflexivity|].
  split; [vm_compute; reflexivity|].
  vm_compute. reflexivity.
Qed.

(** C1, the claim as stated fails: of two trades at the plan's risk and in
    its sessions the older one records no target percentage; the plan
    adherence of the window is 95, as if the missing target were 0, and not
    the 100 of the trade that records its target. *)
Lemma adherence_counts_trades_without_target :
  map targetPercentAchieved halfTargets = [Some 100%Q; None]
  /\ StateAnalysis.planAdherence
       (StateAnalysis.analyzePsychologicalState halfTargets (Some Examples.plan)) = 95
  /\ StateAnalysis.planAdherence
       (StateAnalysis.analyzePsychologicalState (tradesWithTarget halfTargets)
          (Some Examples.plan)) = 100
  /\ StateAnalysis.planAdherence
       (StateAnalysis.analyzePsychologicalState (map (fillTarget 0) halfTargets)
          (Some Examples.plan)) = 95.
Proof.
  split; [reflexivity|].
  split; [vm_compute; reflexivity|].
  split; vm_compute; reflexivity.
Qed.

End NullExclusion.

(** ** State history *)

Section HistoryFacts.
Import StateAnalysis StateHistory.

(** [roundSqrt v] is the integer nearest to the square root of [v]: the
    root lies in the half-open unit interval centred on it. *)
Lemma roundSqrt_spec (v : Q) :
  (0 <= v)%Q ->
  let k := roundSqrt v in
  0 <= k
  /\ (4 * v < inject_Z ((2 * k + 1) * (2 * k + 1)))%Q
  /\ (k = 0 \/ (inject_Z ((2 * k - 1) * (2 * k - 1)) <= 4 * v)%Q).
Proof.
  intros Hv k. subst k. unfold roundSqrt.
  set (n := Qfloor (4 * v)).
  assert (Hn : 0 <= n).
  { subst n. rewrite <- (Qfloor_Z 0). apply Qfloor_resp_le. change (inject_Z 0) with 0%Q. lra. }
  pose proof (Z.sqrt_spec n Hn) as Hr. cbn zeta in Hr.
  pose proof (Z.sqrt_nonneg n) as Hr0.
  set (r := Z.sqrt n) in *.
  pose proof (Z.div_mod (r + 1) 2 ltac:(lia)) as Hdiv.
  pose proof (Z.mod_pos_bound (r + 1) 2 ltac:(lia)) as Hmod.
  set (k := (r + 1) / 2) in *.
  assert (Hlo : (inject_Z n <= 4 * v)%Q) by (subst n; apply Qfloor_le).
  assert (Hhi : (4 * v < inject_Z (n + 1))%Q) by (subst n; apply Qlt_floor).
  split; [lia|]. split.
  - eapply Qlt_le_trans; [exact Hhi|]. rewrite <- Zle_Qle. nia.
  - destruct (Z.eq_dec k 0) as [Hk | Hk]; [left; exact Hk | right].
    eapply Qle_trans; [|exact Hlo]. rewrite <- Zle_Qle. nia.
Qed.

(** What the summary reports: the deviation is taken around the rounded
    average confidence. *)
Lemma summary_volatility (trades : list Trade) (plan : TradingPlan) (limit : Z) :
  trades <> [] ->
  let final := loop plan limit (sortByEntryTime trades) (sortByEntryTime trades) 0 initial in
  volatility (summary (returned (analyzeStateHistory trades (Some plan) limit)))
  = volatilityOf (varianceAround (meanConfidence (accConfidences final))
                                 (accConfidences final)).
Proof.
  intros Hne. destruct trades as [|t rest]; [contradiction|]. reflexivity.
Qed.

(** C8, the code at the failing input: the five example trades emit the
    confidences 40, 40, 75; their standard deviation is 16.499..., so the
    claimed volatility is 0.16, while the summary reports 0.17 (the
    deviation around the rounded mean 52 is 16.502...). *)
Theorem volatility_is_not_the_standard_deviation :
  let r := returned (analyzeStateHistory Examples.historyTrades (Some Examples.plan) 50) in
  map pointConfidence (history r) = [40; 40; 75]
  /\ averageConfidence (summary r) = 52
  /\ (volatility (summary r) == 17 # 100)%Q
  /\ (stddevVolatility (map pointConfidence (history r)) == 16 # 100)%Q
  /\ ~ (volatility (summary r) == stddevVolatility (map pointConfidence (history r)))%Q.
Proof.
  cbn zeta.
  split; [vm_compute; reflexivity|].
  split; [vm_compute; reflexivity|].
  split; [vm_compute; reflexivity|].
  split; [vm_compute; reflexivity|].
  vm_compute. discriminate.
Qed.

(** On every non-fallback call the caller's array is left sorted by entry
    time: the same trades, possibly in another order. *)
Lemma analyzeStateHistory_sorts_input (trades : list Trade) (plan : TradingPlan) (limit : Z) :
  tradesAfter (analyzeStateHistory trades (Some plan) limit) = sortByEntryTime trades
  /\ Permutation (tradesAfter (analyzeStateHistory trades (Some plan) limit)) trades.
Proof.
  assert (H : tradesAfter (analyzeStateHistory trades (Some plan) limit)
              = sortByEntryTime trades) by (destruct trades; reflexivity).
  split; [exact H|]. rewrite H. apply sortByEntryTime_perm.
Qed.

(** C9, the code at the failing input: the state-history analysis is
    handed five trades, most recent first, and leaves the caller's list in
    the opposite order. *)
Theorem state_history_reorders_its_input :
  map tradeId Examples.historyTrades = [5; 4; 3; 2; 1]
  /\ map tradeId
       (tradesAfter (analyzeStateHistory Examples.historyTrades (Some Examples.plan) 50))
     = [1; 2; 3; 4; 5]
  /\ tradesAfter (analyzeStateHistory Examples.historyTrades (Some Examples.plan) 50)
     <> Examples.historyTrades.
Proof.
  split; [reflexivity|]. split; [vm_compute; reflexivity|].
  intros H. apply (f_equal (map tradeId)) in H. vm_compute in H. discriminate.
Qed.

End HistoryFacts.

(** ** Witnesses on the example inputs *)

Section Witnesses.
Import Metrics NullHandling.

(** C6, the claim as stated fails: with battery 35, volatility 50 and
    exactly one impulsive trade in the trailing hour, low battery is not
    the only trigger, the urgency score is not 35 and the band is not
    "low". *)
Lemma breathwork_example_not_low :
  Breathwork.countImpulsiveTradesLastHour Examples.clock Examples.lastHourTrades = 1%nat
  /\ map Breathwork.triggerType
       (Breathwork.triggers
          (Breathwork.shouldSuggestBreathwork Examples.clock 35 50 Examples.lastHourTrades None))
     <> [Breathwork.low_battery]
  /\ Breathwork.urgencyScore
       (Breathwork.urgency
          (Breathwork.shouldSuggestBreathwork Examples.clock 35 50 Examples.lastHourTrades None))
     <> 35
  /\ Breathwork.level
       (Breathwork.urgency
          (Breathwork.shouldSuggestBreathwork Examples.clock 35 50 Examples.lastHourTrades None))
     <> Breathwork.low.
Proof.
  split; [vm_compute; reflexivity|].
  repeat split; vm_compute; discriminate.
Qed.

Lemma breathwork_at_battery_35_witness :
  Breathwork.urgencyScore
    (Breathwork.urgency
       (Breathwork.shouldSuggestBreathwork Examples.clock 35 50 Examples.lastHourTrades None))
  = 75.
Proof.
  destruct (breathwork_at_battery_35 Examples.clock Examples.lastHourTrades)
    as [Hdefault _]; [vm_compute; lia|].
  apply Hdefault.
Defined.

Lemma scores_within_0_100_witness :
  inRange (Radar.aggression
             (Radar.traits
                (Radar.calculatePsychologicalRadar
                   Examples.sqrtApprox Examples.tenTrades (Some Examples.plan)))).
Proof.
  apply (scores_within_0_100 Examples.sqrtApprox 0 0 "MONTH"
           Examples.tenTrades (Some Examples.plan) 0).
  - repeat constructor; discriminate.
  - discriminate.
Defined.

Lemma null_values_enter_no_average_and_pass_no_test_witness :
  (avgRiskUsed (calculateBasicMetrics Examples.fiveRisks) == 2)%Q.
Proof.
  pose proof (null_values_enter_no_average_and_pass_no_test
                Examples.sqrtApprox 0 "MONTH" Examples.fiveRisks (Some Examples.plan)
                (15 # 10) None None) as H.
  destruct H as (_ & _ & _ & _ & _ & _ & _ & _ & _ & _ & H & _).
  apply H. reflexivity.
Defined.

End Witnesses.

(** * Further properties of the engine *)

(** ** The state analysis: its window, its confidence and its edge cases *)

Section AnalysisWindow.
Import Metrics StateDetermination StateAnalysis.

(** X1. The state analysis reads the ten most recent trades only: trades
    beyond the tenth never change its result, and with a plan the reported
    [analyzedTradeCount] is the smaller of 10 and the number of trades. *)
Theorem analysis_reads_ten_trades :
  forall (trades : list Trade) (plan : option TradingPlan) (p : TradingPlan),
    analyzePsychologicalState trades plan
    = analyzePsychologicalState (take 10 trades) plan
    /\ analyzedTradeCount (analyzePsychologicalState trades (Some p))
       = Nat.min 10 (length trades).
Proof.
  intros trades plan p. split.
  - destruct trades as [|t rest]; [reflexivity|].
    destruct plan as [plan|]; [|reflexivity].
    unfold analyzePsychologicalState.
    change (take 10 (t :: rest)) with (t :: firstn 9 rest) at 1.
    cbv beta iota.
    assert (H : take 10 (take 10 (t :: rest)) = take 10 (t :: rest)).
    { unfold take. rewrite firstn_firstn. reflexivity. }
    change (take 10 (t :: rest)) with (t :: firstn 9 rest) in H at 2.
    change (take 10 (t :: rest)) with (t :: firstn 9 rest).
    change (take 10 (t :: firstn 9 rest)) with (take 10 (take 10 (t :: rest))).
    rewrite H. reflexivity.
  - destruct trades as [|t rest]; [reflexivity|].
    unfold analyzePsychologicalState. cbn [analyzedTradeCount].
    unfold take. apply length_firstn.
Qed.

(** X2. Confidence never drops when plan adherence rises, the metrics, the
    plan risk and the number of trades being equal. *)
Theorem confidence_monotone_in_adherence :
  forall (m : BasicMetrics) (planRisk : Q) (totalTrades : nat) (a b : Z),
    a <= b ->
    Confidence.calculateConfidence m a planRisk totalTrades
    <= Confidence.calculateConfidence m b planRisk totalTrades.
Proof.
  intros m planRisk n a b Hab. unfold Confidence.calculateConfidence.
  set (s := Confidence.signalStrength m planRisk).
  set (f := (ofNat (Nat.min n 10) / 10)%Q).
  assert (Hr : round (100 * ((1 # 2) * (inject_Z a / 100) + (3 # 10) * f + (2 # 10) * s))
               <= round (100 * ((1 # 2) * (inject_Z b / 100) + (3 # 10) * f + (2 # 10) * s))).
  { apply round_mono. rewrite Zle_Qle in Hab.
    set (x := inject_Z a) in *. set (y := inject_Z b) in *. clearbody s f x y.
    unfold Qdiv. change (/ 100)%Q with (1 # 100)%Q. lra. }
  destruct (n <? 5)%nat; lia.
Qed.

Lemma confidence_monotone_in_adherence_witness :
  Confidence.calculateConfidence (calculateBasicMetrics Examples.tenTrades) 60 (15 # 10) 10
  <= Confidence.calculateConfidence (calculateBasicMetrics Examples.tenTrades) 80 (15 # 10) 10.
Proof.
  apply (confidence_monotone_in_adherence
           (calculateBasicMetrics Examples.tenTrades) (15 # 10) 10 60 80).
  lia.
Defined.

Lemma count_firstn {A} (p : A -> bool) (n : nat) (xs : list A) :
  (count p (firstn n xs) <= count p xs)%nat.
Proof.
  unfold count. revert n. induction xs as [|x rest IH]; intros [|n];
    cbn [firstn List.filter length]; try apply Nat.le_0_l.
  specialize (IH n). destruct (p x); cbn [length]; lia.
Qed.

Lemma present_wellFormed (trades : list Trade) :
  Forall wellFormedTrade trades -> Forall (fun r => 0 <= r)%Q (present riskPercentUsed trades).
Proof.
  unfold present. induction 1 as [|t rest Ht _ IH]; [constructor|].
  cbn [omap list_omap]. unfold wellFormedTrade in Ht.
  destruct (riskPercentUsed t) as [r|]; [constructor; assumption | exact IH].
Qed.

(** X3. A risk spike needs a third recorded risk: in a window of well-formed
    trades it is reported only when at least two of the three most recent
    trades record a risk and at least three trades of the window do (two
    risks alone cannot both exceed 1.3 times their own average); and with a
    plan risk that is not negative those two recent risks are above the
    plan risk. *)
Theorem risk_spike_needs_a_third_risk :
  forall (trades : list Trade) (planRisk : Q),
    Forall wellFormedTrade trades ->
    riskSpike (calculateRiskSpike trades planRisk) = true ->
    (2 <= count (fun t => notNull (riskPercentUsed t)) (take 3 trades))%nat
    /\ (3 <= length (present riskPercentUsed trades))%nat
    /\ ((0 <= planRisk)%Q -> (2 <= count (exceedsRisk planRisk) (take 3 trades))%nat).
Proof.
  intros trades planRisk Hwf H. unfold calculateRiskSpike in H.
  destruct (Nat.eqb (length trades) 0); [discriminate|].
  cbn [riskSpike] in H. apply Nat.leb_le in H.
  rewrite fieldAverageOr_present in H.
  set (avg := meanOr planRisk (present riskPercentUsed trades)) in *.
  set (thr := Qmax (planRisk * (13 # 10)) (avg * (13 # 10))) in *.
  split; [|split].
  - eapply Nat.le_trans; [exact H|]. apply count_mono. intros t. unfold exceedsRisk.
    destruct (riskPercentUsed t); [reflexivity | discriminate].
  - pose proof (count_firstn (exceedsRisk thr) 3 trades) as Hc. unfold take in H.
    assert (E : count (exceedsRisk thr) trades
                = count (fun r => Qgtb r thr) (present riskPercentUsed trades))
      by apply (count_present riskPercentUsed (fun r => Qgtb r thr)).
    assert (Hge : (2 <= count (fun r => Qgtb r thr) (present riskPercentUsed trades))%nat)
      by lia.
    clear H Hc E.
    pose proof (present_wellFormed trades Hwf) as Hpos.
    assert (Hthr : (avg * (13 # 10) <= thr)%Q) by apply Q.le_max_r.
    clearbody thr. subst avg.
    destruct (present riskPercentUsed trades) as [|a [|b [|c rest]]];
      [ | | | cbn [length]; lia]; unfold count in Hge; cbn [List.filter] in Hge.
    + cbn [length] in Hge. lia.
    + destruct (Qgtb a thr); cbn [length] in Hge; lia.
    + exfalso.
      apply List.Forall_cons_iff in Hpos. destruct Hpos as [Ha Hpos].
      apply List.Forall_cons_iff in Hpos. destruct Hpos as [Hb _].
      destruct (Qgtb a thr) eqn:Ea; [|destruct (Qgtb b thr); cbn [length] in Hge; lia].
      destruct (Qgtb b thr) eqn:Eb; [|cbn [length] in Hge; lia].
      apply Qgtb_lt in Ea, Eb.
      unfold meanOr, sum in Hthr. cbn [fold_left length] in Hthr.
      change (ofNat 2) with 2%Q in Hthr.
      assert (Hm : ((0 + a + b) / 2 == (a + b) * (1 # 2))%Q) by (field).
      rewrite Hm in Hthr. lra.
  - intros Hp. eapply Nat.le_trans; [exact H|]. apply count_mono. intros t. unfold exceedsRisk.
    destruct (riskPercentUsed t) as [r|]; [|discriminate].
    rewrite !Qgtb_lt. intros Hr.
    assert (Hthr : (planRisk * (13 # 10) <= thr)%Q) by apply Q.le_max_l. lra.
Qed.

Lemma risk_spike_needs_a_third_risk_witness :
  (2 <= count (fun t => notNull (riskPercentUsed t)) (take 3 MoreExamples.spikeTrades))%nat
  /\ (3 <= length (present riskPercentUsed MoreExamples.spikeTrades))%nat
  /\ ((0 <= 15 # 10)%Q ->
      (2 <= count (exceedsRisk (15 # 10)) (take 3 MoreExamples.spikeTrades))%nat).
Proof.
  apply (risk_spike_needs_a_third_risk MoreExamples.spikeTrades (15 # 10)).
  - repeat constructor; discriminate.
  - reflexivity.
Defined.

(** The state of a non-empty window is the first match of the cascade
    over the metrics of its ten most recent trades. *)
Lemma analysis_state (trades : list Trade) (plan : TradingPlan) :
  trades <> [] ->
  StateAnalysis.state (analyzePsychologicalState trades (Some plan))
  = if overextended (calculateDayMetrics (take 10 trades) plan) then OVEREXTENDED
    else if aggressive
              {| spike := calculateRiskSpike (take 10 trades)
                            (orQ (riskPercentPerTrade plan) 0);
                 riskBreaches := calculateRiskBreaches (take 10 trades)
                                   (orQ (riskPercentPerTrade plan) 0);
                 riskAvgRiskUsed := avgRiskUsed (calculateBasicMetrics (take 10 trades)) |}
              (orQ (riskPercentPerTrade plan) 0) (length (take 10 trades))
    then AGGRESSIVE
    else if hesitant (calculateBasicMetrics (take 10 trades)) (length (take 10 trades))
    then HESITANT else STABLE.
Proof.
  intros H. destruct trades as [|t rest]; [contradiction|].
  unfold analyzePsychologicalState. cbn [StateAnalysis.state].
  apply determineState_cascade.
Qed.

Lemma groupStep_all_outside (plan : TradingPlan) (trades : list Trade)
      (acc : gmap Z nat * gmap Z bool) :
  forallb (isOutsideSession plan) trades = true ->
  dom acc.2 = dom acc.1 ->
  dom (fold_left (groupStep plan) trades acc).2
  = dom (fold_left (groupStep plan) trades acc).1.
Proof.
  revert acc. induction trades as [|t rest IH]; intros acc Hall Hacc; [exact Hacc|].
  cbn [forallb] in Hall. apply andb_true_iff in Hall as [Ht Hrest].
  cbn [fold_left]. apply IH; [exact Hrest|].
  unfold groupStep. cbn [fst snd]. rewrite Ht.
  rewrite !dom_insert_L, Hacc. reflexivity.
Qed.

Lemma groupStep_keeps_days (plan : TradingPlan) (trades : list Trade)
      (acc : gmap Z nat * gmap Z bool) :
  dom acc.1 ⊆ dom (fold_left (groupStep plan) trades acc).1.
Proof.
  revert acc. induction trades as [|t rest IH]; intros acc; [reflexivity|].
  cbn [fold_left]. etransitivity; [|apply IH].
  unfold groupStep. cbn [fst]. rewrite dom_insert. apply union_subseteq_r.
Qed.

Lemma groupByDay_size_pos (plan : TradingPlan) (trades : list Trade) :
  trades <> [] -> (0 < size (groupByDay plan trades).1)%nat.
Proof.
  intros H. destruct trades as [|t rest]; [contradiction|].
  assert (Hin : dayKey t ∈ dom (groupByDay plan (t :: rest)).1).
  { unfold groupByDay. cbn [fold_left].
    apply (groupStep_keeps_days plan rest). unfold groupStep. cbn [fst].
    rewrite dom_insert. apply elem_of_union_l, elem_of_singleton. reflexivity. }
  rewrite <- (size_dom (D := gset Z)).
  destruct (size (dom (groupByDay plan (t :: rest)).1)) eqn:E; [|lia].
  apply size_empty_inv in E. rewrite E in Hin. apply elem_of_empty in Hin. contradiction.
Qed.

(** X4. A window whose trades all lie outside the plan's preferred sessions is
    OVEREXTENDED, whatever its risk and exit figures.  A plan with an empty
    list of preferred sessions puts every trade outside, so with such a plan
    every non-empty window is OVEREXTENDED. *)
Theorem all_outside_sessions_is_overextended :
  forall (trades : list Trade) (plan : TradingPlan),
    trades <> [] ->
    forallb (isOutsideSession plan) (take 10 trades) = true ->
    StateAnalysis.state (analyzePsychologicalState trades (Some plan)) = OVEREXTENDED.
Proof.
  intros trades plan Hne Hall. rewrite (analysis_state trades plan Hne).
  assert (Hne10 : take 10 trades <> []).
  { destruct trades; [contradiction|discriminate]. }
  assert (Hover : overextended (calculateDayMetrics (take 10 trades) plan) = true).
  { unfold overextended, calculateDayMetrics.
    cbn [daysWithTrades exceededDays outsideSessionDays].
    pose proof (groupByDay_size_pos plan (take 10 trades) Hne10) as Hpos.
    assert (Heq : size (groupByDay plan (take 10 trades)).2
                  = size (groupByDay plan (take 10 trades)).1).
    { rewrite <- (size_dom (D := gset Z) (groupByDay plan (take 10 trades)).2),
              <- (size_dom (D := gset Z) (groupByDay plan (take 10 trades)).1).
      f_equal. unfold groupByDay. apply groupStep_all_outside; [exact Hall|reflexivity]. }
    rewrite Heq.
    set (n := size (groupByDay plan (take 10 trades)).1) in *.
    destruct (Nat.eqb_spec n 0) as [E|E]; [lia|].
    apply andb_true_iff. split; [apply Nat.ltb_lt; lia|].
    apply orb_true_iff. right. apply Qgeb_le. unfold ratio.
    assert (Hn : (0 < ofNat n)%Q) by (apply ofNat_pos; lia).
    apply Qle_shift_div_l; [exact Hn|]. lra. }
  rewrite Hover. reflexivity.
Qed.

Lemma all_outside_sessions_is_overextended_witness :
  StateAnalysis.state
    (analyzePsychologicalState Examples.tenTrades (Some MoreExamples.openPlan))
  = OVEREXTENDED.
Proof.
  apply (all_outside_sessions_is_overextended Examples.tenTrades MoreExamples.openPlan).
  - discriminate.
  - reflexivity.
Defined.

End AnalysisWindow.

(** ** The median of the target percentages *)

Section MedianFacts.
Import Metrics StateDetermination StateAnalysis.

Lemma insertQ_length (x : Q) (s : list Q) : length (insertQ x s) = S (length s).
Proof.
  induction s as [|y rest IH]; [reflexivity|].
  cbn [insertQ]. destruct (Qle_bool x y); cbn [length]; [reflexivity|].
  rewrite IH. reflexivity.
Qed.

Lemma sortQ_length (xs : list Q) : length (sortQ xs) = length xs.
Proof.
  unfold sortQ. induction xs as [|x rest IH]; [reflexivity|].
  cbn [fold_right length]. rewrite insertQ_length, IH. reflexivity.
Qed.

Lemma insertQ_Forall (P : Q -> Prop) (x : Q) (s : list Q) :
  P x -> Forall P s -> Forall P (insertQ x s).
Proof.
  intros Hx Hs. induction Hs as [|y rest Hy Hrest IH]; cbn [insertQ].
  - constructor; [exact Hx|constructor].
  - destruct (Qle_bool x y).
    + constructor; [exact Hx|]. constructor; assumption.
    + constructor; assumption.
Qed.

Lemma sortQ_Forall (P : Q -> Prop) (xs : list Q) : Forall P xs -> Forall P (sortQ xs).
Proof.
  intros H. unfold sortQ. induction H as [|x rest Hx Hrest IH]; [constructor|].
  cbn [fold_right]. apply insertQ_Forall; assumption.
Qed.

Lemma computeMedian_range (s : list Q) (lo hi : Q) :
  s <> [] -> Forall (fun x => lo <= x /\ x <= hi)%Q s ->
  (lo <= computeMedian s <= hi)%Q.
Proof.
  intros Hne Hall.
  assert (Hnth : forall i, (i < length s)%nat -> (lo <= nth i s 0 /\ nth i s 0 <= hi)%Q).
  { intros i Hi. rewrite List.Forall_forall in Hall. apply Hall. apply nth_In. exact Hi. }
  assert (Hlen : (0 < length s)%nat).
  { destruct s; [contradiction|cbn [length]; lia]. }
  pose proof (Nat.div_mod_eq (length s) 2) as Hdm.
  pose proof (Nat.mod_upper_bound (length s) 2 ltac:(lia)) as Hm.
  unfold computeMedian. destruct s as [|y ys]; [contradiction|].
  cbv beta iota zeta.
  set (l := y :: ys) in *. set (q := Nat.div (length l) 2) in *.
  set (r := Nat.modulo (length l) 2) in *.
  destruct (Nat.eqb_spec r 1) as [E|E].
  - apply Hnth. lia.
  - destruct (Hnth (q - 1)%nat ltac:(lia)) as [Ha1 Ha2].
    destruct (Hnth q ltac:(lia)) as [Hb1 Hb2].
    set (a := nth (q - 1) l 0%Q) in *. set (b := nth q l 0%Q) in *.
    clearbody a b. unfold Qdiv. change (/ 2)%Q with (1 # 2)%Q. split; lra.
Qed.

(** X5. The median target percentage lies between the smallest and the
    largest target percentage recorded: sorting and picking the middle
    (or the mean of the two middle values) never leaves their range. *)
Theorem median_within_range :
  forall (xs : list Q) (lo hi : Q),
    xs <> [] -> Forall (fun x => lo <= x /\ x <= hi)%Q xs ->
    (lo <= computeMedian (sortQ xs) <= hi)%Q.
Proof.
  intros xs lo hi Hne Hall. apply computeMedian_range.
  - intros E. apply (f_equal (@length Q)) in E. rewrite sortQ_length in E.
    destruct xs; [contradiction|discriminate].
  - apply sortQ_Forall. exact Hall.
Qed.

Lemma median_within_range_witness :
  (40 <= medianTargetPct (calculateBasicMetrics Examples.tenTrades) <= 80)%Q.
Proof.
  apply (median_within_range (present targetPercentAchieved Examples.tenTrades) 40 80).
  - discriminate.
  - repeat constructor; discriminate.
Defined.

(** X6. A window without a single recorded target percentage has median 0,
    which counts as "below 60": with a win rate of at most 60% such a window
    is never STABLE. *)
Theorem unrecorded_targets_never_stable :
  forall (trades : list Trade) (plan : TradingPlan),
    trades <> [] ->
    present targetPercentAchieved (take 10 trades) = [] ->
    (winRate (calculateBasicMetrics (take 10 trades)) <= 6 # 10)%Q ->
    StateAnalysis.state (analyzePsychologicalState trades (Some plan)) <> STABLE.
Proof.
  intros trades plan Hne Hnone Hwin. rewrite (analysis_state trades plan Hne).
  destruct (overextended _); [discriminate|].
  destruct (aggressive _ _ _); [discriminate|].
  assert (Hhes : hesitant (calculateBasicMetrics (take 10 trades)) (length (take 10 trades))
                 = true).
  { unfold hesitant. apply orb_true_iff. right. apply andb_true_iff. split.
    - assert (Hmed : medianTargetPct (calculateBasicMetrics (take 10 trades)) = 0%Q).
      { unfold calculateBasicMetrics.
        destruct (Nat.eqb (length (take 10 trades)) 0); [reflexivity|].
        cbn [medianTargetPct]. rewrite Hnone. reflexivity. }
      rewrite Hmed. reflexivity.
    - apply Qle_bool_iff. exact Hwin. }
  rewrite Hhes. discriminate.
Qed.

Lemma unrecorded_targets_never_stable_witness :
  StateAnalysis.state
    (analyzePsychologicalState MoreExamples.bareTrades (Some Examples.plan)) <> STABLE.
Proof.
  apply (unrecorded_targets_never_stable MoreExamples.bareTrades Examples.plan).
  - discriminate.
  - reflexivity.
  - discriminate.
Defined.

End MedianFacts.

(** ** The state history: shape of the list of points *)

Section HistoryShapeFacts.
Import Metrics StateAnalysis StateHistory HistoryShape.

Lemma state_eqb_eq (a b : PsychologicalState) : state_eqb a b = true <-> a = b.
Proof. destruct a, b; cbn; split; intros H; try reflexivity; discriminate. Qed.

Lemma analysis_confidence_bounds (trades : list Trade) (plan : option TradingPlan) :
  10 <= confidence (analyzePsychologicalState trades plan) <= 95.
Proof.
  destruct trades as [|t rest]; [cbn; lia|].
  destruct plan as [plan|]; [|cbn; lia].
  unfold analyzePsychologicalState. cbn [confidence].
  apply calculateConfidence_bounds.
Qed.

Lemma loop_invariant (P : LoopState -> Prop) (plan : TradingPlan) (limit : Z)
      (sorted : list Trade) :
  (forall acc i trade,
      Z.of_nat (length (accHistory acc)) < limit -> P acc -> P (step plan sorted acc i trade)) ->
  forall remaining from acc, P acc -> P (loop plan limit sorted remaining from acc).
Proof.
  intros Hstep. induction remaining as [|t rest IH]; intros from acc Hacc; cbn [loop].
  - exact Hacc.
  - destruct (Z.ltb_spec (Z.of_nat (length (accHistory acc))) limit); [|exact Hacc].
    apply IH. apply Hstep; assumption.
Qed.

Lemma step_history (plan : TradingPlan) (sorted : list Trade) (acc : LoopState)
      (i : nat) (trade : Trade) :
  accHistory (step plan sorted acc i trade) = accHistory acc
  \/ exists pt,
       accHistory (step plan sorted acc i trade) = accHistory acc ++ [pt]
       /\ timestamp pt = entryTime trade
       /\ pointConfidence pt
          = confidence (analyzePsychologicalState (window sorted i) (Some plan)).
Proof.
  unfold step. destruct (changed _ _); [|left; reflexivity].
  right. eexists. cbn [accHistory]. split; [reflexivity|]. split; reflexivity.
Qed.

Lemma eachStepChanges_snoc (front : list HistoryPoint) (p q : HistoryPoint) :
  eachStepChanges (front ++ [p]) -> distinctPoints p q ->
  eachStepChanges ((front ++ [p]) ++ [q]).
Proof.
  induction front as [|x rest IH]; intros H Hd.
  - cbn. split; [exact Hd|exact I].
  - destruct rest as [|y rest'].
    + cbn in H |- *. destruct H as [H1 _]. split; [exact H1|]. split; [exact Hd|exact I].
    + change (distinctPoints x y /\ eachStepChanges ((y :: rest') ++ [p])) in H.
      change (distinctPoints x y /\ eachStepChanges (((y :: rest') ++ [p]) ++ [q])).
      destruct H as [H1 H2]. split; [exact H1|]. apply IH; assumption.
Qed.

Lemma step_keeps_invariant (plan : TradingPlan) (sorted : list Trade) (acc : LoopState)
      (i : nat) (trade : Trade) :
  loopInvariant acc -> loopInvariant (step plan sorted acc i trade).
Proof.
  intros (Hs & Hc & Hn & Hlast & Hchg & Hrange). unfold step.
  set (current := analyzePsychologicalState (window sorted i) (Some plan)).
  destruct (changed (lastState acc) current) eqn:Hch.
  2: { repeat split; assumption. }
  unfold loopInvariant. cbn [accHistory accStates accConfidences stateChangeCount lastState].
  split; [rewrite map_app, Hs; reflexivity|].
  split; [rewrite map_app, Hc; reflexivity|].
  split; [rewrite length_app, Hn; cbn [length]; lia|].
  split; [eexists; eexists; split; [reflexivity|split; reflexivity]|].
  split.
  - destruct (lastState acc) as [previous|].
    + destruct Hlast as (front & p & Hfront & Hp1 & Hp2).
      rewrite Hfront in Hchg |- *. apply eachStepChanges_snoc; [exact Hchg|].
      unfold distinctPoints. cbn [pointState pointConfidence]. rewrite Hp1, Hp2.
      unfold changed in Hch. apply orb_true_iff in Hch as [Hch|Hch].
      * left. intros E. apply state_eqb_eq in E. rewrite E in Hch. discriminate.
      * right. apply Z.ltb_lt in Hch. exact Hch.
    + rewrite Hlast. exact I.
  - apply Forall_app. split; [exact Hrange|].
    constructor; [|constructor]. cbn [pointConfidence].
    apply analysis_confidence_bounds.
Qed.

Lemma initial_invariant : loopInvariant initial.
Proof.
  unfold loopInvariant, initial. cbn.
  split; [reflexivity|]. split; [reflexivity|]. split; [reflexivity|].
  split; [reflexivity|]. split; [exact I|constructor].
Qed.

Lemma loop_keeps_invariant (plan : TradingPlan) (limit : Z) (sorted remaining : list Trade)
      (from : nat) :
  loopInvariant (loop plan limit sorted remaining from initial).
Proof.
  apply loop_invariant; [|exact initial_invariant].
  intros acc i trade _. apply step_keeps_invariant.
Qed.

Lemma loop_length_limit (plan : TradingPlan) (limit : Z) (sorted remaining : list Trade)
      (from : nat) :
  Z.of_nat (length (accHistory (loop plan limit sorted remaining from initial)))
  <= Z.max 0 limit.
Proof.
  apply (loop_invariant (fun acc => Z.of_nat (length (accHistory acc)) <= Z.max 0 limit)).
  - intros acc i trade Hlt _.
    destruct (step_history plan sorted acc i trade) as [E|(pt & E & _)]; rewrite E.
    + lia.
    + rewrite length_app. cbn [length]. lia.
  - cbn. lia.
Qed.

Lemma loop_length_trades (plan : TradingPlan) (limit : Z) (sorted remaining : list Trade)
      (from : nat) (acc : LoopState) :
  (length (accHistory (loop plan limit sorted remaining from acc))
   <= length (accHistory acc) + length remaining)%nat.
Proof.
  revert from acc. induction remaining as [|t rest IH]; intros from acc; cbn [loop length].
  - lia.
  - destruct (Z.of_nat (length (accHistory acc)) <? limit); [|lia].
    etransitivity; [apply IH|].
    destruct (step_history plan sorted acc from t) as [E|(pt & E & _)]; rewrite E.
    + lia.
    + rewrite length_app. cbn [length]. lia.
Qed.

Lemma sliceTo_all (limit : Z) (points : list HistoryPoint) :
  Z.of_nat (length points) <= Z.max 0 limit -> sliceTo limit points = points.
Proof.
  intros H. unfold sliceTo. destruct (Z.ltb_spec limit 0) as [Hneg|Hpos].
  - destruct points; [apply firstn_nil|cbn [length] in H; lia].
  - apply firstn_all2. lia.
Qed.

Lemma history_is_loop_output (trades : list Trade) (plan : TradingPlan) (limit : Z) :
  trades <> [] ->
  history (returned (analyzeStateHistory trades (Some plan) limit))
  = accHistory (loop plan limit (sortByEntryTime trades) (sortByEntryTime trades) 0 initial).
Proof.
  intros H. destruct trades as [|t rest]; [contradiction|].
  unfold analyzeStateHistory. cbn [returned history].
  apply sliceTo_all. apply loop_length_limit.
Qed.

Lemma summary_is_loop_output (trades : list Trade) (plan : TradingPlan) (limit : Z) :
  trades <> [] ->
  summary (returned (analyzeStateHistory trades (Some plan) limit))
  = summarize (loop plan limit (sortByEntryTime trades) (sortByEntryTime trades) 0 initial).
Proof.
  intros H. destruct trades as [|t rest]; [contradiction|]. reflexivity.
Qed.

Lemma fallback_history (trades : list Trade) (plan : option TradingPlan) (limit : Z) :
  trades = [] \/ plan = None ->
  returned (analyzeStateHistory trades plan limit) = emptyHistory.
Proof.
  intros [H|H]; subst.
  - reflexivity.
  - destruct trades; reflexivity.
Qed.

(** X7. The history holds one point per recorded change: [totalChanges] is its
    length, which is at most the number of trades and at most [limit] (no
    point at all for a limit below 1), so the final [slice] never cuts
    anything; with trades, a plan and a limit of at least 1 the history is
    not empty, because the first trade always opens it. *)
Theorem state_history_size :
  forall (trades : list Trade) (plan : option TradingPlan) (limit : Z),
    let r := returned (analyzeStateHistory trades plan limit) in
    totalChanges (summary r) = length (history r)
    /\ (length (history r) <= length trades)%nat
    /\ Z.of_nat (length (history r)) <= Z.max 0 limit
    /\ (trades <> [] -> plan <> None -> 1 <= limit -> history r <> []).
Proof.
  intros trades plan limit r.
  destruct (list_eq_nil_dec trades) as [Hnil|Hne].
  { subst r. rewrite (fallback_history trades plan limit (or_introl Hnil)). cbn.
    repeat split; try lia. intros H. contradiction. }
  destruct plan as [plan|].
  2: { subst r. rewrite (fallback_history trades None limit (or_intror eq_refl)). cbn.
       repeat split; try lia. intros _ H. contradiction. }
  subst r. rewrite (history_is_loop_output trades plan limit Hne).
  rewrite (summary_is_loop_output trades plan limit Hne).
  set (sorted := sortByEntryTime trades).
  pose proof (loop_keeps_invariant plan limit sorted sorted 0) as (_ & _ & Hn & _).
  split; [exact Hn|].
  split.
  { etransitivity; [apply loop_length_trades|]. cbn [initial accHistory length].
    subst sorted. rewrite sortByEntryTime_length. lia. }
  split; [apply loop_length_limit|].
  intros _ _ Hlimit.
  assert (Hs : sorted <> []).
  { subst sorted. intros E. apply (f_equal (@length Trade)) in E.
    rewrite sortByEntryTime_length in E. destruct trades; [contradiction|discriminate]. }
  destruct sorted as [|s0 srest]; [contradiction|].
  cbn [loop initial accHistory length].
  destruct (Z.ltb_spec (Z.of_nat 0) limit) as [_|Hbad]; [|lia].
  apply (loop_invariant (fun acc => accHistory acc <> [])).
  - intros acc i trade _ Hacc.
    destruct (step_history plan (s0 :: srest) acc i trade) as [E|(pt & E & _)]; rewrite E.
    + exact Hacc.
    + intros Happ. apply app_eq_nil in Happ as [_ Happ]. discriminate.
  - unfold step. cbn [lastState changed accHistory]. discriminate.
Qed.

Lemma state_history_size_witness :
  history (returned (analyzeStateHistory Examples.historyTrades (Some Examples.plan) 50))
  <> [].
Proof.
  destruct (state_history_size Examples.historyTrades (Some Examples.plan) 50)
    as (_ & _ & _ & H).
  apply H.
  - discriminate.
  - discriminate.
  - lia.
Defined.

(** X8. Successive points of the history always differ: in state, or by more
    than 15 points of confidence. *)
Theorem state_history_steps_change :
  forall (trades : list Trade) (plan : option TradingPlan) (limit : Z),
    eachStepChanges (history (returned (analyzeStateHistory trades plan limit))).
Proof.
  intros trades plan limit.
  destruct (list_eq_nil_dec trades) as [Hnil|Hne].
  { rewrite (fallback_history trades plan limit (or_introl Hnil)). exact I. }
  destruct plan as [plan|].
  2: { rewrite (fallback_history trades None limit (or_intror eq_refl)). exact I. }
  rewrite (history_is_loop_output trades plan limit Hne).
  pose proof (loop_keeps_invariant plan limit (sortByEntryTime trades)
                (sortByEntryTime trades) 0) as (_ & _ & _ & _ & H & _).
  exact H.
Qed.

End HistoryShapeFacts.

(** ** The state history: order in time *)

Section HistoryOrderFacts.
Import Metrics StateAnalysis StateHistory HistoryShape.

Lemma insertByEntry_Forall (P : Trade -> Prop) (t : Trade) (s : list Trade) :
  P t -> Forall P s -> Forall P (insertByEntry t s).
Proof.
  intros Ht Hs. induction Hs as [|u rest Hu Hrest IH]; cbn [insertByEntry].
  - constructor; [exact Ht|constructor].
  - destruct (entryTime t <=? entryTime u).
    + constructor; [exact Ht|]. constructor; assumption.
    + constructor; assumption.
Qed.

Lemma insertByEntry_chronological (t : Trade) (s : list Trade) :
  chronological s -> chronological (insertByEntry t s).
Proof.
  induction s as [|u rest IH]; intros H.
  - cbn. split; [constructor|exact I].
  - cbn [insertByEntry]. destruct (Z.leb_spec (entryTime t) (entryTime u)) as [Hle|Hgt].
    + change (Forall (fun x => entryTime t <= entryTime x) (u :: rest)
              /\ chronological (u :: rest)).
      split; [|exact H]. destruct H as [Hu _]. constructor; [exact Hle|].
      eapply List.Forall_impl; [|exact Hu]. intros x Hx. cbn beta in Hx. lia.
    + change (Forall (fun x => entryTime u <= entryTime x) (insertByEntry t rest)
              /\ chronological (insertByEntry t rest)).
      destruct H as [Hu Hrest]. split.
      * apply insertByEntry_Forall; [lia|exact Hu].
      * apply IH. exact Hrest.
Qed.

Lemma sortByEntryTime_chronological (trades : list Trade) :
  chronological (sortByEntryTime trades).
Proof.
  unfold sortByEntryTime. induction trades as [|t rest IH]; [exact I|].
  cbn [fold_right]. apply insertByEntry_chronological. exact IH.
Qed.

(** Sorting a list that is already in order changes nothing. *)
Lemma sortByEntryTime_sorted (trades : list Trade) :
  chronological trades -> sortByEntryTime trades = trades.
Proof.
  unfold sortByEntryTime. induction trades as [|t rest IH]; intros H; [reflexivity|].
  destruct H as [Ht Hrest]. cbn [fold_right]. rewrite (IH Hrest).
  destruct rest as [|u rest']; [reflexivity|].
  cbn [insertByEntry]. apply List.Forall_inv in Ht.
  destruct (Z.leb_spec (entryTime t) (entryTime u)); [reflexivity|lia].
Qed.

Lemma nonDecreasing_snoc (xs : list Z) (z : Z) :
  Forall (fun x => x <= z) xs -> nonDecreasing xs -> nonDecreasing (xs ++ [z]).
Proof.
  induction xs as [|x rest IH]; intros Hall H; [exact I|].
  destruct rest as [|y rest'].
  - cbn. apply List.Forall_inv in Hall. split; [exact Hall|exact I].
  - change (x <= y /\ nonDecreasing ((y :: rest') ++ [z])).
    destruct H as [H1 H2]. split; [exact H1|].
    apply IH; [exact (List.Forall_inv_tail Hall)|exact H2].
Qed.

Lemma loop_chronological (plan : TradingPlan) (limit : Z) (sorted remaining : list Trade)
      (from : nat) (acc : LoopState) :
  chronological remaining ->
  Forall (fun p => Forall (fun t => timestamp p <= entryTime t) remaining) (accHistory acc) ->
  nonDecreasing (map timestamp (accHistory acc)) ->
  nonDecreasing (map timestamp (accHistory (loop plan limit sorted remaining from acc))).
Proof.
  revert from acc. induction remaining as [|t rest IH]; intros from acc Hchr Hall Hnd;
    cbn [loop]; [exact Hnd|].
  destruct (Z.of_nat (length (accHistory acc)) <? limit); [|exact Hnd].
  destruct Hchr as [Ht Hrest].
  assert (Hold : Forall (fun p => Forall (fun u => timestamp p <= entryTime u) rest)
                        (accHistory acc)).
  { eapply List.Forall_impl; [|exact Hall]. intros p Hp. exact (List.Forall_inv_tail Hp). }
  assert (Hbefore : Forall (fun x => x <= entryTime t) (map timestamp (accHistory acc))).
  { apply List.Forall_map. eapply List.Forall_impl; [|exact Hall].
    intros p Hp. exact (List.Forall_inv Hp). }
  destruct (step_history plan sorted acc from t) as [E|(pt & E & Hts & _)].
  - apply IH; [exact Hrest|rewrite E; exact Hold|rewrite E; exact Hnd].
  - apply IH; [exact Hrest| |].
    + rewrite E. apply Forall_app. split; [exact Hold|].
      constructor; [|constructor]. rewrite Hts. exact Ht.
    + rewrite E, map_app. cbn [map]. rewrite Hts.
      apply nonDecreasing_snoc; assumption.
Qed.

(** X9. The points of the history follow the entry times of the trades that
    caused them: their timestamps never decrease, in whatever order the
    trades were passed. *)
Theorem state_history_is_chronological :
  forall (trades : list Trade) (plan : option TradingPlan) (limit : Z),
    nonDecreasing
      (map timestamp (history (returned (analyzeStateHistory trades plan limit)))).
Proof.
  intros trades plan limit.
  destruct (list_eq_nil_dec trades) as [Hnil|Hne].
  { rewrite (fallback_history trades plan limit (or_introl Hnil)). exact I. }
  destruct plan as [plan|].
  2: { rewrite (fallback_history trades None limit (or_intror eq_refl)). exact I. }
  rewrite (history_is_loop_output trades plan limit Hne).
  apply loop_chronological.
  - apply sortByEntryTime_chronological.
  - constructor.
  - exact I.
Qed.

Lemma loop_keeps_head (plan : TradingPlan) (limit : Z) (sorted remaining : list Trade)
      (from : nat) (acc : LoopState) (p : HistoryPoint) :
  (exists rest, accHistory acc = p :: rest) ->
  exists rest, accHistory (loop plan limit sorted remaining from acc) = p :: rest.
Proof.
  apply (loop_invariant (fun acc => exists rest, accHistory acc = p :: rest)).
  intros a i trade _ [rest Hrest].
  destruct (step_history plan sorted a i trade) as [E|(pt & E & _)]; rewrite E, Hrest.
  - exists rest. reflexivity.
  - exists (rest ++ [pt]). reflexivity.
Qed.

Lemma first_step (plan : TradingPlan) (sorted : list Trade) (trade : Trade) :
  exists pt,
    accHistory (step plan sorted initial 0 trade) = [pt]
    /\ timestamp pt = entryTime trade
    /\ pointConfidence pt
       = confidence (analyzePsychologicalState (StateHistory.window sorted 0) (Some plan)).
Proof.
  unfold step. cbn [lastState initial changed accHistory app]. eexists.
  split; [reflexivity|]. split; reflexivity.
Qed.

(** X10. The first point of a history is the verdict on the earliest trade
    alone: its timestamp is the smallest entry time of all the trades, and
    its confidence, drawn from a single trade, is capped at 40. *)
Theorem state_history_first_point :
  forall (trades : list Trade) (plan : option TradingPlan) (limit : Z) (p : HistoryPoint),
    head (history (returned (analyzeStateHistory trades plan limit))) = Some p ->
    pointConfidence p <= 40
    /\ Forall (fun t => timestamp p <= entryTime t) trades.
Proof.
  intros trades plan limit p Hp.
  destruct (list_eq_nil_dec trades) as [Hnil|Hne].
  { rewrite (fallback_history trades plan limit (or_introl Hnil)) in Hp. discriminate. }
  destruct plan as [plan|].
  2: { rewrite (fallback_history trades None limit (or_intror eq_refl)) in Hp.
       discriminate. }
  rewrite (history_is_loop_output trades plan limit Hne) in Hp.
  pose proof (sortByEntryTime_chronological trades) as Hchr.
  pose proof (sortByEntryTime_perm trades) as Hperm.
  destruct (sortByEntryTime trades) as [|s0 srest] eqn:Hsorted.
  { cbn in Hp. discriminate. }
  cbn [loop initial accHistory length] in Hp.
  destruct (Z.of_nat 0 <? limit); [|discriminate].
  destruct (first_step plan (s0 :: srest) s0) as (pt0 & E & Hts & Hconf).
  destruct (loop_keeps_head plan limit (s0 :: srest) srest 1
              (step plan (s0 :: srest) initial 0 s0) pt0) as [rest Hrest].
  { exists []. exact E. }
  change (step plan (s0 :: srest)
            {| accHistory := []; accStates := []; accConfidences := [];
               stateChangeCount := 0; lastState := None |} 0 s0)
    with (step plan (s0 :: srest) initial 0 s0) in Hp.
  rewrite Hrest in Hp. cbn [head] in Hp. apply (inj Some) in Hp. subst p.
  rewrite Hts, Hconf. split.
  - change (StateHistory.window (s0 :: srest) 0) with [s0].
    unfold analyzePsychologicalState. cbn [confidence].
    apply calculateConfidence_bounds. cbn. lia.
  - eapply Permutation_Forall; [exact Hperm|].
    destruct Hchr as [H0 _]. constructor; [lia|exact H0].
Qed.

Lemma state_history_first_point_witness :
  Forall (fun t => 1 * Examples.dayMs + 36000000 <= entryTime t) Examples.historyTrades.
Proof.
  destruct (state_history_first_point Examples.historyTrades (Some Examples.plan) 50
              {| timestamp := 1 * Examples.dayMs + 36000000;
                 pointState := STABLE;
                 pointConfidence := 40;
                 trigger := "Profitable trade";
                 context := {| ctxTradeId := 1; ctxProfitLoss := 100;
                               ctxRiskPercentUsed := Some (15 # 10)%Q |} |})
    as [_ H].
  - vm_compute. reflexivity.
  - exact H.
Defined.

(** X11. Calling the state history again on the array it has sorted gives the
    same history and summary and leaves the array as it is: its result
    depends on the trades only through their order in time. *)
Theorem state_history_sorts_once :
  forall (trades : list Trade) (plan : option TradingPlan) (limit : Z),
    let first := analyzeStateHistory trades plan limit in
    let second := analyzeStateHistory (tradesAfter first) plan limit in
    returned second = returned first /\ tradesAfter second = tradesAfter first.
Proof.
  intros trades plan limit. cbv zeta.
  destruct trades as [|t rest]; [split; reflexivity|].
  destruct plan as [plan|]; [|split; reflexivity].
  set (trades := t :: rest).
  assert (Hafter : tradesAfter (analyzeStateHistory trades (Some plan) limit)
                   = sortByEntryTime trades) by reflexivity.
  rewrite Hafter.
  pose proof (sortByEntryTime_sorted _ (sortByEntryTime_chronological trades)) as Hid.
  pose proof (sortByEntryTime_length trades) as Hlen.
  destruct (sortByEntryTime trades) as [|s0 srest] eqn:Hsorted; [discriminate|].
  unfold analyzeStateHistory at 1 3. cbv beta iota zeta. rewrite Hid.
  subst trades. unfold analyzeStateHistory. cbv beta iota zeta. rewrite Hsorted.
  split; reflexivity.
Qed.

End HistoryOrderFacts.

(** ** The state history: its summary *)

Section HistorySummaryFacts.
Import StateAnalysis StateHistory HistoryShape.

Lemma fold_add_bounds (lo hi : Z) (cs : list Z) (s : Z) :
  Forall (fun c => lo <= c <= hi) cs ->
  s + lo * Z.of_nat (length cs) <= fold_left Z.add cs s <= s + hi * Z.of_nat (length cs).
Proof.
  revert s. induction cs as [|c rest IH]; intros s H; cbn [fold_left length]; [lia|].
  pose proof (List.Forall_inv H) as Hc. cbn beta in Hc.
  specialize (IH (s + c) (List.Forall_inv_tail H)). lia.
Qed.

Lemma meanConfidence_bounds (cs : list Z) :
  Forall (fun c => 10 <= c <= 95) cs -> 10 <= meanConfidence cs <= 95.
Proof.
  intros H. unfold meanConfidence. destruct (Nat.ltb_spec 0 (length cs)) as [Hlen|Hlen]; [|lia].
  pose proof (fold_add_bounds 10 95 cs 0 H) as Hs. unfold sumZ.
  set (total := fold_left Z.add cs 0) in *.
  assert (Hn : (0 < ofNat (length cs))%Q) by (apply ofNat_pos; exact Hlen).
  split.
  - apply round_ge. apply Qle_shift_div_l; [exact Hn|].
    unfold ofNat. rewrite <- inject_Z_mult, <- Zle_Qle. lia.
  - apply round_le. apply Qle_shift_div_r; [exact Hn|].
    unfold ofNat. rewrite <- inject_Z_mult, <- Zle_Qle. lia.
Qed.

Lemma fold_square_bounds (centre : Z) (cs : list Z) (s : Z) :
  10 <= centre <= 95 -> Forall (fun c => 10 <= c <= 95) cs ->
  s <= fold_left (fun s conf => s + (conf - centre) ^ 2) cs s
    <= s + 7225 * Z.of_nat (length cs).
Proof.
  intros Hc. revert s. induction cs as [|c rest IH]; intros s H; cbn [fold_left length]; [lia|].
  pose proof (List.Forall_inv H) as Hx. cbn beta in Hx.
  specialize (IH (s + (c - centre) ^ 2) (List.Forall_inv_tail H)).
  assert (Hsq : 0 <= (c - centre) ^ 2 <= 7225) by (rewrite Z.pow_2_r; nia).
  lia.
Qed.

Lemma varianceAround_bounds (centre : Z) (cs : list Z) :
  10 <= centre <= 95 -> Forall (fun c => 10 <= c <= 95) cs ->
  (0 <= varianceAround centre cs <= 7225)%Q.
Proof.
  intros Hc H. unfold varianceAround.
  destruct (Nat.ltb_spec 0 (length cs)) as [Hlen|Hlen]; [|split; discriminate].
  pose proof (fold_square_bounds centre cs 0 Hc H) as Hs.
  set (total := fold_left (fun s conf => s + (conf - centre) ^ 2) cs 0) in *.
  assert (Hn : (0 < ofNat (length cs))%Q) by (apply ofNat_pos; exact Hlen).
  split.
  - apply Qle_shift_div_l; [exact Hn|]. rewrite Qmult_0_l.
    change 0%Q with (inject_Z 0). rewrite <- Zle_Qle. lia.
  - apply Qle_shift_div_r; [exact Hn|].
    unfold ofNat. change 7225%Q with (inject_Z 7225).
    rewrite <- inject_Z_mult, <- Zle_Qle. lia.
Qed.

Lemma roundSqrt_bounds (v : Q) : (0 <= v <= 7225)%Q -> 0 <= roundSqrt v <= 85.
Proof.
  intros [H0 H1]. unfold roundSqrt.
  assert (Hf0 : 0 <= Qfloor (4 * v)).
  { change 0 with (Qfloor 0). apply Qfloor_resp_le. lra. }
  assert (Hf1 : Qfloor (4 * v) <= 28900).
  { change 28900 with (Qfloor 28900). apply Qfloor_resp_le. lra. }
  pose proof (Z.sqrt_nonneg (Qfloor (4 * v))) as Hs0.
  pose proof (Z.sqrt_le_mono _ _ Hf1) as Hs1.
  change (Z.sqrt 28900) with 170 in Hs1.
  set (k := Z.sqrt (Qfloor (4 * v))) in *.
  split.
  - apply Z.div_pos; lia.
  - apply Z.lt_succ_r. apply Z.div_lt_upper_bound; lia.
Qed.

(** X12. The summary of a history stays within the range of the confidences it
    averages: the average confidence lies in [10, 95] and the volatility in
    [0, 0.85]. *)
Theorem state_history_summary_bounds :
  forall (trades : list Trade) (plan : option TradingPlan) (limit : Z),
    let s := summary (returned (analyzeStateHistory trades plan limit)) in
    10 <= averageConfidence s <= 95
    /\ (0 <= volatility s <= 85 # 100)%Q.
Proof.
  intros trades plan limit.
  destruct (list_eq_nil_dec trades) as [Hnil|Hne].
  { rewrite (fallback_history trades plan limit (or_introl Hnil)). cbn.
    split; [lia|split; discriminate]. }
  destruct plan as [plan|].
  2: { rewrite (fallback_history trades None limit (or_intror eq_refl)). cbn.
       split; [lia|split; discriminate]. }
  rewrite (summary_is_loop_output trades plan limit Hne). cbv zeta.
  set (final := loop plan limit (sortByEntryTime trades) (sortByEntryTime trades) 0 initial).
  pose proof (loop_keeps_invariant plan limit (sortByEntryTime trades)
                (sortByEntryTime trades) 0) as (_ & Hc & _ & _ & _ & Hrange).
  fold final in Hc, Hrange.
  assert (Hconf : Forall (fun c => 10 <= c <= 95) (accConfidences final)).
  { rewrite Hc. apply List.Forall_map. exact Hrange. }
  unfold summarize. cbn [averageConfidence volatility].
  pose proof (meanConfidence_bounds _ Hconf) as Hmean.
  split; [exact Hmean|].
  pose proof (roundSqrt_bounds _ (varianceAround_bounds _ _ Hmean Hconf)) as Hk.
  unfold volatilityOf.
  set (k := roundSqrt (varianceAround (meanConfidence (accConfidences final))
                                      (accConfidences final))) in *.
  split.
  - apply Qle_shift_div_l; [reflexivity|]. rewrite Qmult_0_l.
    change 0%Q with (inject_Z 0). rewrite <- Zle_Qle. lia.
  - apply Qle_shift_div_r; [reflexivity|].
    apply Qle_trans with (inject_Z 85); [rewrite <- Zle_Qle; lia|discriminate].
Qed.

Lemma state_eqb_sym (a b : PsychologicalState) : state_eqb a b = state_eqb b a.
Proof. destruct a, b; reflexivity. Qed.

Lemma state_eqb_refl (a : PsychologicalState) : state_eqb a a = true.
Proof. destruct a; reflexivity. Qed.

Lemma countOf_cons (s k : PsychologicalState) (n : nat)
      (rest : list (PsychologicalState * nat)) :
  countOf s ((k, n) :: rest) = if state_eqb k s then n else countOf s rest.
Proof. unfold countOf. cbn [find fst snd]. destruct (state_eqb k s); reflexivity. Qed.

Lemma bump_countOf (s st : PsychologicalState) (c : list (PsychologicalState * nat)) :
  countOf s (bump st c) = if state_eqb s st then S (countOf s c) else countOf s c.
Proof.
  induction c as [|[k n] rest IH].
  - cbn [bump]. rewrite countOf_cons, (state_eqb_sym st s).
    destruct (state_eqb s st); reflexivity.
  - cbn [bump]. destruct (state_eqb k st) eqn:Hk.
    + apply state_eqb_eq in Hk. subst k. rewrite !countOf_cons, (state_eqb_sym st s).
      destruct (state_eqb s st); reflexivity.
    + rewrite !countOf_cons. destruct (state_eqb k s) eqn:Hks; [|exact IH].
      apply state_eqb_eq in Hks. subst k. rewrite Hk. reflexivity.
Qed.

Lemma occurrences_cons (s st : PsychologicalState) (rest : list PsychologicalState) :
  occurrences s (st :: rest)
  = ((if state_eqb s st then 1 else 0) + occurrences s rest)%nat.
Proof.
  unfold occurrences, count. cbn [List.filter]. destruct (state_eqb s st); reflexivity.
Qed.

Lemma countStates_countOf (s : PsychologicalState) (states : list PsychologicalState)
      (c : list (PsychologicalState * nat)) :
  countOf s (fold_left (fun counts st => bump st counts) states c)
  = (countOf s c + occurrences s states)%nat.
Proof.
  revert c. induction states as [|st rest IH]; intros c; cbn [fold_left].
  - unfold occurrences, count. cbn. lia.
  - rewrite IH, bump_countOf, occurrences_cons. destruct (state_eqb s st); lia.
Qed.

Lemma bump_keys (st x : PsychologicalState) (c : list (PsychologicalState * nat)) :
  In x (map fst (bump st c)) -> x = st \/ In x (map fst c).
Proof.
  induction c as [|[k n] rest IH]; cbn [bump].
  - cbn. intros [H|[]]. left. symmetry. exact H.
  - destruct (state_eqb k st); cbn [map fst In].
    + intros H. right. exact H.
    + intros [H|H]; [right; left; exact H|].
      destruct (IH H) as [E|E]; [left; exact E|right; right; exact E].
Qed.

Lemma bump_NoDup (st : PsychologicalState) (c : list (PsychologicalState * nat)) :
  List.NoDup (map fst c) -> List.NoDup (map fst (bump st c)).
Proof.
  induction c as [|[k n] rest IH]; intros H; cbn [bump].
  - cbn. constructor; [intros []|constructor].
  - destruct (state_eqb k st) eqn:Hk; [exact H|].
    cbn [map fst] in H |- *. inversion H as [|? ? Hnotin Hrest]; subst.
    constructor; [|apply IH; exact Hrest].
    intros Hin. destruct (bump_keys st k rest Hin) as [E|E].
    + subst k. rewrite state_eqb_refl in Hk. discriminate.
    + contradiction.
Qed.

Lemma countStates_NoDup (states : list PsychologicalState)
      (c : list (PsychologicalState * nat)) :
  List.NoDup (map fst c) ->
  List.NoDup (map fst (fold_left (fun counts st => bump st counts) states c)).
Proof.
  revert c. induction states as [|st rest IH]; intros c H; cbn [fold_left]; [exact H|].
  apply IH. apply bump_NoDup. exact H.
Qed.

Lemma countOf_entry (kn : PsychologicalState * nat) (c : list (PsychologicalState * nat)) :
  List.NoDup (map fst c) -> In kn c -> countOf (fst kn) c = snd kn.
Proof.
  induction c as [|[k n] rest IH]; intros Hnd Hin; [destruct Hin|].
  cbn [map fst] in Hnd. inversion Hnd as [|? ? Hnotin Hrest]; subst.
  rewrite countOf_cons. destruct Hin as [E|Hin].
  - subst kn. cbn [fst snd]. rewrite state_eqb_refl. reflexivity.
  - destruct (state_eqb k (fst kn)) eqn:Hk; [|apply IH; assumption].
    apply state_eqb_eq in Hk. subst k. exfalso. apply Hnotin.
    apply in_map. exact Hin.
Qed.

Lemma pick_is_largest (rest : list (PsychologicalState * nat))
      (first : PsychologicalState * nat) :
  let r := fold_left (fun a b => if (snd b <? snd a)%nat then a else b) rest first in
  In r (first :: rest) /\ forall x, In x (first :: rest) -> (snd x <= snd r)%nat.
Proof.
  revert first. induction rest as [|b rest IH]; intros first; cbn [fold_left].
  - split; [left; reflexivity|]. intros x [E|[]]. subst x. lia.
  - destruct (Nat.ltb_spec (snd b) (snd first)) as [Hlt|Hge].
    + destruct (IH first) as [Hin Hmax]. split.
      * destruct Hin as [E|Hin]; [left; exact E|right; right; exact Hin].
      * intros x [E|[E|Hx]].
        -- subst x. apply Hmax. left. reflexivity.
        -- subst x. etransitivity; [|apply Hmax; left; reflexivity]. lia.
        -- apply Hmax. right. exact Hx.
    + destruct (IH b) as [Hin Hmax]. split.
      * right. exact Hin.
      * intros x [E|[E|Hx]].
        -- subst x. etransitivity; [exact Hge|]. apply Hmax. left. reflexivity.
        -- subst x. apply Hmax. left. reflexivity.
        -- apply Hmax. right. exact Hx.
Qed.

Lemma pickMostCommon_most_frequent (states : list PsychologicalState)
      (s : PsychologicalState) :
  (occurrences s states <= occurrences (pickMostCommon (countStates states)) states)%nat.
Proof.
  assert (Hocc : forall x, occurrences x states = countOf x (countStates states)).
  { intros x. unfold countStates. rewrite countStates_countOf. reflexivity. }
  assert (Hnd : List.NoDup (map fst (countStates states))).
  { unfold countStates. apply countStates_NoDup. constructor. }
  rewrite !Hocc. destruct (countStates states) as [|first rest] eqn:Hc.
  - cbn. lia.
  - cbn [pickMostCommon].
    destruct (pick_is_largest rest first) as [Hin Hmax].
    set (r := fold_left (fun a b => if (snd b <? snd a)%nat then a else b) rest first) in *.
    rewrite (countOf_entry r (first :: rest) Hnd Hin).
    unfold countOf. destruct (find _ _) as [kn|] eqn:Hfind; [|lia].
    apply List.find_some in Hfind as [Hkn _]. apply Hmax. exact Hkn.
Qed.

(** X13. The most common state of the summary really is one: no state occurs
    more often among the points of the history. *)
Theorem most_common_state_is_most_frequent :
  forall (trades : list Trade) (plan : option TradingPlan) (limit : Z)
         (s : PsychologicalState),
    let r := returned (analyzeStateHistory trades plan limit) in
    (occurrences s (map pointState (history r))
     <= occurrences (mostCommonState (summary r)) (map pointState (history r)))%nat.
Proof.
  intros trades plan limit s.
  destruct (list_eq_nil_dec trades) as [Hnil|Hne].
  { rewrite (fallback_history trades plan limit (or_introl Hnil)). cbn. lia. }
  destruct plan as [plan|].
  2: { rewrite (fallback_history trades None limit (or_intror eq_refl)). cbn. lia. }
  cbv zeta. rewrite (history_is_loop_output trades plan limit Hne).
  rewrite (summary_is_loop_output trades plan limit Hne).
  pose proof (loop_keeps_invariant plan limit (sortByEntryTime trades)
                (sortByEntryTime trades) 0) as (Hs & _).
  rewrite <- Hs. unfold summarize. cbn [mostCommonState].
  apply pickMostCommon_most_frequent.
Qed.

End HistorySummaryFacts.

(** ** Session forecast and performance insights *)

Section ForecastAndInsightFacts.
Import Metrics SessionForecast.

Lemma ofNat_S (n : nat) : (ofNat (S n) == ofNat n + 1)%Q.
Proof.
  unfold ofNat. rewrite Nat2Z.inj_succ, <- Z.add_1_r, inject_Z_plus. reflexivity.
Qed.

Lemma fold_Qplus_le (b : Q) (xs : list Q) (acc : Q) :
  Forall (fun x => x <= b)%Q xs ->
  (fold_left Qplus xs acc <= acc + ofNat (length xs) * b)%Q.
Proof.
  intros H. revert acc. induction H as [|x rest Hx _ IH]; intros acc.
  - cbn [fold_left length]. change (ofNat 0) with 0%Q. lra.
  - cbn [fold_left length]. eapply Qle_trans; [apply IH|]. rewrite ofNat_S. lra.
Qed.

(** The mean of a non-empty list is at most any bound of its elements. *)
Lemma meanOr_le (dflt b : Q) (xs : list Q) :
  xs <> [] -> Forall (fun x => x <= b)%Q xs -> (meanOr dflt xs <= b)%Q.
Proof.
  intros Hne H. destruct xs as [|x rest]; [contradiction|].
  unfold meanOr, sum.
  pose proof (fold_Qplus_le b (x :: rest) 0 H) as Hs.
  assert (Hn : (0 < ofNat (length (x :: rest)))%Q).
  { unfold ofNat. change 0%Q with (inject_Z 0). rewrite <- Zlt_Qlt. cbn [length]. lia. }
  set (n := ofNat (length (x :: rest))) in *.
  set (s := fold_left Qplus (x :: rest) 0%Q) in *.
  apply Qle_shift_div_r; [exact Hn|]. lra.
Qed.

Lemma orQ_0 (q : Q) : (orQ q 0 == q)%Q.
Proof.
  unfold orQ. destruct (Qeq_bool q 0) eqn:E; [|reflexivity].
  apply Qeq_bool_iff in E. symmetry. exact E.
Qed.

(** X14. With trades and a plan the forecast is NEGATIVE whenever the three
    most recent trades (of at least three) all closed without profit, and
    it is NEGATIVE exactly when the risk level is HIGH.  Under a plan whose
    risk is not negative a NEGATIVE forecast has a cause in the trades: that
    losing streak, or a trade whose recorded risk is above the plan risk;
    trading outside the preferred sessions never makes it NEGATIVE by
    itself.  Between one and three recommendations are always given, and
    the requested session is only echoed back. *)
Theorem forecast_negative_needs_streak_or_excess_risk :
  forall (trades : list Trade) (session other : option TradingSessions)
         (plan : TradingPlan) (currentState : option PsychologicalState),
    trades <> [] ->
    let f := analyzeSessionForecast trades session (Some plan) currentState in
    let g := analyzeSessionForecast trades other (Some plan) currentState in
    let streak := (3 <= length trades)%nat
                  /\ Forall (fun t => (profitLoss t <= 0)%Q) (take 3 trades) in
    (streak -> forecast f = FORECAST_NEGATIVE)
    /\ (forecast f = FORECAST_NEGATIVE <-> riskLevel f = HIGH)
    /\ (wellFormedPlan (Some plan) -> forecast f = FORECAST_NEGATIVE ->
        streak \/ exists t, In t trades /\ exceedsRisk (riskPercentPerTrade plan) t = true)
    /\ (1 <= length (recommendations f) <= 3)%nat
    /\ (predictedBias f, riskLevel f, forecast f, recommendations f, basedOnState f)
       = (predictedBias g, riskLevel g, forecast g, recommendations g, basedOnState g).
Proof.
  intros trades session other plan currentState Hne. cbv zeta.
  destruct (forecast_level trades session plan currentState Hne) as [Hlevel Hlabel].
  cbv zeta in Hlevel, Hlabel.
  set (planRisk := orQ (riskPercentPerTrade plan) 0) in *.
  set (streak := forallb (fun t => Qle_bool (profitLoss t) 0) (take 3 trades)
                 && (3 <=? length trades)%nat) in *.
  set (escalation := Qgtb (fieldAverageOr planRisk riskPercentUsed (tradesWithRisk trades))
                          (planRisk * (125 # 100))) in *.
  assert (Hstreak : streak = true
                    <-> ((3 <= length trades)%nat
                         /\ Forall (fun t => (profitLoss t <= 0)%Q) (take 3 trades))).
  { subst streak. rewrite andb_true_iff, Nat.leb_le, forallb_forall, List.Forall_forall.
    split; intros [A B]; split; try assumption; intros x Hx; apply Qle_bool_iff, (B x Hx)
    || apply Qle_bool_iff, (A x Hx). }
  split.
  { intros Hs. apply Hstreak in Hs. rewrite Hlabel, Hs. reflexivity. }
  split.
  { rewrite Hlevel, Hlabel. destruct (streak || escalation); split; intros H;
      reflexivity || discriminate H. }
  split.
  { intros Hp Hneg. rewrite Hlabel in Hneg.
    destruct streak eqn:Es; [left; apply Hstreak; reflexivity | right].
    destruct escalation eqn:Eesc; [|discriminate Hneg].
    subst escalation. apply Qgtb_lt in Eesc.
    rewrite fieldAverageOr_present in Eesc.
    pose proof (orQ_0 (riskPercentPerTrade plan)) as Hor. fold planRisk in Hor.
    set (p := riskPercentPerTrade plan) in *.
    cbn in Hp. fold p in Hp.
    destruct (existsb (exceedsRisk p) trades) eqn:E.
    - apply existsb_exists in E. exact E.
    - exfalso.
      assert (Hall : Forall (fun r => r <= p)%Q (present riskPercentUsed trades)).
      { clear - E. unfold present.
        induction trades as [|t rest IH]; [constructor|].
        cbn [existsb] in E. apply orb_false_iff in E. destruct E as [Et Er].
        cbn [omap list_omap]. unfold exceedsRisk in Et.
        destruct (riskPercentUsed t) as [r|]; [|exact (IH Er)].
        constructor; [|exact (IH Er)]. apply Qltb_ge. exact Et. }
      destruct (present riskPercentUsed trades) as [|r rs] eqn:Epres.
      + cbn [meanOr] in Eesc. lra.
      + assert (Hm : (meanOr planRisk (r :: rs) <= p)%Q)
          by (apply meanOr_le; [discriminate | exact Hall]).
        lra. }
  destruct trades as [|t rest]; [contradiction|].
  unfold analyzeSessionForecast.
  destruct (forallb _ _ && _); destruct (Qgtb _ _); destruct (Qgeb _ _);
    (split; [cbn; lia | reflexivity]).
Qed.

Lemma forecast_negative_needs_streak_or_excess_risk_witness :
  forecast (analyzeSessionForecast MoreExamples.losingStreak (Some NY) (Some Examples.plan) None)
  = FORECAST_NEGATIVE.
Proof.
  destruct (forecast_negative_needs_streak_or_excess_risk
              MoreExamples.losingStreak (Some NY) None Examples.plan None) as [H _].
  - discriminate.
  - apply H. split; [cbn; lia|]. repeat constructor; discriminate.
Defined.

(** X15. The period insights report a win rate between 0 and 100 and a count of
    this week's trades that is at most the number of trades.  They always
    give exactly one recommendation; with trades and a plan they hold two
    insights and the recommendation is the description of the CONSTRUCTIVE
    one of them. *)
Theorem insights_stats_and_recommendation :
  forall (now : Z) (trades : list Trade) (plan : option TradingPlan) (period : string),
    let r := PerformanceInsights.analyzePerformanceInsights now trades plan period in
    0 <= PerformanceInsights.statsWinRate (PerformanceInsights.stats r) <= 100
    /\ (PerformanceInsights.tradesThisWeek (PerformanceInsights.stats r) <= length trades)%nat
    /\ length (PerformanceInsights.recommendations r) = 1%nat
    /\ (trades <> [] -> plan <> None ->
        length (PerformanceInsights.insights r) = 2%nat
        /\ exists c,
             In c (PerformanceInsights.insights r)
             /\ PerformanceInsights.isConstructive c = true
             /\ PerformanceInsights.recommendations r = [PerformanceInsights.description c]).
Proof.
  intros now trades plan period. cbv zeta.
  destruct trades as [|t rest].
  { cbn. split; [lia|]. split; [lia|]. split; [reflexivity|]. intros H. contradiction. }
  destruct plan as [plan|].
  2: { cbn. split; [lia|]. split; [lia|]. split; [reflexivity|]. intros _ H. contradiction. }
  unfold PerformanceInsights.analyzePerformanceInsights.
  cbn [PerformanceInsights.stats PerformanceInsights.statsWinRate
       PerformanceInsights.tradesThisWeek PerformanceInsights.insights
       PerformanceInsights.recommendations].
  set (n := length (t :: rest)).
  assert (Hn : (0 < n)%nat) by (subst n; cbn; lia).
  split.
  { replace (0 <? n)%nat with true by (symmetry; apply Nat.ltb_lt; exact Hn).
    pose proof (fraction_bounds _ n (count_le_length isWin (t :: rest)) Hn) as Hf.
    set (f := (ofNat (count isWin (t :: rest)) / ofNat n)%Q) in *. clearbody f.
    split; [apply round_ge; change (inject_Z 0) with 0%Q
           |apply round_le; change (inject_Z 100) with 100%Q]; lra. }
  split; [apply count_le_length|].
  destruct (70 <=? _); [|destruct (60 <=? _)];
    (destruct (Qgeb _ _); [|destruct (_ <? 60)]);
    cbn -[In]; (split; [reflexivity|]); intros _ _; (split; [reflexivity|]);
    match goal with
    | |- exists c, In c ?l /\ _ =>
        first [ exists (nth 0 l PerformanceInsights.addData);
                split; [cbn; tauto|split; reflexivity]
              | exists (nth 1 l PerformanceInsights.addData);
                split; [cbn; tauto|split; reflexivity] ]
    end.
Qed.

Lemma insights_stats_and_recommendation_witness :
  length (PerformanceInsights.insights
            (PerformanceInsights.analyzePerformanceInsights
               0 Examples.tenTrades (Some Examples.plan) "MONTH")) = 2%nat.
Proof.
  destruct (insights_stats_and_recommendation 0 Examples.tenTrades (Some Examples.plan) "MONTH")
    as (_ & _ & _ & H).
  destruct H as [H _]; [discriminate|discriminate|exact H].
Defined.

End ForecastAndInsightFacts.

(** ** Radar: emotional volatility, and the breathwork triggers *)

Section VolatilityAndBreathwork.
Import Radar Breathwork.

Lemma Qltb_inject_Z (x y : Z) : Qltb (inject_Z x) (inject_Z y) = (x <? y).
Proof.
  destruct (Z.ltb_spec x y) as [H|H].
  - apply Qltb_lt. rewrite <- Zlt_Qlt. exact H.
  - apply Qltb_ge. rewrite <- Zle_Qle. exact H.
Qed.

Lemma calculateEmotionalVolatility_le_50 (a h : Z) :
  inRange a -> inRange h -> calculateEmotionalVolatility a h <= 50.
Proof.
  intros [Ha0 Ha1] [Hh0 Hh1]. unfold calculateEmotionalVolatility.
  etransitivity; [apply Z.le_min_r|]. apply round_le. change (inject_Z 50) with 50%Q.
  rewrite Zle_Qle in Ha0, Ha1, Hh0, Hh1.
  change (inject_Z 0) with 0%Q in *. change (inject_Z 100) with 100%Q in *.
  destruct ((60 <? a) && (60 <? h)) eqn:E.
  - apply andb_true_iff in E as [Ea Eh]. apply Z.ltb_lt in Ea, Eh.
    rewrite Zlt_Qlt in Ea, Eh. change (inject_Z 60) with 60%Q in *.
    assert (Habs : (Qabs (inject_Z a - inject_Z h) <= 40)%Q).
    { apply Qabs_Qle_condition. split; lra. }
    set (d := Qabs (inject_Z a - inject_Z h)) in *. clearbody d.
    unfold Qdiv. change (/ 2)%Q with (1 # 2)%Q. lra.
  - assert (Habs : (Qabs (inject_Z a - inject_Z h) <= 100)%Q).
    { apply Qabs_Qle_condition. split; lra. }
    set (d := Qabs (inject_Z a - inject_Z h)) in *. clearbody d.
    unfold Qdiv. change (/ 2)%Q with (1 # 2)%Q. lra.
Qed.

Lemma radar_volatility_le_50 (sqrt : Q -> Q) (trades : list Trade)
      (plan : option TradingPlan) :
  Forall wellFormedTrade trades -> wellFormedPlan plan ->
  emotionalVolatility (traits (calculatePsychologicalRadar sqrt trades plan)) <= 50.
Proof.
  intros Hwf Hp. unfold calculatePsychologicalRadar.
  destruct trades as [|t rest]; [cbn; lia|].
  cbn [traits emotionalVolatility]. apply calculateEmotionalVolatility_le_50.
  - apply calculateAggression_bounds; [|exact Hp]. apply firstn_Forall. exact Hwf.
  - apply calculateHesitation_bounds.
Qed.

(** X16. On well-formed inputs the emotional volatility of the radar never
    exceeds 50: aggression and hesitation are both within 0..100, so half
    their distance is at most 50, and when both exceed 60 they are less than
    40 apart.  The radar therefore never reports "emotional volatility
    detected", which asks for a volatility above 60. *)
Theorem radar_never_reports_volatility :
  forall (sqrt : Q -> Q) (trades : list Trade) (plan : option TradingPlan),
    Forall wellFormedTrade trades -> wellFormedPlan plan ->
    let r := calculatePsychologicalRadar sqrt trades plan in
    emotionalVolatility (traits r) <= 50
    /\ radarMessage r <> VolatilityDetected.
Proof.
  intros sqrt trades plan Hwf Hp. cbv zeta.
  pose proof (radar_volatility_le_50 sqrt trades plan Hwf Hp) as Hvol.
  split; [exact Hvol|].
  unfold calculatePsychologicalRadar in *.
  destruct trades as [|t rest]; [discriminate|].
  cbn [traits emotionalVolatility radarMessage] in *.
  unfold getRadarMessage.
  destruct (_ && _); [discriminate|].
  destruct (70 <? _); [discriminate|].
  destruct (_ <? 50); [discriminate|].
  destruct (Z.ltb_spec 60 (calculateEmotionalVolatility
                             (calculateAggression (take 5 (t :: rest)) plan)
                             (calculateHesitation (take 5 (t :: rest))))) as [H|H];
    [lia|discriminate].
Qed.

Lemma radar_never_reports_volatility_witness :
  radarMessage (calculatePsychologicalRadar Examples.sqrtApprox Examples.tenTrades
                  (Some Examples.plan))
  <> VolatilityDetected.
Proof.
  apply (radar_never_reports_volatility Examples.sqrtApprox Examples.tenTrades
           (Some Examples.plan)).
  - repeat constructor; discriminate.
  - discriminate.
Defined.

(** X17. The suggestion is consistent with its triggers: breathwork is
    suggested exactly when some trigger fired, which is exactly when the
    urgency level is not "none" and when an exercise is named; at most four
    triggers fire, the urgency score lies in 0..100 and is at least 20 once
    anything fired. *)
Theorem breathwork_suggestion_matches_triggers :
  forall (now : Z) (mentalBattery emotionalVolatility : Q) (todayTrades : list Trade)
         (sessionStartBattery : option Q),
    let s := shouldSuggestBreathwork now mentalBattery emotionalVolatility todayTrades
               sessionStartBattery in
    (shouldSuggest s = true <-> triggers s <> [])
    /\ (shouldSuggest s = true <-> level (urgency s) <> none)
    /\ (shouldSuggest s = true <-> breathworkType s <> None)
    /\ (length (triggers s) <= 4)%nat
    /\ 0 <= urgencyScore (urgency s) <= 100
    /\ (shouldSuggest s = true -> 20 <= urgencyScore (urgency s)).
Proof.
  intros now b v trades start. cbv zeta. unfold shouldSuggestBreathwork, calculateUrgency.
  set (n := countImpulsiveTradesLastHour now trades). clearbody n.
  set (drop := calculateBatteryDrop (default 100%Q start) b). clearbody drop.
  destruct (Qgtb v 70), (Qltb b 40), (3 <=? n)%nat, (Qgtb drop 30);
    destruct (Qltb b 30), (Qgtb v 80);
    cbn; repeat split; intros; try discriminate; try lia; try congruence.
Qed.

Lemma breathwork_suggestion_matches_triggers_witness :
  20 <= urgencyScore
          (urgency (shouldSuggestBreathwork Examples.clock 35 50 Examples.lastHourTrades None)).
Proof.
  destruct (breathwork_suggestion_matches_triggers
              Examples.clock 35 50 Examples.lastHourTrades None) as (_ & _ & _ & _ & _ & H).
  apply H. reflexivity.
Defined.

(** X18. When the session-start battery is left at its default of 100, a mental
    battery below 40 always fires two severe triggers, low battery and
    battery drop, and the urgency is "high" with a score of at least 75,
    whatever the volatility and the trades. *)
Theorem low_battery_is_high_urgency :
  forall (now : Z) (mentalBattery emotionalVolatility : Q) (todayTrades : list Trade),
    (mentalBattery < 40)%Q ->
    let s := shouldSuggestBreathwork now mentalBattery emotionalVolatility todayTrades None in
    hasTrigger low_battery (triggers s) = true
    /\ hasTrigger battery_drop (triggers s) = true
    /\ level (urgency s) = high
    /\ 75 <= urgencyScore (urgency s).
Proof.
  intros now b v trades Hb. cbv zeta. unfold shouldSuggestBreathwork, calculateUrgency.
  set (n := countImpulsiveTradesLastHour now trades). clearbody n.
  assert (H40 : Qltb b 40 = true) by (apply Qltb_lt; exact Hb).
  assert (Hdrop : Qgtb (calculateBatteryDrop (default 100%Q None) b) 30 = true).
  { apply Qgtb_lt. unfold calculateBatteryDrop. change (default 100%Q None) with 100%Q.
    eapply Qlt_le_trans; [|apply Q.le_max_r]. lra. }
  rewrite H40, Hdrop.
  destruct (Qgtb v 70), (3 <=? n)%nat, (Qltb b 30), (Qgtb v 80);
    cbn; repeat split; lia.
Qed.

Lemma low_battery_is_high_urgency_witness :
  level (urgency (shouldSuggestBreathwork Examples.clock 20 90 Examples.lastHourTrades None))
  = high.
Proof.
  apply (low_battery_is_high_urgency Examples.clock 20 90 Examples.lastHourTrades).
  reflexivity.
Defined.

(** X19. What the service can trigger.  It passes the battery (an integer within
    0..100), the radar's emotional volatility and a session-start battery of
    100, so on well-formed inputs the volatility trigger never fires, the
    battery-drop trigger fires exactly below a battery of 70, and breathwork
    is suggested exactly when the battery is below 70 or three impulsive
    trades were made in the last hour. *)
Theorem service_breathwork_triggers :
  forall (sqrt : Q -> Q) (now : Z) (plan : option TradingPlan)
         (todayTrades recentTrades : list Trade),
    Forall wellFormedTrade recentTrades -> wellFormedPlan plan ->
    let s := ZentraService.getBreathworkSuggestion sqrt now plan todayTrades recentTrades in
    let b := MentalBattery.battery
               (ZentraService.getMentalBattery plan todayTrades recentTrades) in
    let n := countImpulsiveTradesLastHour now todayTrades in
    map triggerType (triggers s)
    = (if b <? 40 then [low_battery] else [])
      ++ (if (3 <=? n)%nat then [impulsive_trades] else [])
      ++ (if b <? 70 then [battery_drop] else [])
    /\ (shouldSuggest s = true <-> b < 70 \/ (3 <= n)%nat).
Proof.
  intros sqrt now plan todayTrades recentTrades Hwf Hp. cbv zeta.
  unfold ZentraService.getBreathworkSuggestion, ZentraService.getMentalBattery.
  pose proof (calculateMentalBattery_bounds todayTrades plan
                (PlanControl.percentage (PlanControl.calculatePlanControl recentTrades plan)))
    as Hb.
  set (b := MentalBattery.battery _) in *.
  pose proof (radar_volatility_le_50 sqrt recentTrades plan Hwf Hp) as Hvol.
  set (vol := emotionalVolatility _) in *.
  unfold shouldSuggestBreathwork.
  set (n := countImpulsiveTradesLastHour now todayTrades).
  assert (H1 : Qgtb (inject_Z vol) 70 = false).
  { unfold Qgtb. change 70%Q with (inject_Z 70). rewrite Qltb_inject_Z.
    apply Z.ltb_ge. lia. }
  assert (H2 : Qltb (inject_Z b) 40 = (b <? 40)).
  { change 40%Q with (inject_Z 40). apply Qltb_inject_Z. }
  assert (H3 : Qgtb (calculateBatteryDrop (default 100%Q (Some 100%Q)) (inject_Z b)) 30
               = (b <? 70)).
  { unfold calculateBatteryDrop. change (default 100%Q (Some 100%Q)) with (inject_Z 100).
    change (inject_Z 100) with 100%Q.
    destruct (Z.ltb_spec b 70) as [H|H].
    - apply Qgtb_lt. eapply Qlt_le_trans; [|apply Q.le_max_r].
      rewrite Zlt_Qlt in H. change (inject_Z 70) with 70%Q in H. lra.
    - unfold Qgtb. apply Qltb_ge. apply Q.max_lub; [discriminate|].
      rewrite Zle_Qle in H. change (inject_Z 70) with 70%Q in H. lra. }
  rewrite H1, H2, H3. clearbody b vol n. clear H1 H2 H3.
  destruct (Z.ltb_spec b 40), (Nat.leb_spec 3 n), (Z.ltb_spec b 70);
    destruct (Qltb (inject_Z b) 30), (Qgtb (inject_Z vol) 80);
    cbn; split; try reflexivity; split; intros; try discriminate; try reflexivity;
    try lia; try (left; lia); try (right; lia).
Qed.

Lemma service_breathwork_triggers_witness :
  shouldSuggest
    (ZentraService.getBreathworkSuggestion Examples.sqrtApprox Examples.clock
       (Some Examples.plan) Examples.lastHourTrades Examples.lastHourTrades) = true
  <-> MentalBattery.battery
        (ZentraService.getMentalBattery (Some Examples.plan)
           Examples.lastHourTrades Examples.lastHourTrades) < 70
      \/ (3 <= countImpulsiveTradesLastHour Examples.clock Examples.lastHourTrades)%nat.
Proof.
  apply (service_breathwork_triggers Examples.sqrtApprox Examples.clock (Some Examples.plan)
           Examples.lastHourTrades Examples.lastHourTrades).
  - repeat constructor; discriminate.
  - discriminate.
Defined.

End VolatilityAndBreathwork.

(** ** Plan control: the trade score and its floor *)

Section PlanControlFacts.
Import PlanControl ScoringShape.

(** X20. The score of a trade is the sum of the points of its breakdown, which
    lists the five criteria in a fixed order, each with its full points if
    passed and none otherwise. *)
Theorem trade_score_is_breakdown_total :
  forall (trade : Trade) (plan : option TradingPlan) (previousTrade : option Trade),
    let ts := calculateTradeScore trade plan previousTrade in
    score ts = totalPoints (breakdown ts)
    /\ map criterion (breakdown ts)
       = [allowedSession; properSlTp; correctPositionSize; notesCriterion; timing]
    /\ Forall (fun b => points b = if passed b then criterionPoints (criterion b) else 0)
              (breakdown ts).
Proof.
  intros trade plan previous. cbv zeta. unfold calculateTradeScore, award.
  destruct (isInAllowedSession _ _), (hasProperSlTp _ _), (hasCorrectPositionSize _ _),
    (hasNotes _), (hasTimingDiscipline _ _);
    cbn; (split; [reflexivity|]); (split; [reflexivity|]); repeat constructor.
Qed.

Lemma trade_score_floor (trade : Trade) (plan : option TradingPlan)
      (previous : option Trade) :
  (if Nat.eqb (length (preferredOf plan)) 0 then 20 else 0)
  + (match previous with None => 15 | Some _ => 0 end)
  <= score (calculateTradeScore trade plan previous).
Proof.
  unfold calculateTradeScore, award.
  assert (Hs : Nat.eqb (length (preferredOf plan)) 0 = true ->
               isInAllowedSession trade (preferredOf plan) = true).
  { intros H. unfold isInAllowedSession. destruct (preferredOf plan); [reflexivity|discriminate]. }
  assert (Ht : previous = None -> hasTimingDiscipline trade previous = true).
  { intros ->. reflexivity. }
  destruct (Nat.eqb (length (preferredOf plan)) 0);
    [rewrite (Hs eq_refl)|destruct (isInAllowedSession _ _)];
    (destruct previous as [p|]; [destruct (hasTimingDiscipline _ _)|rewrite (Ht eq_refl)]);
    destruct (hasProperSlTp _ _), (hasCorrectPositionSize _ _), (hasNotes _); cbn; lia.
Qed.

Lemma totalScore_lower (plan : option TradingPlan) (lo : Z) (sorted : list Trade)
      (previous : option Trade) (start : Z) :
  (forall t p, lo <= score (calculateTradeScore t plan p)) ->
  start + lo * Z.of_nat (length sorted)
  <= fold_left (fun s ts => s + score (tradeScore ts)) (scoreAll plan previous sorted) start.
Proof.
  intros Hlo. revert previous start.
  induction sorted as [|t rest IH]; intros previous start; cbn [scoreAll fold_left length].
  - lia.
  - specialize (IH (Some t) (start + score (calculateTradeScore t plan previous))).
    cbn [tradeScore]. pose proof (Hlo t previous). lia.
Qed.

(** X21. With trades the plan-control percentage is never 0: the earliest of
    the (at most five) trades scored has no predecessor and always earns the
    15 timing points, so the percentage is at least 3.  Without preferred
    sessions every trade also earns the 20 session points, and the
    percentage is at least 23. *)
Theorem plan_control_floor :
  forall (trades : list Trade) (plan : option TradingPlan),
    trades <> [] ->
    let r := calculatePlanControl trades plan in
    3 <= percentage r
    /\ (preferredOf plan = [] -> 23 <= percentage r)
    /\ tradesAnalyzed r = Nat.min 5 (length trades)
    /\ length (tradeScores r) = tradesAnalyzed r.
Proof.
  intros trades plan Hne. cbv zeta. destruct trades as [|t0 rest0]; [contradiction|].
  unfold calculatePlanControl. cbn [percentage tradesAnalyzed tradeScores].
  set (sorted := sortByEntryTime (take 5 (t0 :: rest0))).
  assert (Hlen : length sorted = Nat.min 5 (length (t0 :: rest0))).
  { subst sorted. rewrite sortByEntryTime_length. unfold take. apply length_firstn. }
  assert (Hn : (1 <= length sorted <= 5)%nat) by (rewrite Hlen; cbn [length]; lia).
  assert (Hpos : (0 < ofNat (length sorted))%Q) by (apply ofNat_pos; lia).
  assert (Hfloor : forall lo,
             (forall t p, lo <= score (calculateTradeScore t plan p)) ->
             (forall t, lo + 15 <= score (calculateTradeScore t plan None)) ->
             lo * Z.of_nat (length sorted) + 15 <= totalScore (scoreAll plan None sorted)).
  { intros lo Hall Hfirst. unfold totalScore.
    destruct sorted as [|s0 srest]; [cbn [length] in Hn; lia|].
    cbn [scoreAll fold_left tradeScore length].
    pose proof (totalScore_lower plan lo srest (Some s0)
                  (0 + score (calculateTradeScore s0 plan None)) Hall) as H.
    pose proof (Hfirst s0). lia. }
  split; [|split; [|split]].
  - apply round_ge. apply Qle_shift_div_l; [exact Hpos|].
    unfold ofNat. rewrite <- inject_Z_mult, <- Zle_Qle.
    assert (H0 : 0 * Z.of_nat (length sorted) + 15 <= totalScore (scoreAll plan None sorted)).
    { apply Hfloor.
      - intros t p. pose proof (trade_score_floor t plan p) as H.
        destruct (Nat.eqb _ 0), p; lia.
      - intros t. pose proof (trade_score_floor t plan None) as H.
        destruct (Nat.eqb _ 0); lia. }
    lia.
  - intros Hpref. apply round_ge. apply Qle_shift_div_l; [exact Hpos|].
    unfold ofNat. rewrite <- inject_Z_mult, <- Zle_Qle.
    assert (H0 : 20 * Z.of_nat (length sorted) + 15 <= totalScore (scoreAll plan None sorted)).
    { apply Hfloor.
      - intros t p. pose proof (trade_score_floor t plan p) as H. rewrite Hpref in H.
        cbn [length Nat.eqb] in H. destruct p; lia.
      - intros t. pose proof (trade_score_floor t plan None) as H. rewrite Hpref in H.
        cbn [length Nat.eqb] in H. lia. }
    lia.
  - exact Hlen.
  - apply scoreAll_length.
Qed.

Lemma plan_control_floor_witness :
  23 <= percentage (calculatePlanControl Examples.tenTrades (Some MoreExamples.openPlan)).
Proof.
  destruct (plan_control_floor Examples.tenTrades (Some MoreExamples.openPlan))
    as (_ & H & _).
  - discriminate.
  - apply H. reflexivity.
Defined.

End PlanControlFacts.

(** ** Mental battery: factors and caps *)

Section BatteryFacts.
Import MentalBattery ScoringShape.

Lemma totalImpact_app (xs ys : list Factor) :
  totalImpact (xs ++ ys) = totalImpact xs + totalImpact ys.
Proof.
  unfold totalImpact. induction xs as [|x rest IH]; cbn [app fold_right]; [lia|].
  rewrite IH. lia.
Qed.

Lemma totalImpact_repeat (ty : FactorType) (amount : Z) (n : nat) :
  totalImpact (repeatFactor ty amount n) = amount * Z.of_nat n.
Proof.
  unfold totalImpact, repeatFactor. induction n as [|n IH]; cbn [repeat fold_right impact].
  - lia.
  - rewrite IH. lia.
Qed.

Lemma Forall_repeatFactor (P : Factor -> Prop) (ty : FactorType) (amount : Z) (n : nat) :
  P {| factorType := ty; impact := amount |} -> Forall P (repeatFactor ty amount n).
Proof.
  intros H. unfold repeatFactor. induction n as [|n IH]; cbn [repeat]; constructor; assumption.
Qed.

(** X22. The battery is 100 plus the impacts of the listed drain and recharge
    factors, clamped to 0..100; every drain impact is negative and every
    recharge impact positive, so a battery below 100 always comes with a
    drain factor that explains it. *)
Theorem battery_is_sum_of_factors :
  forall (todayTrades : list Trade) (plan : option TradingPlan) (planControlPercent : Z),
    let r := calculateMentalBattery todayTrades plan planControlPercent in
    battery r
    = Z.max 0 (Z.min 100 (100 + totalImpact (drainFactors r)
                              + totalImpact (rechargeFactors r)))
    /\ Forall (fun f => impact f < 0) (drainFactors r)
    /\ Forall (fun f => 0 < impact f) (rechargeFactors r)
    /\ (battery r < 100 -> drainFactors r <> []).
Proof.
  intros trades plan pc. cbv zeta. unfold calculateMentalBattery.
  destruct trades as [|t rest].
  { cbn. split; [reflexivity|]. split; [constructor|]. split; [constructor|]. lia. }
  cbn [battery drainFactors rechargeFactors].
  set (sorted := sortByEntryTime (t :: rest)).
  set (imp := countPairs impulsiveGap sorted).
  set (over := count (fun t => isOversizedTrade t (planRiskOr1 plan)) sorted).
  set (clu := detectClusters sorted).
  set (loss := count (fun t => isLargeLoss t (planRiskOr1 plan)) sorted).
  set (vol := hasEmotionalVolatility sorted).
  set (pau := detectDisciplinedPauses sorted).
  set (stable := hasStableRiskUsage sorted (planRiskOr1 plan)).
  clearbody imp over clu loss vol pau stable.
  assert (Hsum :
    totalImpact
      (repeatFactor impulsive_reentry (-15) imp ++
       repeatFactor oversized_trade (-10) over ++
       (if (0 <? clu)%nat
        then [{| factorType := clustered_trades; impact := - (Z.of_nat clu * 8) |}] else []) ++
       repeatFactor large_loss (-20) loss ++
       (if vol then [{| factorType := emotional_volatility; impact := -12 |}] else []))
    = - 15 * Z.of_nat imp - 10 * Z.of_nat over
      - (if (0 <? clu)%nat then Z.of_nat clu * 8 else 0)
      - 20 * Z.of_nat loss - (if vol then 12 else 0)).
  { rewrite !totalImpact_app, !totalImpact_repeat.
    destruct (0 <? clu)%nat, vol; cbn; lia. }
  assert (Hre :
    totalImpact
      ((if (0 <? pau)%nat
        then [{| factorType := disciplined_pauses; impact := Z.min (Z.of_nat pau * 5) 15 |}]
        else []) ++
       (if 80 <=? pc then [{| factorType := high_plan_compliance; impact := 8 |}] else []) ++
       (if stable then [{| factorType := stable_risk; impact := 5 |}] else []))
    = (if (0 <? pau)%nat then Z.min (Z.of_nat pau * 5) 15 else 0)
      + (if 80 <=? pc then 8 else 0) + (if stable then 5 else 0)).
  { rewrite !totalImpact_app.
    destruct (0 <? pau)%nat, (80 <=? pc), stable; cbn; lia. }
  assert (Hdrain : Forall (fun f => impact f < 0)
      (repeatFactor impulsive_reentry (-15) imp ++
       repeatFactor oversized_trade (-10) over ++
       (if (0 <? clu)%nat
        then [{| factorType := clustered_trades; impact := - (Z.of_nat clu * 8) |}] else []) ++
       repeatFactor large_loss (-20) loss ++
       (if vol then [{| factorType := emotional_volatility; impact := -12 |}] else []))).
  { repeat (apply Forall_app; split); try (apply Forall_repeatFactor; cbn; lia).
    - destruct (Nat.ltb_spec 0 clu); constructor; [cbn; lia|constructor].
    - destruct vol; constructor; [cbn; lia|constructor]. }
  split.
  { rewrite Hsum, Hre.
    destruct (0 <? clu)%nat, vol, (0 <? pau)%nat, (80 <=? pc), stable; lia. }
  split; [exact Hdrain|]. split.
  { repeat (apply Forall_app; split).
    - destruct (Nat.ltb_spec 0 pau); constructor; [cbn; lia|constructor].
    - destruct (80 <=? pc); constructor; [cbn; lia|constructor].
    - destruct stable; constructor; [cbn; lia|constructor]. }
  intros Hlow Hnil. rewrite Hnil in Hsum. change (totalImpact []) with 0 in Hsum.
  pose proof (Z.le_min_l (Z.of_nat pau * 5) 15).
  destruct (0 <? clu)%nat eqn:Ec, vol, (Nat.ltb_spec 0 pau), (80 <=? pc), stable; lia.
Qed.

Lemma battery_is_sum_of_factors_witness :
  drainFactors (calculateMentalBattery Examples.lastHourTrades (Some Examples.plan) 0) <> [].
Proof.
  destruct (battery_is_sum_of_factors Examples.lastHourTrades (Some Examples.plan) 0)
    as (_ & _ & _ & H).
  apply H. vm_compute. reflexivity.
Defined.

Lemma clusterLoop_step (first a b : Trade) (rest : list Trade) (clusters : nat) :
  clusterLoop (first :: a :: b :: rest) clusters
  = if (3 <=? S (inWindow (entryTime first) (a :: b :: rest)))%nat
    then if (2 <=? S clusters)%nat then S clusters
         else clusterLoop (a :: b :: rest) (S clusters)
    else clusterLoop (a :: b :: rest) clusters.
Proof. reflexivity. Qed.

Lemma clusterLoop_cap (from : list Trade) (clusters : nat) :
  ((clusters <= 1)%nat -> (clusterLoop from clusters <= 2)%nat)
  /\ (clusterLoop from clusters <= clusters + (length from - 2))%nat.
Proof.
  revert clusters. induction from as [|first rest IH]; intros clusters.
  - cbn. lia.
  - destruct rest as [|a [|b rest']]; [cbn; lia|cbn; lia|].
    rewrite clusterLoop_step.
    remember (a :: b :: rest') as r eqn:Er.
    assert (Hl : (2 <= length r)%nat) by (subst r; cbn [length]; lia).
    cbn [length]. clear Er.
    destruct (3 <=? S (inWindow (entryTime first) r))%nat.
    + destruct (Nat.leb_spec 2 (S clusters)).
      * lia.
      * destruct (IH (S clusters)) as [H1 H2]. specialize (H1 ltac:(lia)). lia.
    + destruct (IH clusters) as [H1 H2].
      split; [intros Hc; specialize (H1 Hc); lia|lia].
Qed.

Lemma pauseLoop_cap (gaps : list (Trade * Trade)) (pauses : nat) :
  ((pauses <= 2)%nat -> (pauseLoop gaps pauses <= 3)%nat)
  /\ (pauseLoop gaps pauses <= pauses + length gaps)%nat.
Proof.
  revert pauses. induction gaps as [|[previous trade] rest IH]; intros pauses.
  - cbn. lia.
  - cbn [pauseLoop length].
    destruct (twoHoursMs <=? entryTime trade - exitTime previous).
    + destruct (Nat.leb_spec 3 (S pauses)).
      * lia.
      * destruct (IH (S pauses)) as [H1 H2]. specialize (H1 ltac:(lia)). lia.
    + destruct (IH pauses) as [H1 H2].
      split; [intros Hc; specialize (H1 Hc); lia|lia].
Qed.

Lemma pairs_length (sorted : list Trade) : length (pairs sorted) = (length sorted - 1)%nat.
Proof.
  induction sorted as [|a rest IH]; [reflexivity|].
  destruct rest as [|b rest']; [reflexivity|].
  cbn [pairs length] in *. lia.
Qed.

(** X23. The two counting loops stop early: at most two clusters and at most
    three disciplined pauses are ever counted, and no more than there are
    windows of three trades, or gaps between trades.  The cluster drain is
    therefore at most 16 points. *)
Theorem clusters_and_pauses_are_capped :
  forall (trades : list Trade),
    (detectClusters trades <= Nat.min 2 (length trades - 2))%nat
    /\ (detectDisciplinedPauses trades <= Nat.min 3 (length trades - 1))%nat.
Proof.
  intros trades. split.
  - unfold detectClusters. destruct (Nat.ltb_spec (length trades) 3); [lia|].
    destruct (clusterLoop_cap (sortByEntryTime trades) 0) as [H1 H2].
    rewrite sortByEntryTime_length in H2. lia.
  - unfold detectDisciplinedPauses. destruct (Nat.ltb_spec (length trades) 2); [lia|].
    destruct (pauseLoop_cap (pairs (sortByEntryTime trades)) 0) as [H1 H2].
    rewrite pairs_length, sortByEntryTime_length in H2. lia.
Qed.

End BatteryFacts.

(** ** Performance window *)

Section PerformanceWindowFacts.
Import PerformanceWindow ScoringShape.

Lemma somePair_weaker (p q : Trade -> Trade -> bool) (sorted : list Trade) :
  (forall a b, q a b = true -> p a b = true) ->
  somePair p sorted = false -> somePair q sorted = false.
Proof.
  intros Himp Hp. unfold somePair in *.
  destruct (existsb (fun pt => q (fst pt) (snd pt)) (pairs sorted)) eqn:Hq; [|reflexivity].
  apply existsb_exists in Hq as (pt & Hin & Hpt).
  assert (Hex : existsb (fun pt => p (fst pt) (snd pt)) (pairs sorted) = true).
  { apply existsb_exists. exists pt. split; [exact Hin|]. apply Himp. exact Hpt. }
  rewrite Hex in Hp. discriminate.
Qed.

Lemma impulsive_is_badly_timed (previous trade : Trade) :
  impulsiveGap previous trade = true ->
  Qltb (diffHours previous trade) 1 || Qgtb (diffHours previous trade) 4 = true.
Proof.
  unfold impulsiveGap, diffMinutes, diffHours. intros H.
  apply andb_true_iff in H as [H _]. apply Qltb_lt in H.
  apply orb_true_iff. left. apply Qltb_lt.
  set (d := inject_Z (entryTime trade - exitTime previous)) in *. clearbody d.
  unfold Qdiv in *. change (/ 60000)%Q with (1 # 60000)%Q in H.
  change (/ 3600000)%Q with (1 # 3600000)%Q. lra.
Qed.

Lemma consistent_timing_is_not_impulsive (trades : list Trade) :
  checkConsistentTiming trades = true -> checkNoImpulsive trades = true.
Proof.
  unfold checkConsistentTiming, checkNoImpulsive.
  destruct (length trades <? 2)%nat; [reflexivity|].
  intros H. apply negb_true_iff in H. apply negb_true_iff.
  eapply somePair_weaker; [|exact H]. apply impulsive_is_badly_timed.
Qed.

(** X24. Sorting the detected improvements by priority changes nothing: they
    are detected in the order of the table, so with trades the improvements
    reported are those whose checks hold, in table order, and the top one is
    the first of them. *)
Theorem performance_window_reports_in_table_order :
  forall (trades : list Trade) (plan : option TradingPlan)
         (currentPlanControl : Z) (previousPlanControl : option Z),
    trades <> [] ->
    let w := getPerformanceWindow trades plan currentPlanControl previousPlanControl in
    improvements w = detectedIds trades plan currentPlanControl previousPlanControl
    /\ topImprovement w = head (improvements w)
    /\ (hasImprovement w = true <-> improvements w <> []).
Proof.
  intros trades plan cur prev Hne. cbv zeta.
  destruct trades as [|t rest]; [contradiction|].
  unfold getPerformanceWindow, detectedIds. cbv zeta.
  cbn [improvements topImprovement hasImprovement].
  destruct (checkAvoidedRevenge _ _), (checkStableRisk _ _), (checkNoImpulsive _),
    (checkImprovedPlanControl _ _), (checkNoHesitation _), (checkConsistentTiming _);
    cbn; (split; [reflexivity|]); (split; [reflexivity|]);
    split; intros H; try reflexivity; try discriminate; congruence.
Qed.

Lemma performance_window_reports_in_table_order_witness :
  improvements (getPerformanceWindow MoreExamples.spacedTrades (Some Examples.plan) 60 None)
  = detectedIds MoreExamples.spacedTrades (Some Examples.plan) 60 None.
Proof.
  apply (performance_window_reports_in_table_order
           MoreExamples.spacedTrades (Some Examples.plan) 60 None).
  discriminate.
Defined.

(** X25. Consistent timing (every gap between one and four hours) implies that
    no re-entry was impulsive, which ranks higher: consistent timing is
    never the top improvement, so its message is never the one shown.  A
    single trade always shows "avoided revenge" at the top. *)
Theorem consistent_timing_is_never_on_top :
  forall (trades : list Trade) (plan : option TradingPlan)
         (currentPlanControl : Z) (previousPlanControl : option Z),
    let w := getPerformanceWindow trades plan currentPlanControl previousPlanControl in
    topImprovement w <> Some consistent_timing
    /\ (In consistent_timing (improvements w) -> In no_impulsive (improvements w))
    /\ (length trades = 1%nat -> topImprovement w = Some avoided_revenge).
Proof.
  intros trades plan cur prev. cbv zeta.
  destruct trades as [|t rest]; [cbn; repeat split; try discriminate; tauto|].
  pose proof (consistent_timing_is_not_impulsive (t :: rest)) as Himp.
  assert (Hone : length (t :: rest) = 1%nat ->
                 checkAvoidedRevenge (t :: rest) (planRiskOr1 plan) = true).
  { intros H. unfold checkAvoidedRevenge. rewrite H. reflexivity. }
  unfold getPerformanceWindow. cbv zeta.
  cbn [improvements topImprovement].
  destruct (checkAvoidedRevenge _ _), (checkStableRisk _ _), (checkNoImpulsive _),
    (checkImprovedPlanControl _ _), (checkNoHesitation _), (checkConsistentTiming _);
    cbn; (split; [|split]); intros H;
    try reflexivity; try congruence;
    try (specialize (Himp eq_refl); discriminate Himp);
    try (specialize (Hone H); discriminate Hone);
    intuition congruence.
Qed.

Lemma consistent_timing_is_never_on_top_witness :
  topImprovement (getPerformanceWindow [Examples.lastHourTrade 1 50 40]
                    (Some Examples.plan) 60 None)
  = Some avoided_revenge.
Proof.
  apply (consistent_timing_is_never_on_top [Examples.lastHourTrade 1 50 40]
           (Some Examples.plan) 60 None).
  reflexivity.
Defined.

End PerformanceWindowFacts.

(** ** Daily quote *)

Section QuoteFacts.
Import Quotes.

Lemma toInt32_range (x : Z) : - 2 ^ 31 <= toInt32 x < 2 ^ 31.
Proof.
  unfold toInt32. change (2 ^ 32) with 4294967296. change (2 ^ 31) with 2147483648.
  pose proof (Z.mod_pos_bound (x + 2147483648) 4294967296 ltac:(lia)). lia.
Qed.

Lemma toInt32_periodic (x k : Z) : toInt32 (x + k * 2 ^ 32) = toInt32 x.
Proof.
  unfold toInt32. replace (x + k * 2 ^ 32 + 2 ^ 31) with (x + 2 ^ 31 + k * 2 ^ 32) by ring.
  rewrite Z_mod_plus_full. reflexivity.
Qed.

Lemma toInt32_shift (x : Z) : exists k, toInt32 x = x + k * 2 ^ 32.
Proof.
  exists (- ((x + 2 ^ 31) / 2 ^ 32)). unfold toInt32.
  change (2 ^ 32) with 4294967296. change (2 ^ 31) with 2147483648.
  pose proof (Z.div_mod (x + 2147483648) 4294967296 ltac:(lia)). lia.
Qed.

Lemma hashStep_polynomial (hash exact char : Z) :
  toInt32 exact = hash -> hashStep hash char = toInt32 (31 * exact + char).
Proof.
  intros H. unfold hashStep.
  destruct (toInt32_shift (hash * 32)) as [k1 H1].
  destruct (toInt32_shift exact) as [k2 H2].
  rewrite H1. rewrite <- H, H2.
  replace ((exact + k2 * 2 ^ 32) * 32 + k1 * 2 ^ 32 - (exact + k2 * 2 ^ 32) + char)
    with (31 * exact + char + (31 * k2 + k1) * 2 ^ 32) by ring.
  apply toInt32_periodic.
Qed.

Lemma fold_hashStep_polynomial (codeUnits : list Z) (hash exact : Z) :
  toInt32 exact = hash ->
  fold_left hashStep codeUnits hash
  = toInt32 (fold_left (fun h c => 31 * h + c) codeUnits exact).
Proof.
  revert hash exact. induction codeUnits as [|c rest IH]; intros hash exact H; cbn [fold_left].
  - symmetry. exact H.
  - apply IH. symmetry. apply hashStep_polynomial. exact H.
Qed.

(** X26. The seed hash is the classic polynomial string hash with multiplier
    31, truncated to a signed 32-bit integer, in absolute value: it lies
    between 0 and 2^31, and for a non-empty quote table the index derived
    from it is a valid position in the table. *)
Theorem daily_quote_hash :
  forall (codeUnits : list Z) (quoteCount : nat),
    simpleHash codeUnits = Z.abs (toInt32 (polynomialHash codeUnits))
    /\ 0 <= simpleHash codeUnits <= 2 ^ 31
    /\ ((0 < quoteCount)%nat ->
        0 <= dailyQuoteIndex quoteCount codeUnits < Z.of_nat quoteCount).
Proof.
  intros codeUnits quoteCount.
  assert (Hhash : simpleHash codeUnits = Z.abs (toInt32 (polynomialHash codeUnits))).
  { unfold simpleHash, polynomialHash. f_equal.
    apply fold_hashStep_polynomial. reflexivity. }
  split; [exact Hhash|]. split.
  - rewrite Hhash. pose proof (toInt32_range (polynomialHash codeUnits)) as H.
    change (2 ^ 31) with 2147483648 in *. lia.
  - intros Hn. unfold dailyQuoteIndex. apply Z.mod_pos_bound. lia.
Qed.

Lemma daily_quote_hash_witness :
  0 <= dailyQuoteIndex 50 [117; 49; 45; 50; 48; 50; 54] < 50.
Proof.
  apply (daily_quote_hash [117; 49; 45; 50; 48; 50; 54] 50). lia.
Defined.

End QuoteFacts.

(** ** Behaviour heatmap *)

Section HeatmapFacts.
Import Heatmap.

Lemma in_one_window (tzOffset : Z) (trade : Trade) :
  list_sum (map (fun w => if inWindow tzOffset w trade then 1 else 0)%nat TIME_WINDOWS)
  = 1%nat.
Proof.
  unfold inWindow, getTimeWindow.
  assert (Hh : 0 <= entryHour tzOffset trade < 24).
  { unfold entryHour. apply Z.mod_pos_bound. lia. }
  set (h := entryHour tzOffset trade) in *. clearbody h.
  assert (Hcases : h = 0 \/ h = 1 \/ h = 2 \/ h = 3 \/ h = 4 \/ h = 5 \/ h = 6 \/ h = 7
                   \/ h = 8 \/ h = 9 \/ h = 10 \/ h = 11 \/ h = 12 \/ h = 13 \/ h = 14
                   \/ h = 15 \/ h = 16 \/ h = 17 \/ h = 18 \/ h = 19 \/ h = 20 \/ h = 21
                   \/ h = 22 \/ h = 23) by lia.
  repeat (destruct Hcases as [Hcases|Hcases]; [subst h; reflexivity|]).
  subst h. reflexivity.
Qed.

Lemma list_sum_step (x : nat) (xs : list nat) : list_sum (x :: xs) = (x + list_sum xs)%nat.
Proof. reflexivity. Qed.

Lemma list_sum_plus {A} (f g : A -> nat) (xs : list A) :
  list_sum (map (fun x => f x + g x)%nat xs)
  = (list_sum (map f xs) + list_sum (map g xs))%nat.
Proof.
  induction xs as [|x rest IH]; cbn [map]; [reflexivity|].
  rewrite !list_sum_step, IH. lia.
Qed.

Lemma windows_cover (tzOffset : Z) (trades : list Trade) :
  list_sum (map (fun w => length (List.filter (inWindow tzOffset w) trades)) TIME_WINDOWS)
  = length trades.
Proof.
  induction trades as [|t rest IH]; [reflexivity|].
  rewrite (map_ext _ (fun w => ((if inWindow tzOffset w t then 1 else 0)
                                + length (List.filter (inWindow tzOffset w) rest))%nat)).
  - rewrite list_sum_plus, in_one_window, IH. reflexivity.
  - intros w. cbn [List.filter]. destruct (inWindow tzOffset w t); reflexivity.
Qed.

Lemma windowCell_count (sqrt : Q -> Q) (tzOffset : Z) (trades : list Trade)
      (plan : option TradingPlan) (w : TimeWindow) :
  tradeCount (windowCell sqrt tzOffset trades plan w)
  = length (List.filter (inWindow tzOffset w) trades).
Proof.
  unfold windowCell. destruct (List.filter (inWindow tzOffset w) trades); reflexivity.
Qed.

Lemma windowCell_shape (sqrt : Q -> Q) (tzOffset : Z) (trades : list Trade)
      (plan : option TradingPlan) (w : TimeWindow) :
  let c := windowCell sqrt tzOffset trades plan w in
  window c = w
  /\ (tradeCount c = 0%nat <-> cellScore c = None)
  /\ (cellScore c = None <-> color c = grey)
  /\ (forall s, cellScore c = Some s -> color c = getColorStatus s /\ (0 < tradeCount c)%nat).
Proof.
  cbv zeta. unfold windowCell.
  destruct (List.filter (inWindow tzOffset w) trades) as [|t rest].
  - cbn. repeat split; intros; try reflexivity; discriminate.
  - cbn [window tradeCount cellScore color length]. split; [reflexivity|].
    split; [split; intros; discriminate|]. split.
    + split; [intros; discriminate|]. unfold getColorStatus.
      destruct (70 <=? _); [intros; discriminate|].
      destruct (40 <=? _); intros; discriminate.
    + intros s Hs. apply (inj Some) in Hs. subst s. split; [reflexivity|lia].
Qed.

(** X27. The eight three-hour windows partition the trades: every trade falls
    into exactly one of them, whatever the timezone, so the trade counts of
    the windows add up to the total.  A window is grey exactly when it has
    no trade, which is exactly when it has no score. *)
Theorem heatmap_windows_partition_trades :
  forall (sqrt : Q -> Q) (tzOffset : Z) (trades : list Trade) (plan : option TradingPlan),
    let r := calculateBehaviorHeatmap sqrt tzOffset trades plan in
    list_sum (map tradeCount (windows r)) = length trades
    /\ totalTrades r = length trades
    /\ map window (windows r) = TIME_WINDOWS
    /\ Forall (fun c => (tradeCount c = 0%nat <-> cellScore c = None)
                        /\ (cellScore c = None <-> color c = grey))
              (windows r).
Proof.
  intros sqrt tzOffset trades plan. cbv zeta. unfold calculateBehaviorHeatmap.
  cbn [windows totalTrades]. split; [|split; [reflexivity|split]].
  - rewrite List.map_map.
    rewrite (map_ext _ (fun w => length (List.filter (inWindow tzOffset w) trades))).
    + apply windows_cover.
    + intros w. apply windowCell_count.
  - rewrite List.map_map. rewrite <- (List.map_id TIME_WINDOWS) at 2.
    apply map_ext. intros w. apply (windowCell_shape sqrt tzOffset trades plan w).
  - apply List.Forall_map. apply List.Forall_forall. intros w _.
    destruct (windowCell_shape sqrt tzOffset trades plan w) as (_ & H1 & H2 & _).
    split; assumption.
Qed.

End HeatmapFacts.

(** ** Deviation attribution *)

Section AttributionFacts.
Import PlanControl Attribution.

Lemma insertByWeight_In (x c : Cause) (sorted : list Cause) :
  In c (insertByWeight x sorted) <-> c = x \/ In c sorted.
Proof.
  induction sorted as [|y rest IH]; cbn [insertByWeight].
  - cbn. intuition congruence.
  - destruct (Qle_bool (weight y) (weight x)); cbn [In] in *; [intuition congruence|].
    rewrite IH. intuition congruence.
Qed.

Lemma sortByWeight_In (c : Cause) (causes : list Cause) :
  In c (sortByWeight causes) <-> In c causes.
Proof.
  unfold sortByWeight. induction causes as [|x rest IH]; cbn [fold_right]; [reflexivity|].
  rewrite insertByWeight_In, IH. cbn [In]. intuition congruence.
Qed.

Lemma insertByWeight_length (x : Cause) (sorted : list Cause) :
  length (insertByWeight x sorted) = S (length sorted).
Proof.
  induction sorted as [|y rest IH]; cbn [insertByWeight]; [reflexivity|].
  destruct (Qle_bool (weight y) (weight x)); cbn [length]; [reflexivity|].
  rewrite IH. reflexivity.
Qed.

Lemma sortByWeight_length (causes : list Cause) :
  length (sortByWeight causes) = length causes.
Proof.
  unfold sortByWeight. induction causes as [|x rest IH]; cbn [fold_right length]; [reflexivity|].
  rewrite insertByWeight_length, IH. reflexivity.
Qed.

Lemma insertByWeight_Forall (P : Cause -> Prop) (x : Cause) (sorted : list Cause) :
  P x -> Forall P sorted -> Forall P (insertByWeight x sorted).
Proof.
  intros Hx Hs. apply List.Forall_forall. intros c Hc.
  apply insertByWeight_In in Hc as [->|Hc]; [exact Hx|].
  rewrite List.Forall_forall in Hs. apply Hs. exact Hc.
Qed.

(** The first cause after sorting weighs at least as much as every other. *)
Lemma sortByWeight_head (causes : list Cause) :
  match sortByWeight causes with
  | [] => True
  | top :: _ => Forall (fun c => weight c <= weight top)%Q (sortByWeight causes)
  end.
Proof.
  unfold sortByWeight. induction causes as [|x rest IH]; [exact I|].
  cbn [fold_right]. set (s := fold_right insertByWeight [] rest) in *.
  destruct s as [|y s'].
  - cbn. constructor; [apply Qle_refl|constructor].
  - cbn [insertByWeight]. destruct (Qle_bool (weight y) (weight x)) eqn:E.
    + apply Qle_bool_iff in E. constructor; [apply Qle_refl|].
      eapply List.Forall_impl; [|exact IH]. intros c Hc. cbn beta in Hc.
      eapply Qle_trans; [exact Hc|exact E].
    + assert (Hlt : (weight x < weight y)%Q).
      { apply Qnot_le_lt. intros H. apply Qle_bool_iff in H. rewrite H in E. discriminate. }
      constructor; [apply Qle_refl|].
      apply insertByWeight_Forall; [apply Qlt_le_weak; exact Hlt|].
      exact (List.Forall_inv_tail IH).
Qed.

Lemma causeIf_keeps (cond : bool) (c : CauseType) (w : Q) (causes : list Cause) :
  causes <> [] -> causeIf cond c w causes <> [].
Proof.
  intros H. unfold causeIf. destruct cond; [|exact H].
  intros E. apply app_eq_nil in E as [E _]. contradiction.
Qed.

(** X28. The primary cause of the deviations is a candidate of the greatest
    weight; there is one exactly when there is a candidate, and it heads the
    (at most three) patterns reported.  With a battery below 50 and a trade
    scoring below 70, low battery is always a candidate, so a primary cause
    is always named. *)
Theorem attribution_primary_is_heaviest :
  forall (tradeScores : list ScoredTrade) (trades : list Trade)
         (mentalBatteryLevel : option Z),
    let a := analyzeDeviationAttribution tradeScores trades mentalBatteryLevel in
    let cs := candidateCauses tradeScores trades mentalBatteryLevel in
    (primaryCause a = None <-> cs = [])
    /\ (forall top, primaryCause a = Some top ->
        exists c, In c cs /\ causeType c = top
                  /\ Forall (fun c' => weight c' <= weight c)%Q cs)
    /\ length (patterns a) = Nat.min 3 (length cs)
    /\ primaryCause a = head (patterns a)
    /\ (forall level,
          mentalBatteryLevel = Some level -> level < 50 ->
          existsb (fun ts => score (tradeScore ts) <? 70) tradeScores = true ->
          primaryCause a <> None).
Proof.
  intros tradeScores trades battery. cbv zeta.
  assert (Hmain :
    (primaryCause (analyzeDeviationAttribution tradeScores trades battery) = None
     <-> candidateCauses tradeScores trades battery = [])
    /\ (forall top,
          primaryCause (analyzeDeviationAttribution tradeScores trades battery) = Some top ->
          exists c, In c (candidateCauses tradeScores trades battery) /\ causeType c = top
                    /\ Forall (fun c' => weight c' <= weight c)%Q
                              (candidateCauses tradeScores trades battery))
    /\ length (patterns (analyzeDeviationAttribution tradeScores trades battery))
       = Nat.min 3 (length (candidateCauses tradeScores trades battery))
    /\ primaryCause (analyzeDeviationAttribution tradeScores trades battery)
       = head (patterns (analyzeDeviationAttribution tradeScores trades battery))).
  { unfold analyzeDeviationAttribution.
    destruct (List.filter (fun ts => score (tradeScore ts) <? 70) tradeScores)
      as [|d rest] eqn:Hdev.
    - assert (Hcs : candidateCauses tradeScores trades battery = []).
      { unfold candidateCauses. rewrite Hdev.
        destruct battery as [z|]; [destruct (z <? 50)|]; reflexivity. }
      rewrite Hcs. cbn. repeat split; intros; try reflexivity; discriminate.
    - pose proof (sortByWeight_head (candidateCauses tradeScores trades battery)) as Hhead.
      pose proof (sortByWeight_length (candidateCauses tradeScores trades battery)) as Hlen.
      pose proof (fun c => sortByWeight_In c (candidateCauses tradeScores trades battery))
        as Hin.
      destruct (sortByWeight (candidateCauses tradeScores trades battery))
        as [|top sorted].
      + destruct (candidateCauses tradeScores trades battery); [|discriminate].
        cbn. repeat split; intros; try reflexivity; discriminate.
      + cbn [primaryCause patterns]. split; [|split; [|split]].
        * split; [discriminate|]. intros E. rewrite E in Hlen. discriminate.
        * intros t Ht. apply (inj Some) in Ht. subst t. exists top.
          split; [apply Hin; left; reflexivity|]. split; [reflexivity|].
          apply List.Forall_forall. intros c Hc. apply Hin in Hc.
          rewrite List.Forall_forall in Hhead. apply Hhead. exact Hc.
        * rewrite List.length_map, length_firstn, Hlen. reflexivity.
        * reflexivity. }
  destruct Hmain as (H1 & H2 & H3 & H4).
  split; [exact H1|]. split; [exact H2|]. split; [exact H3|]. split; [exact H4|].
  intros level Hb Hlow Hex Hnone. apply H1 in Hnone. revert Hnone.
  unfold candidateCauses. subst battery.
  assert (Hdev : (0 <? length (List.filter (fun ts => (score (tradeScore ts) <? 70)%Z)
                                           tradeScores))%nat = true).
  { apply existsb_exists in Hex as (ts & Hts & Hscore). apply Nat.ltb_lt.
    assert (Hin : In ts (List.filter (fun ts => score (tradeScore ts) <? 70) tradeScores)).
    { apply List.filter_In. split; assumption. }
    destruct (List.filter _ tradeScores); [destruct Hin|cbn [length]; lia]. }
  rewrite Hdev. replace (level <? 50) with true by (symmetry; apply Z.ltb_lt; exact Hlow).
  cbn [andb]. do 6 apply causeIf_keeps. cbn. discriminate.
Qed.

Lemma attribution_primary_is_heaviest_witness :
  primaryCause
    (analyzeDeviationAttribution
       (tradeScores (calculatePlanControl Examples.lastHourTrades (Some Examples.plan)))
       Examples.lastHourTrades (Some 30))
  <> None.
Proof.
  destruct (attribution_primary_is_heaviest
              (tradeScores (calculatePlanControl Examples.lastHourTrades (Some Examples.plan)))
              Examples.lastHourTrades (Some 30)) as (_ & _ & _ & _ & H).
  apply (H 30).
  - reflexivity.
  - lia.
  - vm_compute. reflexivity.
Defined.

End AttributionFacts.

(** ** Consistency trend *)

Section TrendFacts.
Import Trend.

Lemma default_some {A} (d x : A) : default d (Some x) = x.
Proof. reflexivity. Qed.

Lemma default_none {A} (d : A) : default d None = d.
Proof. reflexivity. Qed.

Lemma group_lookup (trades : list Trade) (acc : gmap Z (list Trade)) (d : Z) :
  let grouped :=
    fold_left (fun grouped trade =>
                 <[Metrics.dayKey trade :=
                     default [] (grouped !! Metrics.dayKey trade) ++ [trade]]> grouped)
              trades acc in
  default [] (grouped !! d)
  = default [] (acc !! d) ++ List.filter (fun t => Metrics.dayKey t =? d) trades
  /\ (grouped !! d = None
      <-> acc !! d = None /\ List.filter (fun t => Metrics.dayKey t =? d) trades = []).
Proof.
  cbv zeta. revert acc. induction trades as [|t rest IH]; intros acc; cbn [fold_left List.filter].
  - rewrite app_nil_r. split; [reflexivity|]. split; [intros H; split; [exact H|reflexivity]|].
    intros [H _]. exact H.
  - specialize (IH (<[Metrics.dayKey t :=
                        default [] (acc !! Metrics.dayKey t) ++ [t]]> acc)).
    destruct IH as [IH1 IH2]. rewrite IH1, IH2. rewrite lookup_insert.
    destruct (decide (Metrics.dayKey t = d)) as [E|E].
    + subst d. rewrite Z.eqb_refl, default_some, <- app_assoc. cbn [app].
      split; [reflexivity|].
      split; [intros [H _]; discriminate H|intros [_ H]; discriminate H].
    + apply Z.eqb_neq in E. rewrite E. split; reflexivity.
Qed.

Lemma groupTradesByDay_lookup (trades : list Trade) (d : Z) :
  groupTradesByDay trades !! d
  = match List.filter (fun t => Metrics.dayKey t =? d) trades with
    | [] => None
    | dayTrades => Some dayTrades
    end.
Proof.
  unfold groupTradesByDay.
  destruct (group_lookup trades ∅ d) as [H1 H2]. cbv zeta in H1, H2.
  rewrite lookup_empty in H1, H2. rewrite default_none in H1. cbn [app] in H1.
  destruct (List.filter (fun t => Metrics.dayKey t =? d) trades) as [|t rest] eqn:Hf.
  - apply H2. split; reflexivity.
  - destruct (fold_left _ trades ∅ !! d) as [l|] eqn:Hl.
    + rewrite default_some in H1. rewrite H1. reflexivity.
    + exfalso. destruct H2 as [H2 _]. destruct (H2 eq_refl) as [_ H]. discriminate.
Qed.

Lemma insertByDate_In (isoDate : Z -> string) (x y : Z) (sorted : list Z) :
  In y (insertByDate isoDate x sorted) <-> y = x \/ In y sorted.
Proof.
  induction sorted as [|z rest IH]; cbn [insertByDate].
  - cbn. intuition congruence.
  - destruct (String.leb (isoDate x) (isoDate z)); cbn [In] in *; [intuition congruence|].
    rewrite IH. intuition congruence.
Qed.

Lemma sortDates_In (isoDate : Z -> string) (y : Z) (xs : list Z) :
  In y (sortDates isoDate xs) <-> In y xs.
Proof.
  unfold sortDates. induction xs as [|x rest IH]; cbn [fold_right]; [reflexivity|].
  rewrite insertByDate_In, IH. cbn [In]. intuition congruence.
Qed.

Lemma insertByDate_NoDup (isoDate : Z -> string) (x : Z) (sorted : list Z) :
  ~ In x sorted -> List.NoDup sorted -> List.NoDup (insertByDate isoDate x sorted).
Proof.
  induction sorted as [|z rest IH]; intros Hnot Hnd; cbn [insertByDate].
  - constructor; [intros [] | constructor].
  - destruct (String.leb (isoDate x) (isoDate z)); [constructor; assumption|].
    apply List.NoDup_cons_iff in Hnd. destruct Hnd as [Hz Hrest].
    constructor.
    + rewrite insertByDate_In. intros [E|Hin]; [|exact (Hz Hin)].
      apply Hnot. left. exact E.
    + apply IH; [|exact Hrest]. intros Hin. apply Hnot. right. exact Hin.
Qed.

Lemma sortDates_NoDup (isoDate : Z -> string) (xs : list Z) :
  List.NoDup xs -> List.NoDup (sortDates isoDate xs).
Proof.
  unfold sortDates. induction 1 as [|x rest Hnot Hnd IH]; [constructor|].
  cbn [fold_right]. apply insertByDate_NoDup; [|exact IH].
  intros Hin. apply Hnot. apply (sortDates_In isoDate). exact Hin.
Qed.

Lemma insertByDate_ordered (isoDate : Z -> string) (x : Z) (sorted : list Z) :
  inDateOrder isoDate sorted -> inDateOrder isoDate (insertByDate isoDate x sorted).
Proof.
  induction sorted as [|z rest IH]; intros Hs; [exact I|].
  cbn [insertByDate]. destruct (String.leb (isoDate x) (isoDate z)) eqn:Exz.
  - split; assumption.
  - assert (Hzx : String.leb (isoDate z) (isoDate x) = true).
    { destruct (String.leb_total (isoDate x) (isoDate z)) as [H|H]; [congruence | exact H]. }
    destruct rest as [|y rest'].
    + cbn [insertByDate]. split; [exact Hzx | exact I].
    + destruct Hs as [Hzy Hrest]. specialize (IH Hrest).
      cbn [insertByDate] in *.
      destruct (String.leb (isoDate x) (isoDate y)); split; assumption.
Qed.

Lemma sortDates_ordered (isoDate : Z -> string) (xs : list Z) :
  inDateOrder isoDate (sortDates isoDate xs).
Proof.
  unfold sortDates. induction xs as [|x rest IH]; [exact I|].
  cbn [fold_right]. apply insertByDate_ordered. exact IH.
Qed.

Lemma dailyScore_range (sqrt : Q -> Q) (trades : list Trade) (plan : option TradingPlan)
      (dailyData : DailyScore) :
  calculateDailyScore sqrt trades plan = Some dailyData ->
  inRange (score dailyData) /\ tradeCount dailyData = length trades.
Proof.
  unfold calculateDailyScore. destruct trades as [|t rest]; [discriminate|].
  intros H. apply (inj Some) in H. subst dailyData. cbn [score tradeCount].
  split; [|reflexivity]. split.
  - apply round_ge. apply Q.le_max_l.
  - apply round_le. apply Q.max_lub; [discriminate|]. apply Q.le_min_l.
Qed.

Lemma trendPoints_days (sqrt : Q -> Q) (plan : option TradingPlan)
      (grouped : gmap Z (list Trade)) (days : list Z) :
  (forall d, In d days -> exists l, grouped !! d = Some l /\ l <> []) ->
  map date (trendPoints sqrt plan grouped days) = days
  /\ Forall (fun p => pointTradeCount p = length (default [] (grouped !! date p))
                      /\ inRange (pointScore p))
            (trendPoints sqrt plan grouped days).
Proof.
  induction days as [|d rest IH]; intros Hdays; [split; [reflexivity|constructor]|].
  destruct (Hdays d (or_introl eq_refl)) as (l & Hl & Hne).
  destruct IH as [IH1 IH2]; [intros x Hx; apply Hdays; right; exact Hx|].
  unfold trendPoints in *. cbn [omap list_omap].
  rewrite Hl, default_some.
  destruct (calculateDailyScore sqrt l plan) as [dailyData|] eqn:Hscore.
  - destruct (dailyScore_range sqrt l plan dailyData Hscore) as [Hr Hc].
    cbn [map date]. split; [f_equal; exact IH1|].
    constructor; [|exact IH2]. cbn [pointTradeCount pointScore date].
    rewrite Hl, default_some. split; assumption.
  - unfold calculateDailyScore in Hscore. destruct l; [contradiction|discriminate].
Qed.

Lemma meanZ_range (scores : list Z) :
  scores <> [] -> Forall inRange scores -> inRange (round (meanZ scores)).
Proof.
  intros Hne Hall. unfold meanZ.
  pose proof (fold_add_bounds 0 100 scores 0 Hall) as Hs.
  set (total := fold_left Z.add scores 0) in *.
  assert (Hn : (0 < ofNat (length scores))%Q).
  { apply ofNat_pos. destruct scores; [contradiction|cbn [length]; lia]. }
  split.
  - apply round_ge. apply Qle_shift_div_l; [exact Hn|].
    unfold ofNat. rewrite <- inject_Z_mult, <- Zle_Qle. lia.
  - apply round_le. apply Qle_shift_div_r; [exact Hn|].
    unfold ofNat. rewrite <- inject_Z_mult, <- Zle_Qle. lia.
Qed.

(** X29. The trend has exactly one point for each calendar day on which a trade
    of the range was entered, and the points come in the order of their
    ISO date strings, compared code unit by code unit; a point counts the
    trades of its day, and its score and the average of the scores lie in
    0..100. *)
Theorem consistency_trend_has_a_point_per_day :
  forall (sqrt : Q -> Q) (isoDate : Z -> string) (now : Z) (trades : list Trade)
         (plan : option TradingPlan) (daysOption : DaysOption),
    let r := calculateConsistencyTrend sqrt isoDate now trades plan daysOption in
    let recent :=
      List.filter (fun t => startDate now trades daysOption <=? entryTime t) trades in
    List.NoDup (map date (trend r))
    /\ inDateOrder isoDate (map date (trend r))
    /\ (forall d, In d (map date (trend r))
                  <-> exists t, In t recent /\ Metrics.dayKey t = d)
    /\ Forall (fun p => pointTradeCount p
                        = count (fun t => Metrics.dayKey t =? date p) recent
                        /\ inRange (pointScore p))
              (trend r)
    /\ daysWithData (summary r) = length (trend r)
    /\ inRange (averageScore (summary r)).
Proof.
  intros sqrt isoDate now trades plan daysOption. cbv zeta.
  destruct trades as [|t0 rest0].
  { cbn. split; [constructor|]. split; [exact I|]. split.
    - intros d. split; [intros []|intros (t & [] & _)].
    - split; [constructor|]. split; [reflexivity|]. unfold inRange. lia. }
  unfold calculateConsistencyTrend. cbn [trend summary daysWithData averageScore].
  set (trades := t0 :: rest0).
  set (recent := List.filter (fun t => startDate now trades daysOption <=? entryTime t) trades).
  set (grouped := groupTradesByDay recent).
  set (days := sortDates isoDate (map fst (map_to_list grouped))).
  assert (Hkeys : forall d, In d days <-> exists l, grouped !! d = Some l).
  { intros d. subst days. rewrite sortDates_In, <- list_elem_of_In.
    change (map fst (map_to_list grouped)) with (fst <$> map_to_list grouped).
    rewrite list_elem_of_fmap. split.
    - intros ([k l] & -> & Hin). apply elem_of_map_to_list in Hin. exists l. exact Hin.
    - intros (l & Hl). exists (d, l). split; [reflexivity|].
      apply elem_of_map_to_list. exact Hl. }
  assert (Hgroup : forall d l, grouped !! d = Some l ->
                     l = List.filter (fun t => Metrics.dayKey t =? d) recent /\ l <> []).
  { intros d l Hl. subst grouped. rewrite groupTradesByDay_lookup in Hl.
    destruct (List.filter (fun t => Metrics.dayKey t =? d) recent) as [|x xs];
      [discriminate|].
    apply (inj Some) in Hl. subst l. split; [reflexivity|discriminate]. }
  destruct (trendPoints_days sqrt plan grouped days) as [Hdates Hpoints].
  { intros d Hd. apply Hkeys in Hd as (l & Hl). exists l. split; [exact Hl|].
    apply (Hgroup d l Hl). }
  set (points := trendPoints sqrt plan grouped days) in *.
  split.
  { rewrite Hdates. subst days. apply sortDates_NoDup.
    change (map fst (map_to_list grouped)) with (fst <$> map_to_list grouped).
    apply NoDup_ListNoDup. apply NoDup_fst_map_to_list. }
  split; [rewrite Hdates; subst days; apply sortDates_ordered|].
  split.
  { intros d. rewrite Hdates, Hkeys. split.
    - intros (l & Hl). destruct (Hgroup d l Hl) as [Heq Hne].
      destruct l as [|t l']; [contradiction|]. exists t.
      assert (Hin : In t (List.filter (fun t => Metrics.dayKey t =? d) recent))
        by (rewrite <- Heq; left; reflexivity).
      apply List.filter_In in Hin as [Hin Hday]. split; [exact Hin|].
      apply Z.eqb_eq. exact Hday.
    - intros (t & Hin & Hday). subst grouped. rewrite groupTradesByDay_lookup.
      assert (Hf : In t (List.filter (fun t => Metrics.dayKey t =? d) recent)).
      { apply List.filter_In. split; [exact Hin|]. apply Z.eqb_eq. exact Hday. }
      destruct (List.filter (fun t => Metrics.dayKey t =? d) recent) as [|x xs];
        [destruct Hf|]. eexists. reflexivity. }
  split.
  { eapply List.Forall_impl; [|exact Hpoints]. intros p [Hc Hr]. split; [|exact Hr].
    rewrite Hc. subst grouped. rewrite groupTradesByDay_lookup. unfold count.
    destruct (List.filter (fun t => Metrics.dayKey t =? date p) recent); reflexivity. }
  split; [reflexivity|].
  destruct (Nat.ltb_spec 0 (length (map pointScore points))) as [Hlen|Hlen];
    [|unfold inRange; lia].
  apply meanZ_range.
  - intros E. rewrite E in Hlen. cbn [length] in Hlen. lia.
  - apply List.Forall_map. eapply List.Forall_impl; [|exact Hpoints].
    intros p [_ Hr]. exact Hr.
Qed.

End TrendFacts.

(** ** Heatmap insight *)

Section HeatmapInsightFacts.
Import Heatmap HeatmapInsight.

Lemma count_pos_exists {A} (p : A -> bool) (xs : list A) :
  (0 < count p xs)%nat -> exists x, In x xs /\ p x = true.
Proof.
  unfold count. intros H.
  destruct (List.filter p xs) as [|x rest] eqn:E; [cbn [length] in H; lia|].
  exists x. apply List.filter_In. rewrite E. left. reflexivity.
Qed.

Lemma insertByScore_In (x c : WindowCell) (sorted : list WindowCell) :
  In c (insertByScore x sorted) <-> c = x \/ In c sorted.
Proof.
  induction sorted as [|y rest IH]; cbn [insertByScore].
  - cbn. intuition congruence.
  - destruct (scoreOf y <=? scoreOf x); cbn [In] in *; [intuition congruence|].
    rewrite IH. intuition congruence.
Qed.

Lemma sortedByScore_In (c : WindowCell) (cells : list WindowCell) :
  In c (fold_right insertByScore [] cells) <-> In c cells.
Proof.
  induction cells as [|x rest IH]; cbn [fold_right]; [reflexivity|].
  rewrite insertByScore_In, IH. cbn [In]. intuition congruence.
Qed.

Lemma last_In {A} (xs : list A) (d : A) : xs <> [] -> In (List.last xs d) xs.
Proof.
  induction xs as [|x rest IH]; intros Hne; [contradiction|].
  destruct rest as [|y rest'].
  - left. reflexivity.
  - change (List.last (x :: y :: rest') d) with (List.last (y :: rest') d).
    right. apply IH. discriminate.
Qed.

Lemma list_sum_zero (xs : list nat) : Forall (fun n => n = 0%nat) xs -> list_sum xs = 0%nat.
Proof.
  induction 1 as [|x rest Hx Hrest IH]; [reflexivity|].
  rewrite list_sum_step, Hx, IH. reflexivity.
Qed.

Lemma list_sum_zero_inv (xs : list nat) : list_sum xs = 0%nat -> Forall (fun n => n = 0%nat) xs.
Proof.
  induction xs as [|x rest IH]; intros H; [constructor|].
  rewrite list_sum_step in H. constructor; [lia|]. apply IH. lia.
Qed.

(** What the insight says of a list of cells in which a cell has a score
    exactly when it has trades, and its colour is that of its score. *)
Lemma deriveHeatmapInsight_backed (cells : list WindowCell) :
  Forall (fun c => (tradeCount c = 0%nat <-> cellScore c = None)
                   /\ (forall s, cellScore c = Some s -> color c = getColorStatus s))
         cells ->
  (pattern (deriveHeatmapInsight cells) = InsufficientData
   <-> Forall (fun c => tradeCount c = 0%nat) cells)
  /\ (insightType (deriveHeatmapInsight cells) = positive ->
      exists c s, In c cells /\ cellScore c = Some s /\ 70 <= s)
  /\ (insightType (deriveHeatmapInsight cells) = warning ->
      exists c s, In c cells /\ cellScore c = Some s /\ s < 50).
Proof.
  intros Hok. rewrite List.Forall_forall in Hok.
  assert (Hactive : forall c, In c (List.filter isActive cells) ->
                      In c cells /\ (0 < tradeCount c)%nat
                      /\ exists s, cellScore c = Some s /\ scoreOf c = s
                                   /\ color c = getColorStatus s).
  { intros c Hc. apply List.filter_In in Hc as [Hin Hact]. split; [exact Hin|].
    unfold isActive in Hact. apply andb_true_iff in Hact as [Hs Ht].
    apply Nat.ltb_lt in Ht. split; [exact Ht|].
    destruct (cellScore c) as [s|] eqn:Hscore; [|discriminate].
    exists s. split; [reflexivity|]. split; [unfold scoreOf; rewrite Hscore; reflexivity|].
    apply (Hok c Hin). exact Hscore. }
  unfold deriveHeatmapInsight.
  destruct (List.filter isActive cells) as [|first rest] eqn:Hfilter.
  { cbn [pattern insightType]. split; [|split; intros; discriminate].
    split; [|reflexivity]. intros _. apply List.Forall_forall. intros c Hc.
    destruct (Nat.eq_dec (tradeCount c) 0%nat) as [E|E]; [exact E|]. exfalso.
    assert (Hin : In c (List.filter isActive cells)).
    { apply List.filter_In. split; [exact Hc|]. unfold isActive.
      destruct (cellScore c) eqn:Hs.
      - cbn [notNull andb]. apply Nat.ltb_lt. lia.
      - exfalso. apply E. apply (Hok c Hc). exact Hs. }
    rewrite Hfilter in Hin. destruct Hin. }
  cbv zeta.
  set (active := first :: rest) in *.
  assert (Hfirst : In first active) by (left; reflexivity).
  assert (Hnot : ~ Forall (fun c => tradeCount c = 0%nat) cells).
  { intros Hall. rewrite List.Forall_forall in Hall.
    destruct (Hactive first Hfirst) as (Hin & Hpos & _). specialize (Hall first Hin). lia. }
  set (sorted := fold_right insertByScore [] active).
  set (byActivity := fold_right insertByActivity [] active).
  set (bad := count (fun w => (3 <=? tradeCount w)%nat && (scoreOf w <? 50)) active).
  set (good := count (fun w => (tradeCount w <=? 2)%nat && (70 <=? scoreOf w)) active).
  set (reds := List.filter isRed active).
  set (greens := List.filter isGreen active).
  assert (Hwitness : forall c (P : Z -> Prop),
            In c active -> P (scoreOf c) ->
            exists c s, In c cells /\ cellScore c = Some s /\ P s).
  { intros c P Hc HP. destruct (Hactive c Hc) as (Hin & _ & s & Hs & Hsc & _).
    exists c, s. split; [exact Hin|]. split; [exact Hs|]. rewrite <- Hsc. exact HP. }
  destruct ((0 <? bad)%nat && (scoreOf (List.hd first byActivity) <? 50)) eqn:C1.
  { cbn [pattern insightType]. split; [split; [discriminate|contradiction]|].
    split; [discriminate|]. intros _.
    apply andb_true_iff in C1 as [C1 _]. apply Nat.ltb_lt in C1.
    destruct (count_pos_exists _ _ C1) as (c & Hc & Hp).
    apply andb_true_iff in Hp as [_ Hp]. apply Z.ltb_lt in Hp.
    apply (Hwitness c (fun s => s < 50) Hc Hp). }
  destruct ((0 <? good)%nat && (tradeCount (List.hd first sorted) <=? 2)%nat) eqn:C2.
  { cbn [pattern insightType]. split; [split; [discriminate|contradiction]|].
    split; [|discriminate]. intros _.
    apply andb_true_iff in C2 as [C2 _]. apply Nat.ltb_lt in C2.
    destruct (count_pos_exists _ _ C2) as (c & Hc & Hp).
    apply andb_true_iff in Hp as [_ Hp]. apply Z.leb_le in Hp.
    apply (Hwitness c (fun s => 70 <= s) Hc Hp). }
  destruct (2 <=? length reds)%nat eqn:C3.
  { cbn [pattern insightType]. split; [split; [discriminate|contradiction]|].
    split; [discriminate|]. intros _. apply Nat.leb_le in C3.
    destruct reds as [|c reds'] eqn:Hreds; [cbn [length] in C3; lia|].
    assert (Hc : In c (List.filter isRed active)) by (fold reds; rewrite Hreds; left; reflexivity).
    apply List.filter_In in Hc as [Hc Hred].
    destruct (Hactive c Hc) as (Hin & _ & s & Hs & _ & Hcol).
    exists c, s. split; [exact Hin|]. split; [exact Hs|].
    unfold isRed in Hred. rewrite Hcol in Hred. unfold getColorStatus in Hred.
    destruct (Z.leb_spec 70 s); [discriminate|].
    destruct (Z.leb_spec 40 s); [discriminate|]. lia. }
  destruct (Qgeb (ofNat (length greens)) (ofNat (length active) / 2)) eqn:C4.
  { cbn [pattern insightType]. split; [split; [discriminate|contradiction]|].
    split; [|discriminate]. intros _. apply Qgeb_le in C4.
    destruct greens as [|c greens'] eqn:Hgreens.
    - exfalso. cbn [length] in C4.
      assert (Hpos : (0 < ofNat (length active))%Q)
        by (apply ofNat_pos; unfold active; cbn [length]; lia).
      set (n := ofNat (length active)) in *. clearbody n.
      change (ofNat 0) with 0%Q in C4. unfold Qdiv in C4.
      change (/ 2)%Q with (1 # 2)%Q in C4. lra.
    - assert (Hc : In c (List.filter isGreen active))
        by (fold greens; rewrite Hgreens; left; reflexivity).
      apply List.filter_In in Hc as [Hc Hgreen].
      destruct (Hactive c Hc) as (Hin & _ & s & Hs & _ & Hcol).
      exists c, s. split; [exact Hin|]. split; [exact Hs|].
      unfold isGreen in Hgreen. rewrite Hcol in Hgreen. unfold getColorStatus in Hgreen.
      destruct (Z.leb_spec 70 s); [lia|].
      destruct (40 <=? s); discriminate. }
  destruct ((scoreOf (List.last sorted first) <? 40) && (70 <? scoreOf (List.hd first sorted)))
    eqn:C5.
  { cbn [pattern insightType]. split; [split; [discriminate|contradiction]|].
    split; [discriminate|]. intros _.
    apply andb_true_iff in C5 as [C5 _]. apply Z.ltb_lt in C5.
    assert (Hsorted : sorted <> []).
    { intros E. assert (Hin : In first sorted) by (apply sortedByScore_In; exact Hfirst).
      rewrite E in Hin. destruct Hin. }
    assert (Hworst : In (List.last sorted first) active).
    { apply sortedByScore_In. apply (last_In sorted first Hsorted). }
    apply (Hwitness _ (fun s => s < 50) Hworst). lia. }
  cbn [pattern insightType]. split; [split; [discriminate|contradiction]|].
  split; discriminate.
Qed.

(** X30. The insight drawn from the heatmap is backed by a window: "insufficient
    data" is reported exactly when there is no trade at all, a positive
    insight only when some window scores 70 or more, and a warning only when
    some window scores below 50. *)
Theorem heatmap_insight_is_backed_by_a_window :
  forall (sqrt : Q -> Q) (tzOffset : Z) (trades : list Trade) (plan : option TradingPlan),
    let r := calculateBehaviorHeatmapWithInsight sqrt tzOffset trades plan in
    (pattern (snd r) = InsufficientData <-> trades = [])
    /\ (insightType (snd r) = positive ->
        exists c s, In c (windows (fst r)) /\ cellScore c = Some s /\ 70 <= s)
    /\ (insightType (snd r) = warning ->
        exists c s, In c (windows (fst r)) /\ cellScore c = Some s /\ s < 50).
Proof.
  intros sqrt tzOffset trades plan. cbv zeta.
  unfold calculateBehaviorHeatmapWithInsight. cbn [fst snd].
  set (cells := windows (calculateBehaviorHeatmap sqrt tzOffset trades plan)).
  assert (Hok : Forall (fun c => (tradeCount c = 0%nat <-> cellScore c = None)
                                 /\ (forall s, cellScore c = Some s
                                               -> color c = getColorStatus s))
                       cells).
  { subst cells. unfold calculateBehaviorHeatmap. cbn [windows].
    apply List.Forall_map. apply List.Forall_forall. intros w _.
    destruct (windowCell_shape sqrt tzOffset trades plan w) as (_ & H1 & _ & H3).
    split; [exact H1|]. intros s Hs. apply (H3 s Hs). }
  destruct (deriveHeatmapInsight_backed cells Hok) as (H1 & H2 & H3).
  split; [|split; assumption].
  rewrite H1. subst cells. unfold calculateBehaviorHeatmap. cbn [windows].
  pose proof (windows_cover tzOffset trades) as Hcover.
  split.
  - intros Hall. apply length_zero_iff_nil. rewrite <- Hcover.
    apply list_sum_zero. apply List.Forall_map.
    rewrite List.Forall_map in Hall.
    eapply List.Forall_impl; [|exact Hall]. intros w Hw. cbn beta in Hw.
    rewrite windowCell_count in Hw. exact Hw.
  - intros ->. apply List.Forall_map. apply List.Forall_forall. intros w _.
    rewrite windowCell_count. reflexivity.
Qed.

End HeatmapInsightFacts.
